(** * ws2811.c: the WS281x PWM/DMA driver, embedded and verified

    A shallow embedding of [ws2811.c].  C integers are [Z] with the
    32-bit wrap-around written out, the raw PWM buffer is a list of
    32-bit words indexed with stdpp's list lookup/insert, and every
    operation that can fault in C (an access past the end of an array,
    a null dereference, a second free) returns [Fault].  Part I holds
    the model, Part II what is proved of it. *)

(** * Part I: the model *)

From Stdlib Require Import ZArith Lia Bool List.
From stdpp Require Import base option list gmap.

Local Open Scope Z_scope.

(** ** Machine integers *)

(** Conversion to [uint32_t]. *)
Definition uint32 (z : Z) : Z := z mod 2 ^ 32.

(** Largest [int]. *)
Definition INT_MAX : Z := 2 ^ 31 - 1.

(** Conversion of a [uint32_t] to [int32_t] (two's complement). *)
Definition int32 (z : Z) : Z :=
  if uint32 z <? 2 ^ 31 then uint32 z else uint32 z - 2 ^ 32.

(** ** Sizing macros (ws2811.c, lines 50-62) *)

(** Modelled from the spec: [RPI_PWM_CHANNELS] is declared in [pwm.h],
    which is missing from the sources.  The spec speaks of two
    PWM outputs fed through one serializer, and [pwm_raw_init] and
    [ws2811_render] step the word cursor by the literal [2]. *)
Definition RPI_PWM_CHANNELS : Z := 2.

Definition LED_RESET_uS : Z := 55.

(** [(LED_RESET_uS * (freq * 3)) / 1000000] in [uint32_t] arithmetic. *)
Definition LED_RESET_BITS (freq : Z) : Z :=
  uint32 (LED_RESET_uS * uint32 (freq * 3)) / 1000000.

(** [LED_BIT_COUNT(leds, freq)]: [leds] is an [int], [freq] a
    [uint32_t] (as in [setup_pwm]); the sum is taken in [uint32_t].
    The product [leds * 3 * 8 * 3] is an [int] product: C leaves its
    overflow undefined, the model wraps it, and the theorems about it
    assume [leds * 72 <= INT_MAX]. *)
Definition LED_BIT_COUNT (leds freq : Z) : Z :=
  uint32 (uint32 (leds * 3 * 8 * 3) + LED_RESET_BITS freq).

(** [PWM_BYTE_COUNT(leds, freq)]; [~0x7] is the [int] -8, converted to
    [uint32_t] by the [&]. *)
Definition PWM_BYTE_COUNT (leds freq : Z) : Z :=
  uint32
    (uint32 (uint32 (Z.land (Z.shiftr (LED_BIT_COUNT leds freq) 3)
                            (uint32 (Z.lnot 7)) + 4) + 4)
     * RPI_PWM_CHANNELS).

Definition SYMBOL_HIGH : Z := 6.
Definition SYMBOL_LOW : Z := 4.

(** The sizing formula as the specification words it, over unbounded
    integers: the bit count, converted to bytes, rounded down to a
    multiple of 8, padded by 8 bytes, times the number of channels. *)
Definition requiredBitCount_spec (n freq : Z) : Z :=
  n * 72 + (55 * (freq * 3)) / 1000000.

Definition requiredByteCount_spec (n freq : Z) : Z :=
  (requiredBitCount_spec n freq / 8 / 8 * 8 + 8) * RPI_PWM_CHANNELS.

(** ** Results of operations that can fault or poll forever *)

(** [Fault] stands for C undefined behaviour (an access outside an
    array, a null dereference, freeing a block that is not live);
    [Timeout] for a polling loop that is still running when the fuel
    of the model is used up. *)
Inductive result (A : Type) : Type :=
  | Ok (a : A)
  | Fault
  | Timeout.
Arguments Ok {A} a.
Arguments Fault {A}.
Arguments Timeout {A}.

#[global] Instance result_ret : MRet result := fun _ a => Ok a.
#[global] Instance result_bind : MBind result := fun _ _ f m =>
  match m with
  | Ok a => f a
  | Fault => Fault
  | Timeout => Timeout
  end.

(** A C [for] loop over the elements of [l], threading the state. *)
Fixpoint foldM {A S : Type} (f : A -> S -> result S) (l : list A) (s : S)
  : result S :=
  match l with
  | [] => Ok s
  | a :: l' => s' ← f a s; foldM f l' s'
  end.

(** ** The encoder of [ws2811_render] (ws2811.c, lines 681-740) *)

(** A channel as the encoder reads it: the inversion flag, the LED
    count and the contents of the array [leds] points to. *)
Record ws2811_channel_t : Type := mk_channel {
  gpionum : Z;
  invert : Z;
  count : Z;
  leds : list Z
}.

(** The state of the loop nest: the raw buffer seen as [uint32_t]
    words, the word cursor and the in-word bit cursor. *)
Record render_state : Type := mk_render_state {
  pwm_words : list Z;
  wordpos : nat;
  bitpos : Z
}.

(** The array [color[]] of one LED (lines 695-700). *)
Definition led_color (led : Z) : list Z :=
  [ Z.land (Z.shiftr led 8) 255;      (* green *)
    Z.land (Z.shiftr led 16) 255;     (* red *)
    Z.land (Z.shiftr led 0) 255 ].    (* blue *)

(** The symbol of bit [k] of a colour byte (lines 706-716). *)
Definition bit_symbol (inv byte k : Z) : Z :=
  let symbol :=
    if Z.land byte (Z.shiftl 1 k) =? 0 then SYMBOL_LOW else SYMBOL_HIGH in
  if inv =? 0 then symbol else Z.land (Z.lnot symbol) 7.

(** One pass of the innermost loop (lines 720-735): clear the target
    bit, set it when bit [l] of the symbol is set, step the cursor. *)
Definition render_subbit (symbol l : Z) (st : render_state)
  : result render_state :=
  match pwm_words st !! wordpos st with
  | None => Fault
  | Some w =>
      let w1 := Z.land w (uint32 (Z.lnot (Z.shiftl 1 (bitpos st)))) in
      let w2 := if Z.land symbol (Z.shiftl 1 l) =? 0 then w1
                else Z.lor w1 (uint32 (Z.shiftl 1 (bitpos st))) in
      let words := <[wordpos st := w2]> (pwm_words st) in
      let bitpos' := bitpos st - 1 in
      if bitpos' <? 0
      then Ok (mk_render_state words (wordpos st + 2) 31)
      else Ok (mk_render_state words (wordpos st) bitpos')
  end.

(** [for (l = 2; l >= 0; l--)]. *)
Definition render_symbol (symbol : Z) (st : render_state)
  : result render_state :=
  foldM (render_subbit symbol) [2; 1; 0] st.

(** [for (k = 7; k >= 0; k--)]. *)
Definition render_byte (inv byte : Z) (st : render_state)
  : result render_state :=
  foldM (fun k => render_symbol (bit_symbol inv byte k))
        [7; 6; 5; 4; 3; 2; 1; 0] st.

(** [for (j = 0; j < ARRAY_SIZE(color); j++)]. *)
Definition render_led (inv led : Z) (st : render_state)
  : result render_state :=
  foldM (render_byte inv) (led_color led) st.

(** [for (i = 0; i < channel->count; i++)], reading [channel->leds[i]]. *)
Definition render_leds (ch : ws2811_channel_t) (st : render_state)
  : result render_state :=
  foldM (fun i st =>
           match leds ch !! i with
           | None => Fault
           | Some led => render_led (invert ch) led st
           end)
        (seq 0 (Z.to_nat (count ch))) st.

(** The body of the channel loop: [wordpos] restarts at [chan],
    [bitpos] is whatever the previous channel left. *)
Definition render_channel (chan : nat) (ch : ws2811_channel_t)
  (st : render_state) : result render_state :=
  render_leds ch (mk_render_state (pwm_words st) chan (bitpos st)).

(** [for (chan = 0; chan < RPI_PWM_CHANNELS; chan++)], with
    [bitpos = 31] set once before it. *)
Definition render_channels (chans : list ws2811_channel_t) (words : list Z)
  : result render_state :=
  foldM (fun chan st =>
           match chans !! chan with
           | None => Fault
           | Some ch => render_channel chan ch st
           end)
        (seq 0 (Z.to_nat RPI_PWM_CHANNELS))
        (mk_render_state words 0 31).

(** The effect of [ws2811_render] on the raw buffer.  What follows the
    loop nest in the source (the cache flush, [ws2811_wait] and
    [dma_start]) does not write the buffer. *)
Definition render_encode (chans : list ws2811_channel_t) (words : list Z)
  : result (list Z) :=
  st ← render_channels chans words; mret (pwm_words st).

(** ** [max_channel_led_count] and [pwm_raw_init] (lines 92-105, 455-482) *)

Definition max_channel_led_count (chans : list ws2811_channel_t) : Z :=
  fold_left (fun max ch => if count ch >? max then count ch else max)
            (firstn (Z.to_nat RPI_PWM_CHANNELS) chans) 0.

(** The inner loop of [pwm_raw_init]: [wordcount] stores, two words
    apart. *)
Fixpoint pwm_raw_fill (inv : Z) (wordcount : nat) (wordpos : nat)
  (words : list Z) : result (list Z) :=
  match wordcount with
  | O => Ok words
  | S n =>
      match words !! wordpos with
      | None => Fault
      | Some _ =>
          pwm_raw_fill inv n (wordpos + 2)
            (<[wordpos := if inv =? 0 then 0 else uint32 (Z.lnot 0)]> words)
      end
  end.

Definition pwm_raw_init (chans : list ws2811_channel_t) (freq : Z)
  (words : list Z) : result (list Z) :=
  let maxcount := max_channel_led_count chans in
  let wordcount := int32 (uint32 (uint32 (PWM_BYTE_COUNT maxcount freq / 4)
                                  / RPI_PWM_CHANNELS)) in
  foldM (fun chan words =>
           match chans !! chan with
           | None => Fault
           | Some ch => pwm_raw_fill (invert ch) (Z.to_nat wordcount) chan words
           end)
        (seq 0 (Z.to_nat RPI_PWM_CHANNELS)) words.

(** ** Reading the raw buffer as the serializer does *)

(** Sub-bit [p] of the stream of PWM output [chan]: the serializer
    takes the words of parity [chan] in order and shifts each out from
    bit 31 down. *)
Definition lane_bit (words : list Z) (chan : nat) (p : nat) : option bool :=
  w ← words !! (chan + 2 * (p / 32))%nat;
  Some (Z.testbit w (31 - Z.of_nat (p mod 32))).

(** The sub-bits the loop nest emits, in emission order. *)
Definition symbol_bits (symbol : Z) : list bool :=
  map (Z.testbit symbol) [2; 1; 0].

Definition byte_bits (inv byte : Z) : list bool :=
  flat_map (fun k => symbol_bits (bit_symbol inv byte k))
           [7; 6; 5; 4; 3; 2; 1; 0].

Definition led_bits (inv led : Z) : list bool :=
  flat_map (byte_bits inv) (led_color led).

Definition channel_bits (ch : ws2811_channel_t) : list bool :=
  flat_map (led_bits (invert ch)) (firstn (Z.to_nat (count ch)) (leds ch)).

(** ** Frames, idle level and bytes of the raw buffer *)

(** The client stores new colours in the LED array of a channel. *)
Definition with_leds (ch : ws2811_channel_t) (l : list Z) : ws2811_channel_t :=
  mk_channel (gpionum ch) (invert ch) (count ch) l.

(** One [ws2811_render] per frame; a frame is the contents of the two
    LED arrays at that call. *)
Fixpoint render_frames (ch0 ch1 : ws2811_channel_t)
  (frames : list (list Z * list Z)) (words : list Z) : result (list Z) :=
  match frames with
  | [] => Ok words
  | (l0, l1) :: frames' =>
      words' ← render_encode [with_leds ch0 l0; with_leds ch1 l1] words;
      render_frames ch0 ch1 frames' words'
  end.

(** What [pwm_raw_init] stores for a channel, as a word, a bit and a
    byte. *)
Definition idle_word (ch : ws2811_channel_t) : Z :=
  if invert ch =? 0 then 0 else uint32 (Z.lnot 0).

Definition idle_bit (ch : ws2811_channel_t) : bool :=
  negb (invert ch =? 0).

Definition idle_byte (ch : ws2811_channel_t) : Z :=
  if invert ch =? 0 then 0 else 255.

(** Byte [m] of word [w] of the raw buffer; the ARM core is
    little-endian, so this is the byte at offset [4 * w + m] of
    [pwm_raw]. *)
Definition pwm_raw_byte (words : list Z) (w m : nat) : option Z :=
  x ← words !! w;
  Some (Z.land (Z.shiftr x (8 * Z.of_nat m)) 255).

(** The channel whose output consumes word [w]. *)
Definition word_channel (ch0 ch1 : ws2811_channel_t) (w : nat)
  : ws2811_channel_t :=
  if (w mod 2 =? 0)%nat then ch0 else ch1.

(** Where the encoded sub-bits of output [c] end: channel 0 starts at
    sub-bit 0, channel 1 where the bit cursor of channel 0 stopped. *)
Definition encoded_end (ch0 ch1 : ws2811_channel_t) (c : nat) : nat :=
  if (c =? 0)%nat then 72 * Z.to_nat (count ch0)
  else (72 * Z.to_nat (count ch0)) mod 32 + 72 * Z.to_nat (count ch1).

(** ** Declarations of the missing headers *)

(** Modelled from the spec: [dma.h], [pwm.h] and [clk.h] are missing
    from the sources, so the constants [ws2811.c] takes from them are
    parameters of the model: the page size, the flag masks of the
    DMA control/status and clock control registers, the transfer
    information word and destination of every descriptor, and the
    size of a descriptor. *)
Class Platform : Type := {
  PAGE_SIZE : Z;
  RPI_DMA_CS_ACTIVE : Z;
  RPI_DMA_CS_ERROR : Z;
  CM_PWM_CTL_PASSWD : Z;
  CM_PWM_CTL_KILL : Z;
  CM_PWM_CTL_BUSY : Z;
  RPI_DMA_TI_WORD : Z;
  PWM_FIF1_BUS : Z;
  DMA_CB_SIZE : Z
}.

(** ** [addr_to_bus] (lines 246-278) *)

(** [pagemap off] is what the process page-table file yields for the
    eight bytes at offset [off], [None] when it cannot be opened,
    positioned or read. *)
Definition addr_to_bus (pagemap : Z -> option Z) (addr : Z) : Z :=
  match pagemap (Z.shiftr (uint32 addr) 9) with
  | None => uint32 (Z.lnot 0)
  | Some pfn =>
      Z.lor (Z.lor (uint32 (Z.shiftl (uint32 pfn) 12)) 1073741824)
            (Z.land (uint32 addr) 4095)
  end.

(** ** The descriptor chain of [setup_pwm] (lines 350-390) *)

Record dma_cb_t : Type := mk_dma_cb {
  ti : Z;
  source_ad : Z;
  dest_ad : Z;
  txfr_len : Z;
  stride : Z;
  nextconbk : Z
}.

(** The variables of the loop: the descriptor array [device->dma_cb],
    the offset of the cursor [dma_cb] in it, [byte_count], and a count
    of the passes of the loop body that ran to their end. *)
Record chain_state : Type := mk_chain_state {
  cbs : list dma_cb_t;
  cb_index : nat;
  byte_count : Z;
  emitted : nat
}.

Section Chain.
Context `{Platform}.
Variable pagemap : Z -> option Z.
(** The virtual address of [device->dma_cb]. *)
Variable cb_base : Z.

(** Modelled from the spec: [dma_page_next] and the page list are
    declared in [dma.h]; the spec describes an ordered singly-linked
    sequence of pages.  The list [pages] holds the [addr] of the
    pages that follow the cursor, so [dma_page_next] yields its head
    and [NULL] when it is empty.  The fixpoint returns [true] when
    the loop is left by [return -1]. *)
Fixpoint chain_loop (pages : list Z) (st : chain_state)
  : result (bool * chain_state) :=
  match pages with
  | [] => Ok (false, st)
  | page :: rest =>
      if byte_count st =? 0 then Ok (false, st)
      else
        let page_bytes :=
          if PAGE_SIZE <? byte_count st then PAGE_SIZE else byte_count st in
        match cbs st !! cb_index st with
        | None => Fault
        | Some cb =>
            let src := addr_to_bus pagemap page in
            if src =? uint32 (Z.lnot 0)
            then
              Ok (true,
                  mk_chain_state
                    (<[cb_index st :=
                         mk_dma_cb RPI_DMA_TI_WORD src (dest_ad cb)
                           (txfr_len cb) (stride cb) (nextconbk cb)]>
                       (cbs st))
                    (cb_index st) (byte_count st) (emitted st))
            else
              let next :=
                addr_to_bus pagemap
                  (cb_base + DMA_CB_SIZE * (Z.of_nat (cb_index st) + 1)) in
              let cbs' :=
                <[cb_index st :=
                    mk_dma_cb RPI_DMA_TI_WORD src PWM_FIF1_BUS
                      (uint32 page_bytes) 0 next]> (cbs st) in
              let count' := int32 (byte_count st - page_bytes) in
              match rest with
              | [] =>
                  Ok (false,
                      mk_chain_state cbs' (cb_index st) count'
                        (S (emitted st)))
              | _ :: _ =>
                  chain_loop rest
                    (mk_chain_state cbs' (S (cb_index st)) count'
                       (S (emitted st)))
              end
        end
  end.

(** Lines 350-390: the loop, then [dma_cb->nextconbk = 0]. *)
Definition setup_pwm_chain (pages : list Z) (maxcount freq : Z)
  (descs : list dma_cb_t) : result (Z * chain_state) :=
  '(failed, st) ←
    chain_loop pages
      (mk_chain_state descs 0 (int32 (PWM_BYTE_COUNT maxcount freq)) 0);
  if (failed : bool) then Ok (-1, st)
  else
    match cbs st !! cb_index st with
    | None => Fault
    | Some cb =>
        Ok (0,
            mk_chain_state
              (<[cb_index st :=
                   mk_dma_cb (ti cb) (source_ad cb) (dest_ad cb)
                     (txfr_len cb) (stride cb) 0]> (cbs st))
              (cb_index st) (byte_count st) (emitted st))
    end.

(** A page whose address the page table resolves. *)
Definition page_ok (page : Z) : Prop :=
  addr_to_bus pagemap page <> uint32 (Z.lnot 0).

(** The number of pages that [n] bytes touch. *)
Definition pages_needed (n : Z) : nat :=
  Z.to_nat ((n + PAGE_SIZE - 1) / PAGE_SIZE).

(** The descriptor that pass [i] of the loop (from 0) stores in slot
    [idx + i] when it starts from slot [idx] with [n] bytes to go. *)
Definition chain_desc (idx : nat) (n : Z) (i : nat) (page : Z) : dma_cb_t :=
  mk_dma_cb RPI_DMA_TI_WORD (addr_to_bus pagemap page) PWM_FIF1_BUS
    (Z.min PAGE_SIZE (n - Z.of_nat i * PAGE_SIZE)) 0
    (addr_to_bus pagemap
       (cb_base + DMA_CB_SIZE * (Z.of_nat (idx + i) + 1))).
End Chain.

(** The transfer lengths of the first [k] descriptors, added up. *)
Definition chain_total (k : nat) (descs : list dma_cb_t) : Z :=
  fold_right Z.add 0 (map txfr_len (firstn k descs)).

(** ** Ownership: [ws2811_cleanup], [ws2811_wait], [ws2811_fini] *)

(** Pointers are addresses, [NULL] is 0.  Of [ws2811_device_t] the
    model keeps the pointer fields; [page_head] and [max_count] play
    no part in the operations below. *)
Record ws2811_device_t : Type := mk_device {
  pwm_raw : Z;
  dma : Z;
  pwm : Z;
  dma_cb : Z;
  dma_cb_addr : Z;
  gpio : Z;
  cm_pwm : Z
}.

(** Of [ws2811_t] the lifecycle operations use the [device] pointer
    and, for each channel, the [leds] pointer. *)
Record ws2811_t : Type := mk_ws2811 {
  device : Z;
  channel_leds : list Z
}.

(** A store to a register of the DMA channel. *)
Inductive dma_write : Type :=
  | DmaConblkAd (v : Z)
  | DmaCs (v : Z)
  | DmaTxfrLen (v : Z).

(** A store to a peripheral register: the control, range and DMA
    configuration registers of the PWM, the control and divisor
    registers of its clock, and the registers of the DMA channel. *)
Inductive reg_write : Type :=
  | PwmCtl (v : Z)
  | CmPwmCtl (v : Z)
  | CmPwmDiv (v : Z)
  | PwmRng1 (v : Z)
  | PwmDmac (v : Z)
  | DmaReg (w : dma_write).

(** The process state the lifecycle operations act on: the client's
    [ws2811_t], the contents of the live device records, the blocks
    [malloc] has handed out, the buffers the page allocator has handed
    out, the register windows that are mapped, how many times each
    polled register has been read, and the register stores so far
    (latest first). *)
Record machine : Type := mk_machine {
  ws2811 : ws2811_t;
  devices : gmap Z ws2811_device_t;
  malloced : gset Z;
  paged : gset Z;
  mapped : gset Z;
  dma_cs_reads : nat;
  cm_ctl_reads : nat;
  reg_writes : list reg_write
}.

(** What the hardware answers to the successive reads of the DMA
    control/status register and of the clock control register. *)
Record hardware : Type := mk_hardware {
  dma_cs : nat -> Z;
  cm_pwm_ctl : nat -> Z
}.

Definition set_ws2811 (w : ws2811_t) (m : machine) : machine :=
  mk_machine w (devices m) (malloced m) (paged m) (mapped m)
    (dma_cs_reads m) (cm_ctl_reads m) (reg_writes m).

Definition set_devices (d : gmap Z ws2811_device_t) (m : machine) : machine :=
  mk_machine (ws2811 m) d (malloced m) (paged m) (mapped m)
    (dma_cs_reads m) (cm_ctl_reads m) (reg_writes m).

Definition set_malloced (s : gset Z) (m : machine) : machine :=
  mk_machine (ws2811 m) (devices m) s (paged m) (mapped m)
    (dma_cs_reads m) (cm_ctl_reads m) (reg_writes m).

Definition set_paged (s : gset Z) (m : machine) : machine :=
  mk_machine (ws2811 m) (devices m) (malloced m) s (mapped m)
    (dma_cs_reads m) (cm_ctl_reads m) (reg_writes m).

Definition set_mapped (s : gset Z) (m : machine) : machine :=
  mk_machine (ws2811 m) (devices m) (malloced m) (paged m) s
    (dma_cs_reads m) (cm_ctl_reads m) (reg_writes m).

Definition set_dma_cs_reads (n : nat) (m : machine) : machine :=
  mk_machine (ws2811 m) (devices m) (malloced m) (paged m) (mapped m)
    n (cm_ctl_reads m) (reg_writes m).

Definition set_cm_ctl_reads (n : nat) (m : machine) : machine :=
  mk_machine (ws2811 m) (devices m) (malloced m) (paged m) (mapped m)
    (dma_cs_reads m) n (reg_writes m).

Definition push_reg_write (w : reg_write) (m : machine) : machine :=
  mk_machine (ws2811 m) (devices m) (malloced m) (paged m) (mapped m)
    (dma_cs_reads m) (cm_ctl_reads m) (w :: reg_writes m).

(** [free(p)]: nothing for [NULL], a fault for a block that is not
    live (a second free among them). *)
Definition free (p : Z) (m : machine) : result machine :=
  if decide (p = 0) then Ok m
  else if decide (p ∈ malloced m)
       then Ok (set_devices (delete p (devices m))
                  (set_malloced (malloced m ∖ {[p]}) m))
       else Fault.

(** Modelled from the spec: [dma_page_free] is defined in [dma.c],
    which is missing from the sources; the spec has cleanup free the
    raw buffer and the descriptor storage through the page allocator.
    Releasing a buffer the allocator does not hold is a fault. *)
Definition dma_page_free (p : Z) (m : machine) : result machine :=
  if decide (p ∈ paged m)
  then Ok (set_paged (paged m ∖ {[p]}) m)
  else Fault.

(** The read of [ws2811->device] followed by a field access. *)
Definition load_device (m : machine) : result ws2811_device_t :=
  match devices m !! device (ws2811 m) with
  | Some dev => Ok dev
  | None => Fault
  end.

(** The body of the channel loop of [ws2811_cleanup] (lines 494-501). *)
Definition cleanup_channel (chan : nat) (m : machine) : result machine :=
  match channel_leds (ws2811 m) !! chan with
  | None => Fault
  | Some p =>
      m' ← (if decide (p = 0) then Ok m else free p m);
      Ok (set_ws2811
            (mk_ws2811 (device (ws2811 m'))
               (<[chan := 0]> (channel_leds (ws2811 m')))) m')
  end.

(** The [if (device) { ... }] block of [ws2811_cleanup] (lines 503-521). *)
Definition cleanup_device (m : machine) : result machine :=
  let d := device (ws2811 m) in
  if decide (d = 0) then Ok m
  else
    dev ← load_device m;
    m1 ← (if decide (pwm_raw dev = 0) then Ok m
          else
            m' ← dma_page_free (pwm_raw dev) m;
            Ok (set_devices
                  (<[d := mk_device 0 (dma dev) (pwm dev) (dma_cb dev)
                            (dma_cb_addr dev) (gpio dev) (cm_pwm dev)]>
                     (devices m')) m'));
    dev1 ← load_device m1;
    m2 ← (if decide (dma_cb dev1 = 0) then Ok m1
          else
            m' ← dma_page_free (dma_cb dev1) m1;
            Ok (set_devices
                  (<[d := mk_device (pwm_raw dev1) (dma dev1) (pwm dev1) 0
                            (dma_cb_addr dev1) (gpio dev1) (cm_pwm dev1)]>
                     (devices m')) m'));
    free d m2.

(** [ws2811_cleanup] (lines 491-523). *)
Definition ws2811_cleanup (m : machine) : result machine :=
  m1 ← foldM cleanup_channel (seq 0 (Z.to_nat RPI_PWM_CHANNELS)) m;
  m2 ← cleanup_device m1;
  Ok (set_ws2811 (mk_ws2811 0 (channel_leds (ws2811 m2))) m2).

Section Lifecycle.
Context `{Platform}.
Variable hw : hardware.

(** The loop of [ws2811_wait] (lines 658-662), from read number [t]
    of the control/status register on.  Each mention of [dma->cs] is
    a read of its own; the second operand of [&&] is read only when
    the first holds.  Returns the number of the next read. *)
Fixpoint wait_poll (fuel : nat) (t : nat) : result nat :=
  match fuel with
  | O => Timeout
  | S fuel' =>
      if Z.land (dma_cs hw t) RPI_DMA_CS_ACTIVE =? 0 then Ok (S t)
      else if Z.land (dma_cs hw (S t)) RPI_DMA_CS_ERROR =? 0
           then wait_poll fuel' (S (S t))
           else Ok (S (S t))
  end.

(** What a read of the control/status register shows. *)
Definition active_clear (t : nat) : Prop :=
  Z.land (dma_cs hw t) RPI_DMA_CS_ACTIVE = 0.

Definition error_set (t : nat) : Prop :=
  Z.land (dma_cs hw t) RPI_DMA_CS_ERROR <> 0.

Definition clock_idle (t : nat) : Prop :=
  Z.land (cm_pwm_ctl hw t) CM_PWM_CTL_BUSY = 0.

(** [ws2811_wait] (lines 654-671): the loop, then one more read of
    [dma->cs] that decides the result.  The diagnostic line printed on
    an error (with a read of [dma->debug]) is left out. *)
Definition ws2811_wait (fuel : nat) (m : machine) : result (Z * machine) :=
  dev ← load_device m;
  if decide (dma dev ∈ mapped m) then
    t ← wait_poll fuel (dma_cs_reads m);
    Ok (if Z.land (dma_cs hw t) RPI_DMA_CS_ERROR =? 0 then 0 else -1,
        set_dma_cs_reads (S t) m)
  else Fault.

(** [while (cm_pwm->ctl & CM_PWM_CTL_BUSY);] *)
Fixpoint busy_poll (fuel : nat) (t : nat) : result nat :=
  match fuel with
  | O => Timeout
  | S fuel' =>
      if Z.land (cm_pwm_ctl hw t) CM_PWM_CTL_BUSY =? 0 then Ok (S t)
      else busy_poll fuel' (S t)
  end.

(** [stop_pwm] (lines 287-302). *)
Definition stop_pwm (fuel : nat) (m : machine) : result machine :=
  dev ← load_device m;
  if decide (pwm dev ∈ mapped m) then
    if decide (cm_pwm dev ∈ mapped m) then
      let m1 :=
        push_reg_write (CmPwmCtl (Z.lor CM_PWM_CTL_PASSWD CM_PWM_CTL_KILL))
          (push_reg_write (PwmCtl 0) m) in
      t ← busy_poll fuel (cm_ctl_reads m1);
      Ok (set_cm_ctl_reads t m1)
    else Fault
  else Fault.

(** [unmap_device] (lines 152-160) computes the start of the page of
    the pointer it is given, but uses it for the page count only, and
    hands [munmap] the pointer itself.  [munmap] refuses an address
    that is not a multiple of the page size and unmaps nothing then;
    its result is not looked at.  So of the pointers [map_device]
    returns, the start of a mapping plus the offset of the physical
    address in its page, only those with offset 0 are unmapped. *)
Definition unmap_device (addr : Z) (s : gset Z) : gset Z :=
  if decide (addr mod PAGE_SIZE = 0) then s ∖ {[addr]} else s.

(** [if (device->dma) unmap_device(device->dma, ...)] and the like. *)
Definition unmap_window (p : Z) (s : gset Z) : gset Z :=
  if decide (p = 0) then s else unmap_device p s.

(** [unmap_registers] (lines 213-236); the pointers stay as they
    are. *)
Definition unmap_registers (m : machine) : result machine :=
  dev ← load_device m;
  Ok (set_mapped
        (unmap_window (gpio dev) (unmap_window (cm_pwm dev)
           (unmap_window (pwm dev) (unmap_window (dma dev) (mapped m))))) m).

(** [ws2811_fini] (lines 637-645); the result of [ws2811_wait] is
    dropped. *)
Definition ws2811_fini (fuel : nat) (m : machine) : result machine :=
  '(_, m1) ← ws2811_wait fuel m;
  m2 ← stop_pwm fuel m1;
  m3 ← unmap_registers m2;
  ws2811_cleanup m3.
End Lifecycle.

(** ** [gpio_init] (lines 421-444) *)

(** Modelled from the spec: [pwm_pin_alt] is declared in [pwm.h] and
    [gpio_function_set] in [gpio.h], both missing from the sources.
    The spec has the configurator resolve the alternate-function
    selector of a (channel, pin) pair, fail when there is none, and
    program the function-select register of the pin otherwise.  The
    table [pwm_pin_alt] is a parameter of the model, and a call of
    [gpio_function_set] is recorded as the pair of its pin and its
    selector, latest first. *)
Fixpoint gpio_init_loop (pwm_pin_alt : nat -> Z -> Z)
  (chans : list ws2811_channel_t) (idx : list nat) (fsel : list (Z * Z))
  : result (Z * list (Z * Z)) :=
  match idx with
  | [] => Ok (0, fsel)
  | chan :: idx' =>
      match chans !! chan with
      | None => Fault
      | Some ch =>
          let pinnum := gpionum ch in
          if pinnum =? 0 then gpio_init_loop pwm_pin_alt chans idx' fsel
          else
            let altnum := pwm_pin_alt chan pinnum in
            if altnum <? 0 then Ok (-1, fsel)
            else gpio_init_loop pwm_pin_alt chans idx' ((pinnum, altnum) :: fsel)
      end
  end.

Definition gpio_init (pwm_pin_alt : nat -> Z -> Z)
  (chans : list ws2811_channel_t) (fsel : list (Z * Z))
  : result (Z * list (Z * Z)) :=
  gpio_init_loop pwm_pin_alt chans (seq 0 (Z.to_nat RPI_PWM_CHANNELS)) fsel.

(** ** [dma_start] and the whole of [ws2811_render] (lines 401-412, 681-755) *)

(** Modelled from the spec: the flags [dma_start] stores together
    with [RPI_DMA_CS_ACTIVE] are declared in [dma.h], which is missing
    from the sources; the spec has the renderer re-arm and start the
    engine on the existing chain.  They are parameters of the model. *)
Class DmaStart : Type := {
  RPI_DMA_CS_WAIT_OUTSTANDING_WRITES : Z;
  RPI_DMA_CS_PANIC_PRIORITY : Z -> Z;
  RPI_DMA_CS_PRIORITY : Z -> Z
}.

(** What a render acts on: the process state, the two channels with
    the contents of their LED arrays, the words of the raw buffer, and
    the stores to the DMA channel so far (latest first). *)
Record renderer : Type := mk_renderer {
  rmachine : machine;
  rchannels : list ws2811_channel_t;
  rwords : list Z;
  dma_writes : list dma_write
}.

Section Render.
Context `{Platform} `{DmaStart}.
Variable hw : hardware.

(** [dma_start] (lines 401-412): the address of the first descriptor,
    then the control/status word. *)
Definition dma_start (r : renderer) : result renderer :=
  dev ← load_device (rmachine r);
  if decide (dma dev ∈ mapped (rmachine r)) then
    Ok (mk_renderer (rmachine r) (rchannels r) (rwords r)
          (DmaCs (Z.lor (Z.lor (Z.lor RPI_DMA_CS_WAIT_OUTSTANDING_WRITES
                                      (RPI_DMA_CS_PANIC_PRIORITY 15))
                               (RPI_DMA_CS_PRIORITY 15))
                        RPI_DMA_CS_ACTIVE)
           :: DmaConblkAd (dma_cb_addr dev) :: dma_writes r))
  else Fault.

(** [ws2811_render] (lines 681-755): the read of [device->pwm_raw],
    the loop nest, the wait for the previous transfer, the start of
    the next one.  The cache flush between the loop nest and the wait
    changes nothing the model holds. *)
Definition ws2811_render (fuel : nat) (r : renderer) : result (Z * renderer) :=
  _ ← load_device (rmachine r);
  words ← render_encode (rchannels r) (rwords r);
  '(res, m1) ← ws2811_wait hw fuel (rmachine r);
  let r1 := mk_renderer m1 (rchannels r) words (dma_writes r) in
  if res =? 0 then r2 ← dma_start r1; Ok (0, r2)
  else Ok (-1, r1).
End Render.

(** ** Bring-up: [map_registers], [setup_pwm], [ws2811_init] *)

Definition OSC_FREQ : Z := 19200000.

(** Modelled from the spec: the register fields [setup_pwm] programs
    are declared in [clk.h] and [pwm.h], which are missing from the
    sources; the spec has the configurator select the oscillator,
    program the divider, enable the clock, clear the FIFO, enable
    DMA-driven feeding with its thresholds and enable both outputs in
    serializer mode.  The field values are parameters of the model. *)
Class PwmSetup : Type := {
  CM_PWM_DIV_PASSWD : Z;
  CM_PWM_DIV_DIVI : Z -> Z;
  CM_PWM_CTL_SRC_OSC : Z;
  CM_PWM_CTL_ENAB : Z;
  RPI_PWM_CTL_CLRF1 : Z;
  RPI_PWM_CTL_USEF1 : Z;
  RPI_PWM_CTL_MODE1 : Z;
  RPI_PWM_CTL_USEF2 : Z;
  RPI_PWM_CTL_MODE2 : Z;
  RPI_PWM_CTL_PWEN1 : Z;
  RPI_PWM_CTL_PWEN2 : Z;
  RPI_PWM_DMAC_ENAB : Z;
  RPI_PWM_DMAC_PANIC : Z -> Z;
  RPI_PWM_DMAC_DREQ : Z -> Z
}.

(** The whole of what the driver acts on: the process state, the
    frequency and the channels of the client's [ws2811_t], the words
    of the raw buffer, the descriptor array, the addresses of the
    pages of the page list, and the stores so far to the GPIO
    function-select registers (latest first).  The stores to the
    registers of the PWM, its clock and the DMA channel go to the log
    of the process state, in the order the code makes them. *)
Record driver : Type := mk_driver {
  d_machine : machine;
  d_freq : Z;
  d_channel : list ws2811_channel_t;
  d_words : list Z;
  d_descs : list dma_cb_t;
  d_pages : list Z;
  d_fsel : list (Z * Z)
}.

Definition set_d_machine (m : machine) (d : driver) : driver :=
  mk_driver m (d_freq d) (d_channel d) (d_words d) (d_descs d) (d_pages d)
    (d_fsel d).

(** A store to a field of the device record. *)
Definition store_device (f : ws2811_device_t -> ws2811_device_t) (m : machine)
  : result machine :=
  dev ← load_device m;
  Ok (set_devices (<[device (ws2811 m) := f dev]> (devices m)) m).

(** [map_device] (lines 115-142) opens the physical memory device and
    maps a window of it; what it returns, [NULL] or the start of the
    mapping plus the offset of the physical address in its page, is
    given to the model, which records the window under that
    pointer. *)
Definition map_window (p : Z) (m : machine) : machine :=
  if decide (p = 0) then m else set_mapped ({[p]} ∪ mapped m) m.

(** A block [malloc] or the page allocator hands out becomes live;
    [NULL] stands for a failed call. *)
Definition heap_block (p : Z) (m : machine) : machine :=
  if decide (p = 0) then m else set_malloced ({[p]} ∪ malloced m) m.

Definition page_window (p : Z) (m : machine) : machine :=
  if decide (p = 0) then m else set_paged ({[p]} ∪ paged m) m.

(** [map_registers] (lines 169-204).  Modelled from the spec:
    [dmanum_to_phys] is declared in [dma.h]; its result is [dma_addr],
    and [window k] is what call number [k] of [map_device] returns. *)
Definition map_registers (dma_addr : Z) (window : nat -> Z) (m : machine)
  : result (Z * machine) :=
  if dma_addr =? 0 then Ok (-1, m)
  else
    m1 ← store_device
           (fun dev => mk_device (pwm_raw dev) (window 0%nat) (pwm dev) (dma_cb dev)
                         (dma_cb_addr dev) (gpio dev) (cm_pwm dev))
           (map_window (window 0%nat) m);
    if window 0%nat =? 0 then Ok (-1, m1)
    else
      m2 ← store_device
             (fun dev => mk_device (pwm_raw dev) (dma dev) (window 1%nat) (dma_cb dev)
                           (dma_cb_addr dev) (gpio dev) (cm_pwm dev))
             (map_window (window 1%nat) m1);
      if window 1%nat =? 0 then Ok (-1, m2)
      else
        m3 ← store_device
               (fun dev => mk_device (pwm_raw dev) (dma dev) (pwm dev) (dma_cb dev)
                             (dma_cb_addr dev) (window 2%nat) (cm_pwm dev))
               (map_window (window 2%nat) m2);
        if window 2%nat =? 0 then Ok (-1, m3)
        else
          m4 ← store_device
                 (fun dev => mk_device (pwm_raw dev) (dma dev) (pwm dev) (dma_cb dev)
                               (dma_cb_addr dev) (gpio dev) (window 3%nat))
                 (map_window (window 3%nat) m3);
          if window 3%nat =? 0 then Ok (-1, m4) else Ok (0, m4).

(** What the environment hands to one call of [ws2811_init]: the
    block [malloc] returns for the device record and what that block
    holds, the blocks it returns for the LED arrays, and the results
    of the calls into the missing [dma.c] and of [map_device].
    Modelled from the spec: [dma_alloc] and [dma_desc_alloc] are
    defined in [dma.c]; the spec has the raw buffer and the descriptor
    storage come from the page-backed allocator, which also keeps the
    list of pages.  A pointer is 0 when the call fails. *)
Record init_env : Type := mk_init_env {
  env_malloc_device : Z;
  env_device_contents : ws2811_device_t;
  env_malloc_leds : nat -> Z;
  env_dma_alloc : Z;
  env_dma_words : list Z;
  env_dma_pages : list Z;
  env_dma_desc_alloc : Z;
  env_dma_descs : list dma_cb_t;
  env_dmanum_to_phys : Z;
  env_map_device : nat -> Z
}.

Section BringUp.
Context `{Platform} `{PwmSetup}.
Variable hw : hardware.
Variable pagemap : Z -> option Z.
(** What a read of the PWM control register yields. *)
Variable pwm_ctl : Z.
Variable pwm_pin_alt : nat -> Z -> Z.

(** [while (!(cm_pwm->ctl & CM_PWM_CTL_BUSY));] *)
Fixpoint enable_poll (fuel : nat) (t : nat) : result nat :=
  match fuel with
  | O => Timeout
  | S fuel' =>
      if Z.land (cm_pwm_ctl hw t) CM_PWM_CTL_BUSY =? 0
      then enable_poll fuel' (S t)
      else Ok (S t)
  end.

(** [setup_pwm] (lines 311-391).  [3 * freq] is a [uint32_t] product
    and a divisor of zero is undefined; every store to a register goes
    to the log of the process state, in program order. *)
Definition setup_pwm (fuel : nat) (d : driver) : result (Z * driver) :=
  dev ← load_device (d_machine d);
  let maxcount := max_channel_led_count (d_channel d) in
  let freq := uint32 (d_freq d) in
  m1 ← stop_pwm hw fuel (d_machine d);
  if uint32 (3 * freq) =? 0 then Fault
  else
    let div :=
      Z.lor CM_PWM_DIV_PASSWD (CM_PWM_DIV_DIVI (OSC_FREQ / uint32 (3 * freq))) in
    let m2 :=
      push_reg_write
        (CmPwmCtl (Z.lor (Z.lor CM_PWM_CTL_PASSWD CM_PWM_CTL_SRC_OSC)
                         CM_PWM_CTL_ENAB))
        (push_reg_write
           (CmPwmCtl (Z.lor CM_PWM_CTL_PASSWD CM_PWM_CTL_SRC_OSC))
           (push_reg_write (CmPwmDiv div) m1)) in
    t ← enable_poll fuel (cm_ctl_reads m2);
    let m3 :=
      push_reg_write
        (PwmCtl (Z.lor pwm_ctl (Z.lor RPI_PWM_CTL_PWEN1 RPI_PWM_CTL_PWEN2)))
        (push_reg_write
           (PwmCtl (Z.lor (Z.lor (Z.lor RPI_PWM_CTL_USEF1 RPI_PWM_CTL_MODE1)
                                 RPI_PWM_CTL_USEF2) RPI_PWM_CTL_MODE2))
           (push_reg_write
              (PwmDmac (Z.lor (Z.lor RPI_PWM_DMAC_ENAB (RPI_PWM_DMAC_PANIC 7))
                              (RPI_PWM_DMAC_DREQ 3)))
              (push_reg_write (PwmCtl RPI_PWM_CTL_CLRF1)
                 (push_reg_write (PwmRng1 32)
                    (set_cm_ctl_reads t m2))))) in
    '(rc, st) ←
      setup_pwm_chain pagemap (dma_cb dev) (d_pages d) maxcount freq (d_descs d);
    if rc =? 0 then
      if decide (dma dev ∈ mapped m3) then
        Ok (0, mk_driver
                 (push_reg_write (DmaReg (DmaTxfrLen 0))
                    (push_reg_write (DmaReg (DmaCs 0)) m3))
                 (d_freq d) (d_channel d) (d_words d) (cbs st)
                 (d_pages d) (d_fsel d))
      else Fault
    else
      Ok (-1, mk_driver m3 (d_freq d) (d_channel d) (d_words d) (cbs st)
                (d_pages d) (d_fsel d)).

(** The error exit of [ws2811_init] (lines 624-627). *)
Definition init_err (d : driver) : result (Z * driver) :=
  m ← ws2811_cleanup (d_machine d);
  Ok (-1, set_d_machine m d).

(** One pass of the loop that allocates the LED arrays (lines
    566-577); the flag tells that the pass left through [goto err]. *)
Definition init_leds (env : init_env) (chan : nat) (d : driver)
  : result (bool * driver) :=
  match d_channel d !! chan with
  | None => Fault
  | Some ch =>
      let q := env_malloc_leds env chan in
      let m := d_machine d in
      let m1 :=
        set_ws2811
          (mk_ws2811 (device (ws2811 m)) (<[chan := q]> (channel_leds (ws2811 m))))
          (heap_block q m) in
      if q =? 0 then Ok (true, set_d_machine m1 d)
      else
        Ok (false,
            mk_driver m1 (d_freq d)
              (<[chan := with_leds ch (repeat 0 (Z.to_nat (count ch)))]> (d_channel d))
              (d_words d) (d_descs d) (d_pages d) (d_fsel d))
  end.

(** The start of [ws2811_init] once the device record is allocated
    (lines 548-561): the block at [p] is live and holds whatever it
    held, [pwm_raw] and [dma_cb] are set to [NULL] in it, and so are
    the two [leds] pointers. *)
Definition init_device (env : init_env) (m : machine) : machine :=
  let p := env_malloc_device env in
  let g := env_device_contents env in
  set_ws2811
    (mk_ws2811 p (<[1%nat := 0]> (<[0%nat := 0]> (channel_leds (ws2811 m)))))
    (set_devices
       (<[p := mk_device 0 (dma g) (pwm g) 0 (dma_cb_addr g) (gpio g) (cm_pwm g)]>
          (devices m))
       (set_malloced ({[p]} ∪ malloced m) m)).

(** The raw buffer, its idle contents, the descriptor storage and its
    bus address (lines 579-606); the flag tells that the block was
    left through [goto err]. *)
Definition init_buffers (env : init_env) (d : driver) : result (bool * driver) :=
  let raw := env_dma_alloc env in
  m2 ← store_device
         (fun dev => mk_device raw (dma dev) (pwm dev) (dma_cb dev)
                       (dma_cb_addr dev) (gpio dev) (cm_pwm dev))
         (page_window raw (d_machine d));
  if raw =? 0 then Ok (true, set_d_machine m2 d)
  else
    words ← pwm_raw_init (d_channel d) (uint32 (d_freq d)) (env_dma_words env);
    let cb := env_dma_desc_alloc env in
    m3 ← store_device
           (fun dev => mk_device (pwm_raw dev) (dma dev) (pwm dev) cb
                         (dma_cb_addr dev) (gpio dev) (cm_pwm dev))
           (page_window cb m2);
    if cb =? 0
    then Ok (true,
             mk_driver m3 (d_freq d) (d_channel d) words (d_descs d)
               (env_dma_pages env) (d_fsel d))
    else
      let bus := addr_to_bus pagemap cb in
      m4 ← store_device
             (fun dev => mk_device (pwm_raw dev) (dma dev) (pwm dev) (dma_cb dev)
                           bus (gpio dev) (cm_pwm dev)) m3;
      Ok (bus =? uint32 (Z.lnot 0),
          mk_driver m4 (d_freq d) (d_channel d) words
            (<[0%nat := mk_dma_cb 0 0 0 0 0 0]> (env_dma_descs env))
            (env_dma_pages env) (d_fsel d)).

(** The registers, the pins and the PWM (lines 608-622), with the
    same flag: a failure of [gpio_init] or [setup_pwm] calls
    [unmap_registers] before it leaves, a failure of [map_registers]
    does not. *)
Definition init_hardware (fuel : nat) (env : init_env) (d : driver)
  : result (bool * driver) :=
  '(rc, m5) ← map_registers (env_dmanum_to_phys env) (env_map_device env)
                (d_machine d);
  if negb (rc =? 0) then Ok (true, set_d_machine m5 d)
  else
    '(rc, fsel) ← gpio_init pwm_pin_alt (d_channel d) (d_fsel d);
    let d5 :=
      mk_driver m5 (d_freq d) (d_channel d) (d_words d) (d_descs d)
        (d_pages d) fsel in
    if negb (rc =? 0)
    then m6 ← unmap_registers m5; Ok (true, set_d_machine m6 d5)
    else
      '(rc, d6) ← setup_pwm fuel d5;
      if negb (rc =? 0)
      then m7 ← unmap_registers (d_machine d6); Ok (true, set_d_machine m7 d6)
      else Ok (false, d6).

(** [ws2811_init] (lines 540-628). *)
Definition ws2811_init (fuel : nat) (env : init_env) (d : driver)
  : result (Z * driver) :=
  let m := d_machine d in
  if env_malloc_device env =? 0
  then Ok (-1, set_d_machine
                 (set_ws2811 (mk_ws2811 0 (channel_leds (ws2811 m))) m) d)
  else
    '(failed, d0) ← init_leds env 0 (set_d_machine (init_device env m) d);
    if (failed : bool) then init_err d0
    else
      '(failed, d1) ← init_leds env 1 d0;
      if (failed : bool) then init_err d1
      else
        '(failed, d2) ← init_buffers env d1;
        if (failed : bool) then init_err d2
        else
          '(failed, d3) ← init_hardware fuel env d2;
          if (failed : bool) then init_err d3 else Ok (0, d3).
End BringUp.

(** The owned pointer fields are all null: the two [leds] pointers and
    the device pointer (and with it the raw buffer and the descriptor
    storage, which are fields of the freed device record). *)
Definition all_null (m : machine) : Prop :=
  device (ws2811 m) = 0
  ∧ channel_leds (ws2811 m) = [0; 0].

(** Every owned pointer is null or live, no block is owned twice, and
    device records live in blocks handed out by [malloc]: what
    initialization keeps true at each of its steps. *)
Definition owned_ok (m : machine) : Prop :=
  (0 ∉ malloced m) ∧ (0 ∉ paged m) ∧ (0 ∉ mapped m)
  ∧ (∀ p, p ∉ malloced m → devices m !! p = None)
  ∧ (∃ p0 p1, channel_leds (ws2811 m) = [p0; p1]
       ∧ (p0 ≠ 0 → p0 ∈ malloced m)
       ∧ (p1 ≠ 0 → p1 ∈ malloced m)
       ∧ (p0 ≠ 0 → p0 ≠ p1)
       ∧ (p0 ≠ 0 → p0 ≠ device (ws2811 m))
       ∧ (p1 ≠ 0 → p1 ≠ device (ws2811 m)))
  ∧ (device (ws2811 m) ≠ 0 →
       device (ws2811 m) ∈ malloced m
       ∧ ∃ dev, devices m !! device (ws2811 m) = Some dev
           ∧ (pwm_raw dev ≠ 0 → pwm_raw dev ∈ paged m)
           ∧ (dma_cb dev ≠ 0 → dma_cb dev ∈ paged m)
           ∧ (pwm_raw dev ≠ 0 → pwm_raw dev ≠ dma_cb dev)).

(** ** The encoder as a writer of a sub-bit stream *)

(** The word [render_subbit] stores: bit [i] of [w] replaced by [b]. *)
Definition set_bit (w i : Z) (b : bool) : Z :=
  let w1 := Z.land w (uint32 (Z.lnot (Z.shiftl 1 i))) in
  if b then Z.lor w1 (uint32 (Z.shiftl 1 i)) else w1.

(** [render_subbit] with the tested symbol bit made explicit. *)
Definition put_bit (b : bool) (st : render_state) : result render_state :=
  match pwm_words st !! wordpos st with
  | None => Fault
  | Some w =>
      let words := <[wordpos st := set_bit w (bitpos st) b]> (pwm_words st) in
      if bitpos st - 1 <? 0
      then Ok (mk_render_state words (wordpos st + 2) 31)
      else Ok (mk_render_state words (wordpos st) (bitpos st - 1))
  end.

Definition put_bits (bs : list bool) (st : render_state) : result render_state :=
  foldM put_bit bs st.

(** The loop state when the next sub-bit of output [chan] is number
    [p] of its stream. *)
Definition cursor_at (chan p : nat) (words : list Z) : render_state :=
  mk_render_state words (chan + 2 * (p / 32)) (31 - Z.of_nat (p mod 32)).

(** The byte carried by the eight symbols that start at sub-bit [p] of
    the stream of output [chan]: the middle sub-bit of a symbol is the
    data bit, the first symbol carries bit 7. *)
Definition lane_byte (words : list Z) (chan p : nat) : option Z :=
  foldr (fun k acc =>
           b ← lane_bit words chan (p + 3 * k + 1)%nat;
           a ← acc;
           Some (Z.b2z b * 2 ^ (7 - Z.of_nat k) + a))
        (Some 0) (seq 0 8).

(** ** A platform and a page table to evaluate the model on *)

(** The values the BCM2835 peripheral manual gives for the parameters:
    4 KiB pages, [ACTIVE] in bit 0 and [ERROR] in bit 8 of the DMA
    control/status register, the clock manager password and its
    [KILL] and [BUSY] bits, and 32-byte descriptors. *)
Definition bcm2835 : Platform := {|
  PAGE_SIZE := 4096;
  RPI_DMA_CS_ACTIVE := 1;
  RPI_DMA_CS_ERROR := 256;
  CM_PWM_CTL_PASSWD := 1509949440;
  CM_PWM_CTL_KILL := 32;
  CM_PWM_CTL_BUSY := 128;
  RPI_DMA_TI_WORD := 67436872;
  PWM_FIF1_BUS := 2116075544;
  DMA_CB_SIZE := 32
|}.

(** The flags of the control/status register of a BCM2835 DMA channel
    that [dma_start] sets: bit 28, and the 4-bit priority fields at
    bits 20 and 16. *)
Definition bcm2835_dma : DmaStart := {|
  RPI_DMA_CS_WAIT_OUTSTANDING_WRITES := 268435456;
  RPI_DMA_CS_PANIC_PRIORITY := fun v => Z.shiftl (Z.land v 15) 20;
  RPI_DMA_CS_PRIORITY := fun v => Z.shiftl (Z.land v 15) 16
|}.

(** A page table that maps every virtual page to the frame of the
    same number. *)
Definition identity_pagemap (off : Z) : option Z := Some (Z.shiftr off 3).

(** The same page table, with reads at offset 140 and beyond failing:
    the pages below address 71680 translate, the others do not. *)
Definition short_pagemap (off : Z) : option Z :=
  if off <? 140 then Some (Z.shiftr off 3) else None.

(** A device after a successful initialization: the device record at
    1000, the two LED arrays at 2000 and 3000, the raw buffer and the
    descriptor storage in pages at 4096 and 8192, and the four
    register windows. *)
Definition sample_machine : machine :=
  mk_machine (mk_ws2811 1000 [2000; 3000])
    {[ 1000 := mk_device 4096 5000 6000 8192 1073750016 7000 8000 ]}
    {[ 1000; 2000; 3000 ]} {[ 4096; 8192 ]} {[ 5000; 6000; 7000; 8000 ]}
    0 0 [].

(** Hardware at rest: no transfer active, no error, clock not busy. *)
Definition quiet_hardware : hardware :=
  mk_hardware (fun _ => 0) (fun _ => 0).

(** Hardware whose transfer is active for the first four reads of the
    control/status register and has failed from the fifth on. *)
Definition failing_hardware : hardware :=
  mk_hardware (fun t => if (t <? 4)%nat then 1 else 256) (fun _ => 0).

(** Hardware that never comes to rest: the transfer stays active
    without an error and the clock stays busy. *)
Definition stuck_hardware : hardware :=
  mk_hardware (fun _ => 1) (fun _ => 128).

(** Hardware whose clock is still busy at the first three reads of
    its control register. *)
Definition slow_clock_hardware : hardware :=
  mk_hardware (fun _ => 0) (fun t => if (t <? 3)%nat then 128 else 0).

(** The sample device with one LED on channel 0, two on the inverted
    channel 1, a zeroed buffer of sixteen words and no store to the
    DMA channel yet. *)
Definition sample_renderer : renderer :=
  mk_renderer sample_machine
    [mk_channel 18 0 1 [66051]; mk_channel 13 1 2 [255; 65280]]
    (repeat 0 16) [].

(** A set of live blocks after the release of [p]; releasing [NULL]
    is skipped by every caller. *)
Definition without (p : Z) (s : gset Z) : gset Z :=
  if decide (p = 0) then s else s ∖ {[p]}.

(** ** What initialization may assume *)

(** The state [ws2811_init] starts from: [NULL] is not a live block,
    device records live in blocks handed out by [malloc], and the
    client's structure has its two channels. *)
Definition heap_ok (m : machine) : Prop :=
  (0 ∉ malloced m) ∧ (0 ∉ paged m) ∧ (0 ∉ mapped m)
  ∧ (∀ p, p ∉ malloced m → devices m !! p = None)
  ∧ length (channel_leds (ws2811 m)) = 2%nat.

(** What the allocators guarantee: a block they hand out is not live
    already, and two blocks handed out by the same allocator
    differ. *)
Definition env_fresh (env : init_env) (m : machine) : Prop :=
  let p := env_malloc_device env in
  let q0 := env_malloc_leds env 0%nat in
  let q1 := env_malloc_leds env 1%nat in
  let raw := env_dma_alloc env in
  let cb := env_dma_desc_alloc env in
  (p ∉ malloced m)
  ∧ (q0 ≠ 0 → (q0 ∉ malloced m) ∧ q0 ≠ p)
  ∧ (q1 ≠ 0 → (q1 ∉ malloced m) ∧ q1 ≠ p ∧ q1 ≠ q0)
  ∧ (raw ≠ 0 → raw ∉ paged m)
  ∧ (cb ≠ 0 → (cb ∉ paged m) ∧ cb ≠ raw)
  ∧ (∀ k, (k < 4)%nat → env_map_device env k ≠ 0 →
       env_map_device env k ∉ mapped m).

(** The block a pointer stands for, none for [NULL]. *)
Definition opt_block (p : Z) : gset Z :=
  if decide (p = 0) then ∅ else {[p]}.

(** An initialization under way from the state [m]: the device record
    [dev] at the fresh block [p], the LED arrays at [l0] and [l1],
    each null or fresh, the raw buffer and the descriptor storage of
    [dev] null or fresh, and nothing else allocated or released. *)
Definition init_inv (m m1 : machine) (p l0 l1 : Z) (dev : ws2811_device_t)
  : Prop :=
  p ≠ 0 ∧ (p ∉ malloced m)
  ∧ (l0 ≠ 0 → (l0 ∉ malloced m) ∧ l0 ≠ p)
  ∧ (l1 ≠ 0 → (l1 ∉ malloced m) ∧ l1 ≠ p ∧ l1 ≠ l0)
  ∧ (pwm_raw dev ≠ 0 → pwm_raw dev ∉ paged m)
  ∧ (dma_cb dev ≠ 0 → (dma_cb dev ∉ paged m) ∧ dma_cb dev ≠ pwm_raw dev)
  ∧ ws2811 m1 = mk_ws2811 p [l0; l1]
  ∧ devices m1 = <[p := dev]> (devices m)
  ∧ malloced m1 = opt_block l1 ∪ (opt_block l0 ∪ ({[p]} ∪ malloced m))
  ∧ paged m1 = opt_block (dma_cb dev) ∪ (opt_block (pwm_raw dev) ∪ paged m).

(** The windows that are mapped when [map_registers] returns: those of
    the calls of [map_device] before the first that fails. *)
Fixpoint mapped_windows (window : nat -> Z) (k n : nat) : gset Z :=
  match n with
  | O => ∅
  | S n' =>
      if window k =? 0 then ∅
      else {[window k]} ∪ mapped_windows window (S k) n'
  end.

(** What [unmap_device] leaves of the window at [p]: nothing when [p]
    is a multiple of the page size, the window otherwise. *)
Definition stuck_window `{Platform} (p : Z) : gset Z :=
  if decide (p mod PAGE_SIZE = 0) then ∅ else {[p]}.

(** The windows that are still mapped after [unmap_registers] when
    all four calls of [map_device] succeeded. *)
Definition stuck_windows `{Platform} (window : nat -> Z) : gset Z :=
  stuck_window (window 0%nat)
  ∪ (stuck_window (window 1%nat)
     ∪ (stuck_window (window 2%nat) ∪ stuck_window (window 3%nat))).

(** The register fields of a BCM2835 that [setup_pwm] programs. *)
Definition bcm2835_pwm : PwmSetup := {|
  CM_PWM_DIV_PASSWD := 1509949440;
  CM_PWM_DIV_DIVI := fun v => Z.shiftl (Z.land v 4095) 12;
  CM_PWM_CTL_SRC_OSC := 1;
  CM_PWM_CTL_ENAB := 16;
  RPI_PWM_CTL_CLRF1 := 64;
  RPI_PWM_CTL_USEF1 := 32;
  RPI_PWM_CTL_MODE1 := 2;
  RPI_PWM_CTL_USEF2 := 8192;
  RPI_PWM_CTL_MODE2 := 512;
  RPI_PWM_CTL_PWEN1 := 1;
  RPI_PWM_CTL_PWEN2 := 256;
  RPI_PWM_DMAC_ENAB := 2147483648;
  RPI_PWM_DMAC_PANIC := fun v => Z.shiftl (Z.land v 255) 8;
  RPI_PWM_DMAC_DREQ := fun v => Z.land v 255
|}.

(** A client structure before initialization: stale pointers, one LED
    on channel 0 and two on the inverted channel 1, 800 kHz, nothing
    allocated or mapped. *)
Definition blank_driver : driver :=
  mk_driver
    (mk_machine (mk_ws2811 77 [88; 99]) ∅ ∅ ∅ ∅ 0 0 [])
    800000
    [mk_channel 18 0 1 []; mk_channel 13 1 2 []]
    [] [] [] [].

(** An environment in which every step of initialization succeeds:
    the device record at 1000, the LED arrays at 2000 and 3000, the
    raw buffer (20 words, one page) at 65536, the descriptor storage
    at 131072, and the register windows at 5000 to 8000. *)
Definition good_env : init_env :=
  mk_init_env 1000 (mk_device 1 2 3 4 5 6 7)
    (fun chan => if (chan =? 0)%nat then 2000 else 3000)
    65536 (repeat 305419896 20) [65536]
    131072 (repeat (mk_dma_cb 9 9 9 9 9 9) 4)
    537948416
    (fun k => 5000 + 1000 * Z.of_nat k).

(** The same environment with the third call of [map_device], for the
    GPIO registers, failing. *)
Definition no_gpio_env : init_env :=
  mk_init_env 1000 (mk_device 1 2 3 4 5 6 7)
    (fun chan => if (chan =? 0)%nat then 2000 else 3000)
    65536 (repeat 305419896 20) [65536]
    131072 (repeat (mk_dma_cb 9 9 9 9 9 9) 4)
    537948416
    (fun k => if (k =? 2)%nat then 0 else 5000 + 1000 * Z.of_nat k).

(** Hardware whose clock comes to rest at once and is running at the
    second read of its control register. *)
Definition clock_hardware : hardware :=
  mk_hardware (fun _ => 0) (fun t => if (t <? 1)%nat then 0 else 128).

(** The only pins with an alternate function for PWM, as on a
    BCM2835: 12 and 18 for channel 0, 13 and 19 for channel 1. *)
Definition sample_pin_alt (chan : nat) (pin : Z) : Z :=
  if (chan =? 0)%nat
  then (if pin =? 12 then 0 else if pin =? 18 then 5 else -1)
  else (if pin =? 13 then 0 else if pin =? 19 then 5 else -1).

(** The client structure after initialization in these two
    environments, on hardware with a responsive clock. *)
Definition good_init : driver :=
  match ws2811_init (H := bcm2835) (H0 := bcm2835_pwm) clock_hardware
          identity_pagemap 0 sample_pin_alt 5 good_env blank_driver with
  | Ok (_, d) => d
  | _ => blank_driver
  end.

Definition no_gpio_init : driver :=
  match ws2811_init (H := bcm2835) (H0 := bcm2835_pwm) clock_hardware
          identity_pagemap 0 sample_pin_alt 5 no_gpio_env blank_driver with
  | Ok (_, d) => d
  | _ => blank_driver
  end.

(** The pointers [map_device] returns on a board: the registers of
    the DMA channel and of the PWM clock lie 0x500 and 0xa0 bytes into
    their pages, those of the PWM and of the GPIO at the start of
    theirs. *)
Definition board_window (k : nat) : Z :=
  match k with
  | 0%nat => 1049856
  | 1%nat => 2097152
  | 2%nat => 3145728
  | _ => 4194464
  end.

(** [good_env] with these register windows. *)
Definition board_env : init_env :=
  mk_init_env 1000 (mk_device 1 2 3 4 5 6 7)
    (fun chan => if (chan =? 0)%nat then 2000 else 3000)
    65536 (repeat 305419896 20) [65536]
    131072 (repeat (mk_dma_cb 9 9 9 9 9 9) 4)
    537948416
    board_window.

(** [sample_machine] with these register windows. *)
Definition board_machine : machine :=
  mk_machine (mk_ws2811 1000 [2000; 3000])
    {[ 1000 := mk_device 4096 1049856 2097152 8192 1073750016 3145728 4194464 ]}
    {[ 1000; 2000; 3000 ]} {[ 4096; 8192 ]}
    {[ 1049856; 2097152; 3145728; 4194464 ]}
    0 0 [].

(** [blank_driver] with channel 0 on pin 17, which has no alternate
    function for PWM. *)
Definition bad_pin_driver : driver :=
  mk_driver
    (mk_machine (mk_ws2811 77 [88; 99]) ∅ ∅ ∅ ∅ 0 0 [])
    800000
    [mk_channel 17 0 1 []; mk_channel 13 1 2 []]
    [] [] [] [].

(** The client structure after the initialization that fails in
    [gpio_init]. *)
Definition bad_pin_init : driver :=
  match ws2811_init (H := bcm2835) (H0 := bcm2835_pwm) clock_hardware
          identity_pagemap 0 sample_pin_alt 5 board_env bad_pin_driver with
  | Ok (_, d) => d
  | _ => bad_pin_driver
  end.

(** Hardware whose clock is running at the second read of its control
    register only, and at rest at every other. *)
Definition pulse_clock_hardware : hardware :=
  mk_hardware (fun _ => 0) (fun t => if (t =? 1)%nat then 128 else 0).

(** The client structure after initialization on this hardware. *)
Definition pulse_init : driver :=
  match ws2811_init (H := bcm2835) (H0 := bcm2835_pwm) pulse_clock_hardware
          identity_pagemap 0 sample_pin_alt 5 board_env blank_driver with
  | Ok (_, d) => d
  | _ => blank_driver
  end.

(** A client structure after initialization, over [sample_machine]:
    800 kHz, one LED on channel 0 and two on the inverted channel 1, a
    raw buffer of 20 words in the page at 65536 and four descriptors. *)
Definition ready_driver : driver :=
  mk_driver sample_machine 800000
    [mk_channel 18 0 1 [0]; mk_channel 13 1 2 [0; 0]]
    (repeat 0 20) (repeat (mk_dma_cb 0 0 0 0 0 0) 4) [65536] [].

(** The same with a frequency of zero. *)
Definition zero_freq_driver : driver :=
  mk_driver sample_machine 0
    [mk_channel 18 0 1 [0]; mk_channel 13 1 2 [0; 0]]
    (repeat 0 20) (repeat (mk_dma_cb 0 0 0 0 0 0) 4) [65536] [].

(** ** Words of the raw buffer *)

(** Every word of the buffer is a [uint32_t]. *)
Definition words_ok (words : list Z) : Prop :=
  Forall (fun x => 0 <= x < 2 ^ 32) words.

(** The colour byte read back from an inverted stream is the
    complement of the one that was encoded. *)
Definition stream_byte (ch : ws2811_channel_t) (byte : Z) : Z :=
  if invert ch =? 0 then byte else 255 - byte.

(** * Part II: properties *)

(** ** Facts about the sizing macros *)

Lemma uint32_range z : 0 <= uint32 z < 2 ^ 32.
Proof. unfold uint32. apply Z.mod_pos_bound. lia. Qed.

Lemma uint32_small z : 0 <= z < 2 ^ 32 -> uint32 z = z.
Proof. intros H. unfold uint32. apply Z.mod_small. exact H. Qed.

Lemma int32_small z : 0 <= z < 2 ^ 31 -> int32 z = z.
Proof.
  intros Hz. unfold int32. rewrite uint32_small by lia.
  destruct (Z.ltb_spec z (2 ^ 31)); lia.
Qed.

Lemma land_not7 x : 0 <= x < 2 ^ 32 -> Z.land x (uint32 (Z.lnot 7)) = x / 8 * 8.
Proof.
  intros Hx.
  transitivity (Z.ldiff x (Z.ones 3)).
  - apply Z.bits_inj'. intros i Hi.
    rewrite Z.land_spec, Z.ldiff_spec.
    destruct (Z.ltb_spec i 32) as [Hlt | Hge].
    + f_equal. unfold uint32.
      rewrite Z.mod_pow2_bits_low by lia.
      rewrite Z.lnot_spec by lia. reflexivity.
    + assert (Z.testbit x i = false) as ->.
      { destruct (Z.eq_dec x 0) as [-> | Hnz]; [apply Z.bits_0 |].
        apply Z.bits_above_log2; [lia |].
        apply Z.lt_le_trans with 32; [| exact Hge].
        apply Z.log2_lt_pow2; lia. }
      reflexivity.
  - rewrite Z.ldiff_ones_r by lia.
    rewrite Z.shiftr_div_pow2, Z.shiftl_mul_pow2 by lia. reflexivity.
Qed.

Lemma LED_RESET_BITS_range freq : 0 <= LED_RESET_BITS freq <= 4294.
Proof.
  unfold LED_RESET_BITS.
  pose proof (uint32_range (LED_RESET_uS * uint32 (freq * 3))) as H.
  split.
  - apply Z.div_pos; lia.
  - enough (uint32 (LED_RESET_uS * uint32 (freq * 3)) / 1000000 < 4295) by lia.
    apply Z.div_lt_upper_bound; lia.
Qed.

Lemma LED_BIT_COUNT_exact n freq :
  0 <= n -> n * 72 <= INT_MAX ->
  LED_BIT_COUNT n freq = n * 72 + LED_RESET_BITS freq.
Proof.
  intros Hn Hmax. unfold LED_BIT_COUNT, INT_MAX in *.
  pose proof (LED_RESET_BITS_range freq).
  rewrite (uint32_small (n * 3 * 8 * 3)) by lia.
  rewrite uint32_small by lia. lia.
Qed.

Lemma PWM_BYTE_COUNT_exact n freq :
  0 <= n -> n * 72 <= INT_MAX ->
  PWM_BYTE_COUNT n freq
  = ((n * 72 + LED_RESET_BITS freq) / 8 / 8 * 8 + 8) * RPI_PWM_CHANNELS.
Proof.
  intros Hn Hmax. unfold PWM_BYTE_COUNT.
  rewrite LED_BIT_COUNT_exact by assumption.
  pose proof (LED_RESET_BITS_range freq) as Hr.
  unfold INT_MAX, RPI_PWM_CHANNELS in *.
  set (b := n * 72 + LED_RESET_BITS freq) in *.
  assert (Hb : 0 <= b < 2 ^ 31 + 4294) by (unfold b; lia).
  rewrite Z.shiftr_div_pow2 by lia. change (2 ^ 3) with 8.
  assert (Hq : 0 <= b / 8 < 2 ^ 29).
  { split; [apply Z.div_pos; lia | apply Z.div_lt_upper_bound; lia]. }
  rewrite land_not7 by lia.
  assert (Hq8 : 0 <= b / 8 / 8 * 8 <= b / 8).
  { pose proof (Z.mul_div_le (b / 8) 8 ltac:(lia)).
    pose proof (Z.div_pos (b / 8) 8 ltac:(lia) ltac:(lia)). lia. }
  set (q := b / 8 / 8 * 8) in *.
  rewrite (uint32_small (q + 4)) by lia.
  rewrite (uint32_small (q + 4 + 4)) by lia.
  rewrite uint32_small by lia.
  lia.
Qed.

(** ** Loops *)

Lemma foldM_app {A S : Type} (f : A -> S -> result S) (l1 l2 : list A) (s : S) :
  foldM f (l1 ++ l2) s = (s' ← foldM f l1 s; foldM f l2 s').
Proof.
  revert s. induction l1 as [| a l1 IH]; intros s; simpl; [reflexivity |].
  destruct (f a s) as [s' | |]; simpl; [apply IH | reflexivity | reflexivity].
Qed.

Lemma foldM_flat_map {A B S : Type} (f : B -> S -> result S) (g : A -> list B)
  (l : list A) (s : S) :
  foldM f (flat_map g l) s = foldM (fun a => foldM f (g a)) l s.
Proof.
  revert s. induction l as [| a l IH]; intros s; simpl; [reflexivity |].
  rewrite foldM_app.
  destruct (foldM f (g a) s) as [s' | |]; simpl; [apply IH | reflexivity | reflexivity].
Qed.

Lemma foldM_ext {A S : Type} (f g : A -> S -> result S) (l : list A) (s : S) :
  (forall a s, f a s = g a s) -> foldM f l s = foldM g l s.
Proof.
  intros Hfg. revert s. induction l as [| a l IH]; intros s; simpl; [reflexivity |].
  rewrite Hfg. destruct (g a s); simpl; [apply IH | reflexivity | reflexivity].
Qed.

Lemma foldM_map {A B S : Type} (f : B -> S -> result S) (g : A -> B)
  (l : list A) (s : S) :
  foldM f (map g l) s = foldM (fun a => f (g a)) l s.
Proof.
  revert s. induction l as [| a l IH]; intros s; simpl; [reflexivity |].
  destruct (f (g a) s); simpl; [apply IH | reflexivity | reflexivity].
Qed.

(** ** Bit operations of the encoder *)

Lemma land_shiftl_1 a l :
  0 <= l -> (Z.land a (Z.shiftl 1 l) =? 0) = negb (Z.testbit a l).
Proof.
  intros Hl. rewrite Z.shiftl_1_l.
  destruct (Z.testbit a l) eqn:Hb; simpl.
  - apply Z.eqb_neq. intros H0.
    assert (Hc : Z.testbit (Z.land a (2 ^ l)) l = false) by (rewrite H0; apply Z.bits_0).
    rewrite Z.land_spec, Hb, Z.pow2_bits_true in Hc by lia. discriminate.
  - apply Z.eqb_eq. apply Z.bits_inj'. intros i Hi.
    rewrite Z.land_spec, Z.bits_0, Z.pow2_bits_eqb by lia.
    destruct (Z.eqb_spec l i) as [-> | Hne]; [rewrite Hb; reflexivity |].
    apply andb_false_r.
Qed.

Lemma render_subbit_put_bit symbol l st :
  0 <= l -> render_subbit symbol l st = put_bit (Z.testbit symbol l) st.
Proof.
  intros Hl. unfold render_subbit, put_bit, set_bit.
  rewrite land_shiftl_1 by exact Hl.
  destruct (pwm_words st !! wordpos st); [| reflexivity].
  destruct (Z.testbit symbol l); reflexivity.
Qed.

Lemma render_symbol_put_bits symbol st :
  render_symbol symbol st = put_bits (symbol_bits symbol) st.
Proof.
  unfold render_symbol, put_bits, symbol_bits.
  rewrite foldM_map.
  cbn [foldM].
  rewrite (render_subbit_put_bit symbol 2) by lia.
  destruct (put_bit (Z.testbit symbol 2) st) as [s1 | |]; try reflexivity.
  cbn [mbind result_bind].
  rewrite (render_subbit_put_bit symbol 1) by lia.
  destruct (put_bit (Z.testbit symbol 1) s1) as [s2 | |]; try reflexivity.
  cbn [mbind result_bind].
  rewrite (render_subbit_put_bit symbol 0) by lia. reflexivity.
Qed.

Lemma render_byte_put_bits inv byte st :
  render_byte inv byte st = put_bits (byte_bits inv byte) st.
Proof.
  unfold render_byte, put_bits, byte_bits.
  rewrite foldM_flat_map. apply foldM_ext. intros k s.
  apply render_symbol_put_bits.
Qed.

Lemma render_led_put_bits inv led st :
  render_led inv led st = put_bits (led_bits inv led) st.
Proof.
  unfold render_led, put_bits, led_bits.
  rewrite foldM_flat_map. apply foldM_ext. intros k s.
  apply render_byte_put_bits.
Qed.

Lemma render_leds_seq inv (l : list Z) (n start : nat) (pre : list Z) st :
  (n <= length l)%nat -> length pre = start ->
  foldM (fun i st =>
           match (pre ++ l) !! i with
           | None => Fault
           | Some led => render_led inv led st
           end) (seq start n) st
  = put_bits (flat_map (led_bits inv) (firstn n l)) st.
Proof.
  revert l start pre st. induction n as [| n IH]; intros l start pre st Hn Hpre.
  - reflexivity.
  - destruct l as [| led l]; [simpl in Hn; lia |].
    cbn [seq foldM].
    rewrite lookup_app_r by lia.
    replace (start - length pre)%nat with 0%nat by lia.
    cbn [lookup list_lookup firstn flat_map]. unfold put_bits. rewrite foldM_app.
    rewrite render_led_put_bits. unfold put_bits.
    destruct (foldM put_bit (led_bits inv led) st) as [s1 | |]; simpl; try reflexivity.
    specialize (IH l (S start) (pre ++ [led]) s1).
    rewrite <- app_assoc in IH. simpl in IH.
    apply IH; [simpl in Hn; lia | rewrite length_app; simpl; lia].
Qed.

Lemma render_leds_put_bits ch st :
  (Z.to_nat (count ch) <= length (leds ch))%nat ->
  render_leds ch st = put_bits (channel_bits ch) st.
Proof.
  intros Hn. unfold render_leds, channel_bits.
  apply (render_leds_seq (invert ch) (leds ch) _ 0%nat [] st Hn eq_refl).
Qed.

(** ** One sub-bit, then a stream of them *)

Lemma uint32_lnot_pow2_bits i j :
  0 <= i -> 0 <= j < 32 ->
  Z.testbit (uint32 (Z.lnot (Z.shiftl 1 i))) j = negb (i =? j).
Proof.
  intros Hi Hj. unfold uint32.
  rewrite Z.mod_pow2_bits_low by lia.
  rewrite Z.lnot_spec by lia.
  rewrite Z.shiftl_1_l, Z.pow2_bits_eqb by lia. reflexivity.
Qed.

Lemma uint32_pow2_bits i j :
  0 <= i -> 0 <= j < 32 ->
  Z.testbit (uint32 (Z.shiftl 1 i)) j = (i =? j).
Proof.
  intros Hi Hj. unfold uint32.
  rewrite Z.mod_pow2_bits_low by lia.
  rewrite Z.shiftl_1_l, Z.pow2_bits_eqb by lia. reflexivity.
Qed.

Lemma set_bit_testbit w i b j :
  0 <= i -> 0 <= j < 32 ->
  Z.testbit (set_bit w i b) j = if i =? j then b else Z.testbit w j.
Proof.
  intros Hi Hj. unfold set_bit.
  destruct b.
  - rewrite Z.lor_spec, Z.land_spec, uint32_lnot_pow2_bits, uint32_pow2_bits by lia.
    destruct (i =? j); [apply orb_true_r |].
    rewrite orb_false_r. apply andb_true_r.
  - rewrite Z.land_spec, uint32_lnot_pow2_bits by lia.
    destruct (i =? j); [apply andb_false_r | apply andb_true_r].
Qed.

Lemma cursor_at_S chan p :
  (chan + 2 * (S p / 32) = if decide (p mod 32 = 31) then chan + 2 * (p / 32) + 2
                         else chan + 2 * (p / 32))%nat
  /\ 31 - Z.of_nat (S p mod 32)
     = if decide (p mod 32 = 31)%nat then 31 else 31 - Z.of_nat (p mod 32) - 1.
Proof.
  pose proof (Nat.div_mod_eq p 32) as H1.
  pose proof (Nat.div_mod_eq (S p) 32) as H2.
  pose proof (Nat.mod_upper_bound p 32 ltac:(lia)) as H3.
  pose proof (Nat.mod_upper_bound (S p) 32 ltac:(lia)) as H4.
  destruct (decide (p mod 32 = 31)%nat) as [He | Hne]; split; lia.
Qed.

Lemma put_bit_cursor chan p words b :
  put_bit b (cursor_at chan p words)
  = match words !! (chan + 2 * (p / 32))%nat with
    | None => Fault
    | Some w =>
        Ok (cursor_at chan (S p)
              (<[(chan + 2 * (p / 32))%nat
                 := set_bit w (31 - Z.of_nat (p mod 32)) b]> words))
    end.
Proof.
  unfold put_bit, cursor_at. cbn [pwm_words wordpos bitpos].
  destruct (words !! (chan + 2 * (p / 32))%nat) as [w |]; [| reflexivity].
  destruct (cursor_at_S chan p) as [Hw Hb]. rewrite Hw, Hb.
  pose proof (Nat.mod_upper_bound p 32 ltac:(lia)) as Hlt.
  destruct (decide (p mod 32 = 31)%nat) as [He | Hne].
  - rewrite He. reflexivity.
  - destruct (Z.ltb_spec (31 - Z.of_nat (p mod 32) - 1) 0) as [Hneg | Hpos]; [lia |].
    reflexivity.
Qed.

Lemma lane_bit_insert chan p w b words c q :
  (chan < 2)%nat -> (c < 2)%nat ->
  words !! (chan + 2 * (p / 32))%nat = Some w ->
  lane_bit (<[(chan + 2 * (p / 32))%nat
              := set_bit w (31 - Z.of_nat (p mod 32)) b]> words) c q
  = if decide (c = chan /\ q = p) then Some b else lane_bit words c q.
Proof.
  intros Hchan Hc Hw. unfold lane_bit.
  pose proof (Nat.div_mod_eq p 32) as Hp.
  pose proof (Nat.div_mod_eq q 32) as Hq.
  pose proof (Nat.mod_upper_bound p 32 ltac:(lia)) as Hpm.
  pose proof (Nat.mod_upper_bound q 32 ltac:(lia)) as Hqm.
  destruct (decide (c + 2 * (q / 32) = chan + 2 * (p / 32))%nat) as [Hidx | Hidx].
  - rewrite Hidx.
    rewrite list_lookup_insert_eq by (eapply lookup_lt_Some; exact Hw).
    rewrite Hw. cbn [mbind option_bind].
    rewrite set_bit_testbit by lia.
    destruct (Z.eqb_spec (31 - Z.of_nat (p mod 32)) (31 - Z.of_nat (q mod 32)))
      as [He | Hne].
    + rewrite decide_True by lia. reflexivity.
    + rewrite decide_False by lia. reflexivity.
  - rewrite list_lookup_insert_ne by lia.
    rewrite decide_False; [reflexivity |].
    intros [-> ->]. apply Hidx. reflexivity.
Qed.

Lemma put_bits_cursor chan bs : forall p words,
  (chan < 2)%nat ->
  (bs = [] \/ chan + 2 * ((p + length bs - 1) / 32) < length words)%nat ->
  exists words',
    put_bits bs (cursor_at chan p words)
    = Ok (cursor_at chan (p + length bs) words')
    /\ length words' = length words
    /\ (forall w : nat,
          (w mod 2 <> chan \/ w < chan + 2 * (p / 32)
           \/ chan + 2 * ((p + length bs - 1) / 32) < w)%nat ->
          words' !! w = words !! w)
    /\ (forall c q, (c < 2)%nat ->
          lane_bit words' c q
          = if decide (c = chan /\ (p <= q < p + length bs)%nat)
            then bs !! (q - p)%nat else lane_bit words c q).
Proof.
  induction bs as [| b bs IH]; intros p words Hchan Hlen.
  - exists words. cbn [put_bits foldM length].
    replace (p + 0)%nat with p by lia.
    repeat split; try reflexivity.
    intros c q Hc. rewrite decide_False by lia. reflexivity.
  - destruct Hlen as [Hnil | Hlen]; [discriminate |].
    cbn [length] in Hlen.
    assert (Hmono : (p / 32 <= (p + S (length bs) - 1) / 32)%nat).
    { apply Nat.Div0.div_le_mono. lia. }
    destruct (lookup_lt_is_Some_2 words (chan + 2 * (p / 32))%nat ltac:(lia))
      as [w Hw].
    unfold put_bits. cbn [foldM]. rewrite put_bit_cursor, Hw.
    cbn [mbind result_bind].
    set (words1 := <[(chan + 2 * (p / 32))%nat
                     := set_bit w (31 - Z.of_nat (p mod 32)) b]> words).
    assert (Hlen1 : length words1 = length words) by apply length_insert.
    destruct (IH (S p) words1 Hchan) as (words' & Hrun & Hl & Hframe & Hbits).
    { destruct bs as [| b' bs']; [left; reflexivity | right].
      rewrite Hlen1. cbn [length] in *.
      replace (S p + S (length bs') - 1)%nat
        with (p + S (S (length bs')) - 1)%nat by lia.
      exact Hlen. }
    exists words'. cbn [length].
    replace (p + S (length bs))%nat with (S p + length bs)%nat by lia.
    split; [exact Hrun |]. split; [lia |]. split.
    + intros i Hi.
      assert (Hmono2 : (p / 32 <= S p / 32)%nat) by (apply Nat.Div0.div_le_mono; lia).
      assert (Hmono3 : (p / 32 <= (S p + length bs - 1) / 32)%nat)
        by (apply Nat.Div0.div_le_mono; lia).
      destruct bs as [| b' bs'].
      * assert (words' = words1) as ->.
        { unfold put_bits in Hrun. cbn [foldM] in Hrun.
          apply (f_equal (fun r => match r with
                                   | Ok s => pwm_words s
                                   | _ => []
                                   end)) in Hrun.
          symmetry. exact Hrun. }
        unfold words1. apply list_lookup_insert_ne.
        cbn [length] in Hi.
        replace (S p + 0 - 1)%nat with p in Hi by lia.
        pose proof (Nat.div_mod_eq i 2) as Hi2.
        pose proof (Nat.mod_upper_bound i 2 ltac:(lia)) as Hi3.
        lia.
      * rewrite Hframe.
        -- unfold words1. apply list_lookup_insert_ne.
           pose proof (Nat.div_mod_eq i 2) as Hi2.
           pose proof (Nat.mod_upper_bound i 2 ltac:(lia)) as Hi3.
           lia.
        -- pose proof (Nat.div_mod_eq i 2) as Hi2.
           pose proof (Nat.mod_upper_bound i 2 ltac:(lia)) as Hi3.
           lia.
    + intros c q Hc. rewrite Hbits by exact Hc.
      unfold words1. rewrite lane_bit_insert by assumption.
      destruct (decide (c = chan /\ (S p <= q < S p + length bs)%nat)) as [[-> Hq] | Hn].
      * rewrite decide_True by lia.
        replace (q - p)%nat with (S (q - S p)) by lia. reflexivity.
      * destruct (decide (c = chan /\ q = p)) as [[-> ->] | Hn2].
        -- rewrite decide_True by lia.
           replace (p - p)%nat with 0%nat by lia. reflexivity.
        -- rewrite decide_False by lia. reflexivity.
Qed.

(** ** The emitted stream *)

Lemma symbol_bits_length symbol : length (symbol_bits symbol) = 3%nat.
Proof. reflexivity. Qed.

Lemma byte_bits_length inv byte : length (byte_bits inv byte) = 24%nat.
Proof. reflexivity. Qed.

Lemma led_bits_length inv led : length (led_bits inv led) = 72%nat.
Proof. reflexivity. Qed.

Lemma flat_map_uniform_length {A B : Type} (g : A -> list B) (n : nat) (l : list A) :
  (forall a, length (g a) = n) -> length (flat_map g l) = (n * length l)%nat.
Proof.
  intros Hg. induction l as [| a l IH]; cbn [flat_map length]; [lia |].
  rewrite length_app, Hg, IH. lia.
Qed.

Lemma flat_map_uniform_lookup {A B : Type} (g : A -> list B) (n : nat)
  (l : list A) (i j : nat) (a : A) :
  (forall a, length (g a) = n) -> l !! i = Some a -> (j < n)%nat ->
  flat_map g l !! (n * i + j)%nat = g a !! j.
Proof.
  intros Hg. revert i. induction l as [| x l IH]; intros i Hi Hj; [discriminate |].
  cbn [flat_map]. destruct i as [| i].
  - injection Hi as ->. rewrite lookup_app_l by (rewrite Hg; lia).
    f_equal. lia.
  - rewrite lookup_app_r by (rewrite Hg; lia). rewrite Hg.
    replace (n * S i + j - n)%nat with (n * i + j)%nat by lia.
    apply IH; assumption.
Qed.

Lemma channel_bits_length ch :
  (Z.to_nat (count ch) <= length (leds ch))%nat ->
  length (channel_bits ch) = (72 * Z.to_nat (count ch))%nat.
Proof.
  intros Hn. unfold channel_bits.
  rewrite (flat_map_uniform_length _ 72) by apply led_bits_length.
  rewrite length_take. lia.
Qed.

Lemma channel_bits_lookup ch i led j :
  (i < Z.to_nat (count ch))%nat -> leds ch !! i = Some led -> (j < 72)%nat ->
  channel_bits ch !! (72 * i + j)%nat = led_bits (invert ch) led !! j.
Proof.
  intros Hi Hled Hj. unfold channel_bits.
  apply flat_map_uniform_lookup; [apply led_bits_length | | exact Hj].
  rewrite lookup_take_lt by exact Hi. exact Hled.
Qed.

Lemma led_bits_lookup inv led j byte s :
  led_color led !! j = Some byte -> (s < 24)%nat ->
  led_bits inv led !! (24 * j + s)%nat = byte_bits inv byte !! s.
Proof.
  intros Hj Hs. unfold led_bits.
  apply flat_map_uniform_lookup; [apply byte_bits_length | exact Hj | exact Hs].
Qed.

(** Bit [7 - k] of the byte is the [k]-th it emits. *)
Lemma byte_bits_lookup inv byte k s :
  (k < 8)%nat -> (s < 3)%nat ->
  byte_bits inv byte !! (3 * k + s)%nat
  = symbol_bits (bit_symbol inv byte (7 - Z.of_nat k)) !! s.
Proof.
  intros Hk Hs. unfold byte_bits.
  rewrite (flat_map_uniform_lookup _ 3 _ k s (7 - Z.of_nat k));
    [reflexivity | apply symbol_bits_length | | exact Hs].
  do 8 (destruct k as [| k]; [reflexivity |]). lia.
Qed.

Lemma symbol_bits_plain byte k :
  0 <= k ->
  symbol_bits (bit_symbol 0 byte k) = [true; Z.testbit byte k; false].
Proof.
  intros Hk. unfold bit_symbol. rewrite land_shiftl_1 by exact Hk.
  destruct (Z.testbit byte k); reflexivity.
Qed.

Lemma symbol_bits_inverted inv byte k :
  0 <= k -> inv <> 0 ->
  symbol_bits (bit_symbol inv byte k) = [false; negb (Z.testbit byte k); true].
Proof.
  intros Hk Hinv. unfold bit_symbol. rewrite land_shiftl_1 by exact Hk.
  destruct (Z.eqb_spec inv 0) as [He | _]; [contradiction |].
  destruct (Z.testbit byte k); reflexivity.
Qed.

(** ** One channel, then both *)

Lemma cursor_at_small chan p words :
  (p < 32)%nat ->
  cursor_at chan p words = mk_render_state words chan (31 - Z.of_nat p).
Proof.
  intros Hp. unfold cursor_at.
  rewrite Nat.div_small, Nat.mod_small by exact Hp.
  f_equal. lia.
Qed.

Lemma render_channel_cursor chan ch p q words :
  (p < 32)%nat ->
  render_channel chan ch (cursor_at q p words)
  = render_leds ch (cursor_at chan p words).
Proof.
  intros Hp. unfold render_channel.
  rewrite !cursor_at_small by exact Hp. reflexivity.
Qed.

Lemma render_channel_spec chan ch p words :
  let n := Z.to_nat (count ch) in
  (chan < 2)%nat -> (p < 32)%nat ->
  (n <= length (leds ch))%nat ->
  (n = 0 \/ chan + 2 * ((p + 72 * n - 1) / 32) < length words)%nat ->
  exists words',
    render_channel chan ch (mk_render_state words chan (31 - Z.of_nat p))
    = Ok (cursor_at chan (p + 72 * n) words')
    /\ length words' = length words
    /\ (forall w : nat,
          (w mod 2 <> chan \/ chan + 2 * ((p + 72 * n - 1) / 32) < w)%nat ->
          words' !! w = words !! w)
    /\ (forall c q, (c < 2)%nat ->
          lane_bit words' c q
          = if decide (c = chan /\ (p <= q < p + 72 * n)%nat)
            then channel_bits ch !! (q - p)%nat else lane_bit words c q).
Proof.
  intros n Hchan Hp Hn Hlen.
  pose proof (channel_bits_length ch Hn) as Hbl. fold n in Hbl.
  destruct (put_bits_cursor chan (channel_bits ch) p words Hchan)
    as (words' & Hrun & Hl & Hframe & Hbits).
  { rewrite Hbl. destruct Hlen as [H0 | Hlen]; [left | right; exact Hlen].
    destruct (channel_bits ch); [reflexivity | simpl in Hbl; lia]. }
  exists words'. rewrite Hbl in *.
  split; [| split; [exact Hl | split]].
  - rewrite <- (cursor_at_small chan p words Hp).
    rewrite render_channel_cursor by exact Hp.
    rewrite render_leds_put_bits by exact Hn. exact Hrun.
  - intros w Hw. apply Hframe. tauto.
  - exact Hbits.
Qed.

(** Where the second channel's stream starts in its first word. *)
Lemma render_channel_after chan ch q p words :
  render_channel chan ch (cursor_at q p words)
  = render_channel chan ch
      (mk_render_state words chan (31 - Z.of_nat (p mod 32))).
Proof. reflexivity. Qed.

Lemma render_channels_spec ch0 ch1 rest words :
  let n0 := Z.to_nat (count ch0) in
  let n1 := Z.to_nat (count ch1) in
  let off := ((72 * n0) mod 32)%nat in
  (n0 <= length (leds ch0))%nat ->
  (n1 <= length (leds ch1))%nat ->
  (n0 = 0 \/ 2 * ((72 * n0 - 1) / 32) < length words)%nat ->
  (n1 = 0 \/ 1 + 2 * ((off + 72 * n1 - 1) / 32) < length words)%nat ->
  exists words1 words2,
    render_channel 0 ch0 (mk_render_state words 0 31)
    = Ok (cursor_at 0 (72 * n0) words1)
    /\ render_channel 1 ch1 (cursor_at 0 (72 * n0) words1)
       = Ok (cursor_at 1 (off + 72 * n1) words2)
    /\ render_channels (ch0 :: ch1 :: rest) words
       = Ok (cursor_at 1 (off + 72 * n1) words2)
    /\ length words1 = length words /\ length words2 = length words
    /\ (forall w : nat,
          (w mod 2 <> 0 \/ 2 * ((72 * n0 - 1) / 32) < w)%nat ->
          words1 !! w = words !! w)
    /\ (forall w : nat,
          (w mod 2 <> 1 \/ 1 + 2 * ((off + 72 * n1 - 1) / 32) < w)%nat ->
          words2 !! w = words1 !! w)
    /\ (forall c q, (c < 2)%nat ->
          lane_bit words1 c q
          = if decide (c = 0 /\ q < 72 * n0)%nat
            then channel_bits ch0 !! q else lane_bit words c q)
    /\ (forall c q, (c < 2)%nat ->
          lane_bit words2 c q
          = if decide (c = 1 /\ off <= q < off + 72 * n1)%nat
            then channel_bits ch1 !! (q - off)%nat else lane_bit words1 c q).
Proof.
  intros n0 n1 off Hn0 Hn1 Hlen0 Hlen1.
  assert (Hoff : (off < 32)%nat) by (apply Nat.mod_upper_bound; lia).
  destruct (render_channel_spec 0 ch0 0 words ltac:(lia) ltac:(lia) Hn0)
    as (words1 & Hrun0 & Hl0 & Hframe0 & Hbits0).
  { fold n0. cbn [Nat.add]. exact Hlen0. }
  fold n0 in Hrun0, Hframe0, Hbits0. cbn [Nat.add] in Hrun0, Hframe0, Hbits0.
  change (31 - Z.of_nat 0) with 31 in Hrun0.
  destruct (render_channel_spec 1 ch1 off words1 ltac:(lia) Hoff Hn1)
    as (words2 & Hrun1 & Hl1 & Hframe1 & Hbits1).
  { fold n1. rewrite Hl0. exact Hlen1. }
  fold n1 in Hrun1, Hframe1, Hbits1.
  exists words1, words2.
  assert (Hstep : render_channel 1 ch1 (cursor_at 0 (72 * n0) words1)
                  = Ok (cursor_at 1 (off + 72 * n1) words2)).
  { rewrite render_channel_after. exact Hrun1. }
  split; [exact Hrun0 |]. split; [exact Hstep |]. split.
  { unfold render_channels.
    change (seq 0 (Z.to_nat RPI_PWM_CHANNELS)) with [0%nat; 1%nat].
    cbn [foldM lookup list_lookup]. rewrite Hrun0. cbn [mbind result_bind].
    rewrite Hstep. reflexivity. }
  split; [exact Hl0 |]. split; [lia |].
  split; [exact Hframe0 |]. split; [exact Hframe1 |]. split.
  - intros c q Hc. rewrite Hbits0 by exact Hc.
    destruct (decide (c = 0%nat /\ (q < 72 * n0)%nat)) as [[-> Hq] | Hn].
    + rewrite decide_True by lia. f_equal. lia.
    + rewrite decide_False by lia. reflexivity.
  - exact Hbits1.
Qed.

(** ** Decoding a byte from its symbols *)

Lemma byte_of_bits x :
  0 <= x < 256 ->
  foldr (fun k a => Z.b2z (Z.testbit x (7 - Z.of_nat k)) * 2 ^ (7 - Z.of_nat k) + a)
        0 (seq 0 8) = x.
Proof.
  intros Hx.
  assert (Hall : forallb
            (fun n => foldr (fun k a => Z.b2z (Z.testbit (Z.of_nat n) (7 - Z.of_nat k))
                                        * 2 ^ (7 - Z.of_nat k) + a) 0 (seq 0 8)
                      =? Z.of_nat n) (seq 0 256) = true) by (vm_compute; reflexivity).
  rewrite forallb_forall in Hall.
  specialize (Hall (Z.to_nat x)).
  rewrite Z2Nat.id in Hall by lia.
  apply Z.eqb_eq, Hall, in_seq. lia.
Qed.

Lemma lane_byte_plain words chan p byte :
  0 <= byte < 256 ->
  (forall k, (k < 8)%nat ->
     lane_bit words chan (p + 3 * k + 1)%nat = Some (Z.testbit byte (7 - Z.of_nat k))) ->
  lane_byte words chan p = Some byte.
Proof.
  intros Hbyte Hbits. unfold lane_byte.
  pose proof (byte_of_bits byte Hbyte) as E.
  cbn [seq foldr] in E |- *.
  rewrite !Hbits by lia. cbn [mbind option_bind].
  f_equal. exact E.
Qed.

Lemma led_color_range led byte :
  byte ∈ led_color led -> 0 <= byte < 256.
Proof.
  unfold led_color. intros Hin.
  assert (Hb : forall x, 0 <= Z.land x 255 < 256).
  { intros x. change 255 with (Z.ones 8). rewrite Z.land_ones by lia.
    apply Z.mod_pos_bound. lia. }
  repeat (apply elem_of_cons in Hin; destruct Hin as [-> | Hin]; [apply Hb |]).
  apply elem_of_nil in Hin. contradiction.
Qed.

(** In a channel that is not inverted, the [k]-th bit of colour byte
    [j] of LED [i] occupies three consecutive sub-bits: high, the bit,
    low. *)
Lemma channel_bits_plain ch i led j byte k :
  invert ch = 0 ->
  (i < Z.to_nat (count ch))%nat -> leds ch !! i = Some led ->
  led_color led !! j = Some byte -> (k < 8)%nat ->
  let b := Z.testbit byte (7 - Z.of_nat k) in
  let q := (72 * i + 24 * j + 3 * k)%nat in
  channel_bits ch !! q = Some true
  /\ channel_bits ch !! (q + 1)%nat = Some b
  /\ channel_bits ch !! (q + 2)%nat = Some false.
Proof.
  intros Hinv Hi Hled Hbyte Hk b q.
  assert (Hj : (j < 3)%nat) by (apply lookup_lt_Some in Hbyte; exact Hbyte).
  assert (Hs : forall s, (s < 3)%nat ->
             channel_bits ch !! (q + s)%nat = [true; b; false] !! s).
  { intros s Hs. unfold q.
    replace (72 * i + 24 * j + 3 * k + s)%nat
      with (72 * i + (24 * j + (3 * k + s)))%nat by lia.
    rewrite (channel_bits_lookup ch i led) by (assumption || lia).
    rewrite (led_bits_lookup _ led j byte) by (assumption || lia).
    rewrite byte_bits_lookup by assumption.
    rewrite Hinv, symbol_bits_plain by lia. reflexivity. }
  pose proof (Hs 0%nat ltac:(lia)) as H0.
  replace (q + 0)%nat with q in H0 by lia.
  split; [exact H0 |]. split; [apply (Hs 1%nat); lia | apply (Hs 2%nat); lia].
Qed.

(** The buffer after the whole loop nest, read as two streams. *)
Lemma render_encode_bits ch0 ch1 rest words :
  let n0 := Z.to_nat (count ch0) in
  let n1 := Z.to_nat (count ch1) in
  let off := ((72 * n0) mod 32)%nat in
  (n0 <= length (leds ch0))%nat ->
  (n1 <= length (leds ch1))%nat ->
  (n0 = 0 \/ 2 * ((72 * n0 - 1) / 32) < length words)%nat ->
  (n1 = 0 \/ 1 + 2 * ((off + 72 * n1 - 1) / 32) < length words)%nat ->
  exists words',
    render_encode (ch0 :: ch1 :: rest) words = Ok words'
    /\ length words' = length words
    /\ (forall c q, (c < 2)%nat ->
          lane_bit words' c q
          = if decide (c = 0 /\ q < 72 * n0)%nat
            then channel_bits ch0 !! q
            else if decide (c = 1 /\ off <= q < off + 72 * n1)%nat
                 then channel_bits ch1 !! (q - off)%nat
                 else lane_bit words c q).
Proof.
  intros n0 n1 off Hn0 Hn1 Hlen0 Hlen1.
  destruct (render_channels_spec ch0 ch1 rest words Hn0 Hn1 Hlen0 Hlen1)
    as (words1 & words2 & _ & _ & Hrun & _ & Hl & _ & _ & Hb1 & Hb2).
  exists words2. split; [| split; [exact Hl |]].
  - unfold render_encode. rewrite Hrun. reflexivity.
  - intros c q Hc. fold n0 n1 off in Hb1, Hb2.
    rewrite Hb2, Hb1 by exact Hc.
    destruct (decide (c = 0%nat /\ (q < 72 * n0)%nat)) as [[-> Hq] | Hn].
    + rewrite decide_False by lia. reflexivity.
    + reflexivity.
Qed.

(** ** C1: the bytes of one LED *)

(** C1, in the form the code satisfies.  For a single-LED channel
    that is not inverted, the three bytes the encoder emits are, in
    emission order, green (bits 15..8 of the packed colour), red (bits
    23..16) and blue (bits 7..0); for the packed colour 0x010203 they
    are 0x02, 0x01 and 0x03. *)
Theorem render_single_led_bytes (gp led : Z) (ch1 : ws2811_channel_t)
  (words : list Z) :
  let ch0 := mk_channel gp 0 1 [led] in
  let n1 := Z.to_nat (count ch1) in
  (n1 <= length (leds ch1))%nat ->
  (4 < length words)%nat ->
  (n1 = 0 \/ 1 + 2 * ((8 + 72 * n1 - 1) / 32) < length words)%nat ->
  exists words',
    render_encode [ch0; ch1] words = Ok words'
    /\ lane_byte words' 0 0 = Some (Z.land (Z.shiftr led 8) 255)
    /\ lane_byte words' 0 24 = Some (Z.land (Z.shiftr led 16) 255)
    /\ lane_byte words' 0 48 = Some (Z.land (Z.shiftr led 0) 255)
    /\ led_color 66051 = [2; 1; 3].
Proof.
  intros ch0 n1 Hn1 Hlen Hlen1.
  destruct (render_encode_bits ch0 ch1 [] words) as (words' & Hrun & _ & Hbits);
    [cbn; lia | exact Hn1
    | right; change (2 * 2 < length words)%nat; lia | exact Hlen1 |].
  exists words'. split; [exact Hrun |].
  assert (Hbyte : forall j byte, led_color led !! j = Some byte ->
            lane_byte words' 0 (24 * j) = Some byte).
  { intros j byte Hj.
    apply lane_byte_plain.
    - apply (led_color_range led). apply list_elem_of_lookup. eauto.
    - intros k Hk.
      assert (Hj3 : (j < 3)%nat) by (apply lookup_lt_Some in Hj; exact Hj).
      rewrite Hbits by lia.
      rewrite decide_True by (cbn; lia).
      destruct (channel_bits_plain ch0 0 led j byte k eq_refl
                  ltac:(cbn; lia) eq_refl Hj Hk) as (_ & Hmid & _).
      rewrite <- Hmid. f_equal; lia. }
  split; [apply (Hbyte 0%nat); reflexivity |].
  split; [apply (Hbyte 1%nat); reflexivity |].
  split; [apply (Hbyte 2%nat); reflexivity | reflexivity].
Qed.

Lemma render_single_led_bytes_witness :
  exists words',
    render_encode [mk_channel 18 0 1 [66051]; mk_channel 0 0 0 []]
      (repeat 0 16) = Ok words'
    /\ lane_byte words' 0 0 = Some (Z.land (Z.shiftr 66051 8) 255)
    /\ lane_byte words' 0 24 = Some (Z.land (Z.shiftr 66051 16) 255)
    /\ lane_byte words' 0 48 = Some (Z.land (Z.shiftr 66051 0) 255)
    /\ led_color 66051 = [2; 1; 3].
Proof.
  apply (render_single_led_bytes 18 66051 (mk_channel 0 0 0 []) (repeat 0 16)).
  - simpl. lia.
  - simpl. lia.
  - left. reflexivity.
Defined.

(** Against C1 as the specification words it: with the packed
    colour 0x010203 the bytes read back from the encoded buffer are
    not 0x01, 0x02, 0x03. *)
Lemma render_010203_not_010203 :
  ~ exists words',
      render_encode [mk_channel 18 0 1 [66051]; mk_channel 0 0 0 []]
        (repeat 0 16) = Ok words'
      /\ map (lane_byte words' 0) [0; 24; 48]%nat = [Some 1; Some 2; Some 3].
Proof.
  intros (words' & Hrun & Hbytes).
  vm_compute in Hrun. injection Hrun as <-.
  vm_compute in Hbytes. discriminate Hbytes.
Qed.

(** ** C2: three sub-bits per data bit *)

Lemma all_low_stream q :
  (q < 72)%nat -> channel_bits (mk_channel 18 0 1 [0]) !! q = Some (q mod 3 =? 0)%nat.
Proof.
  intros Hq. do 72 (destruct q as [| q]; [reflexivity |]). lia.
Qed.

Lemma all_high_stream q :
  (q < 72)%nat ->
  channel_bits (mk_channel 18 0 1 [16777215]) !! q = Some (negb (q mod 3 =? 2)%nat).
Proof.
  intros Hq. do 72 (destruct q as [| q]; [reflexivity |]). lia.
Qed.

(** C2.  In a channel that is not inverted, whatever the cursor the
    previous channel left, bit [7 - k] of colour byte [j] of LED [i]
    is stored as the three sub-bits 1, bit, 0 at positions
    [72 i + 24 j + 3 k] and the two after it of the channel's stream,
    most significant bit first.  A single LED of colour 0x000000 on
    channel 0 therefore gives 72 sub-bits that repeat 1,0,0, and one of
    colour 0xFFFFFF gives 72 sub-bits that repeat 1,1,0. *)
Theorem render_symbol_pattern (chan p : nat) (ch ch1 : ws2811_channel_t)
  (words : list Z) :
  let n := Z.to_nat (count ch) in
  let n1 := Z.to_nat (count ch1) in
  (chan < 2)%nat -> (p < 32)%nat ->
  invert ch = 0 ->
  (n <= length (leds ch))%nat ->
  (n = 0 \/ chan + 2 * ((p + 72 * n - 1) / 32) < length words)%nat ->
  (n1 <= length (leds ch1))%nat ->
  (4 < length words)%nat ->
  (n1 = 0 \/ 1 + 2 * ((8 + 72 * n1 - 1) / 32) < length words)%nat ->
  (exists words',
     render_channel chan ch (mk_render_state words chan (31 - Z.of_nat p))
     = Ok (cursor_at chan (p + 72 * n) words')
     /\ forall i led j byte k,
          (i < n)%nat -> leds ch !! i = Some led ->
          led_color led !! j = Some byte -> (k < 8)%nat ->
          let q := (p + 72 * i + 24 * j + 3 * k)%nat in
          lane_bit words' chan q = Some true
          /\ lane_bit words' chan (q + 1) = Some (Z.testbit byte (7 - Z.of_nat k))
          /\ lane_bit words' chan (q + 2) = Some false)
  /\ (exists words',
        render_encode [mk_channel 18 0 1 [0]; ch1] words = Ok words'
        /\ forall q, (q < 72)%nat ->
             lane_bit words' 0 q = Some (q mod 3 =? 0)%nat)
  /\ (exists words',
        render_encode [mk_channel 18 0 1 [16777215]; ch1] words = Ok words'
        /\ forall q, (q < 72)%nat ->
             lane_bit words' 0 q = Some (negb (q mod 3 =? 2)%nat)).
Proof.
  intros n n1 Hchan Hp Hinv Hn Hlen Hn1 Hlen0 Hlen1.
  split; [| split].
  - destruct (render_channel_spec chan ch p words Hchan Hp Hn Hlen)
      as (words' & Hrun & _ & _ & Hbits).
    fold n in Hrun, Hbits.
    exists words'. split; [exact Hrun |].
    intros i led j byte k Hi Hled Hbyte Hk q.
    assert (Hj : (j < 3)%nat) by (apply lookup_lt_Some in Hbyte; exact Hbyte).
    destruct (channel_bits_plain ch i led j byte k Hinv Hi Hled Hbyte Hk)
      as (H0 & H1 & H2).
    rewrite !Hbits by exact Hchan.
    rewrite !decide_True by (unfold q; lia).
    replace (q - p)%nat with (72 * i + 24 * j + 3 * k)%nat by (unfold q; lia).
    replace (q + 1 - p)%nat with (72 * i + 24 * j + 3 * k + 1)%nat by (unfold q; lia).
    replace (q + 2 - p)%nat with (72 * i + 24 * j + 3 * k + 2)%nat by (unfold q; lia).
    auto.
  - destruct (render_encode_bits (mk_channel 18 0 1 [0]) ch1 [] words)
      as (words' & Hrun & _ & Hbits);
      [cbn; lia | exact Hn1
      | right; change (2 * 2 < length words)%nat; lia | exact Hlen1 |].
    exists words'. split; [exact Hrun |].
    intros q Hq. rewrite Hbits by lia.
    rewrite decide_True by (cbn; lia). apply all_low_stream, Hq.
  - destruct (render_encode_bits (mk_channel 18 0 1 [16777215]) ch1 [] words)
      as (words' & Hrun & _ & Hbits);
      [cbn; lia | exact Hn1
      | right; change (2 * 2 < length words)%nat; lia | exact Hlen1 |].
    exists words'. split; [exact Hrun |].
    intros q Hq. rewrite Hbits by lia.
    rewrite decide_True by (cbn; lia). apply all_high_stream, Hq.
Qed.

Lemma render_symbol_pattern_witness :
  (exists words',
     render_channel 1 (mk_channel 13 0 2 [66051; 255])
       (mk_render_state (repeat 0 16) 1 (31 - Z.of_nat 8))
     = Ok (cursor_at 1 (8 + 72 * 2) words')
     /\ forall i led j byte k,
          (i < 2)%nat -> [66051; 255] !! i = Some led ->
          led_color led !! j = Some byte -> (k < 8)%nat ->
          let q := (8 + 72 * i + 24 * j + 3 * k)%nat in
          lane_bit words' 1 q = Some true
          /\ lane_bit words' 1 (q + 1) = Some (Z.testbit byte (7 - Z.of_nat k))
          /\ lane_bit words' 1 (q + 2) = Some false)
  /\ (exists words',
        render_encode [mk_channel 18 0 1 [0]; mk_channel 0 0 0 []] (repeat 0 16)
        = Ok words'
        /\ forall q, (q < 72)%nat ->
             lane_bit words' 0 q = Some (q mod 3 =? 0)%nat)
  /\ (exists words',
        render_encode [mk_channel 18 0 1 [16777215]; mk_channel 0 0 0 []]
          (repeat 0 16) = Ok words'
        /\ forall q, (q < 72)%nat ->
             lane_bit words' 0 q = Some (negb (q mod 3 =? 2)%nat)).
Proof.
  apply (render_symbol_pattern 1 8 (mk_channel 13 0 2 [66051; 255])
           (mk_channel 0 0 0 []) (repeat 0 16)).
  - lia.
  - lia.
  - reflexivity.
  - simpl. lia.
  - right. vm_compute. lia.
  - simpl. lia.
  - simpl. lia.
  - left. reflexivity.
Defined.

(** ** C5: word interleaving *)

(** C5.  While channel 0 is encoded no odd word is written, while
    channel 1 is encoded no even word is written, and after the loop
    nest the even words carry the sub-bits of channel 0 and the odd
    words those of channel 1. *)
Theorem render_word_interleaving (ch0 ch1 : ws2811_channel_t) (words : list Z) :
  let n0 := Z.to_nat (count ch0) in
  let n1 := Z.to_nat (count ch1) in
  let off := ((72 * n0) mod 32)%nat in
  (n0 <= length (leds ch0))%nat ->
  (n1 <= length (leds ch1))%nat ->
  (n0 = 0 \/ 2 * ((72 * n0 - 1) / 32) < length words)%nat ->
  (n1 = 0 \/ 1 + 2 * ((off + 72 * n1 - 1) / 32) < length words)%nat ->
  exists st1 st2,
    render_channel 0 ch0 (mk_render_state words 0 31) = Ok st1
    /\ render_channel 1 ch1 st1 = Ok st2
    /\ render_encode [ch0; ch1] words = Ok (pwm_words st2)
    /\ (forall k : nat,
          pwm_words st1 !! (2 * k + 1)%nat = words !! (2 * k + 1)%nat)
    /\ (forall k : nat,
          pwm_words st2 !! (2 * k)%nat = pwm_words st1 !! (2 * k)%nat)
    /\ (forall q, (q < 72 * n0)%nat ->
          (pwm_words st2 !! (2 * (q / 32))%nat
           ≫= λ w, Some (Z.testbit w (31 - Z.of_nat (q mod 32))))
          = channel_bits ch0 !! q)
    /\ (forall q, (q < 72 * n1)%nat ->
          (pwm_words st2 !! (2 * ((off + q) / 32) + 1)%nat
           ≫= λ w, Some (Z.testbit w (31 - Z.of_nat ((off + q) mod 32))))
          = channel_bits ch1 !! q).
Proof.
  intros n0 n1 off Hn0 Hn1 Hlen0 Hlen1.
  destruct (render_channels_spec ch0 ch1 [] words Hn0 Hn1 Hlen0 Hlen1)
    as (words1 & words2 & Hrun0 & Hrun1 & Hrun & _ & _ & Hf0 & Hf1 & Hb1 & Hb2).
  fold n0 n1 off in Hrun0, Hrun1, Hrun, Hf0, Hf1, Hb1, Hb2.
  exists (cursor_at 0 (72 * n0) words1), (cursor_at 1 (off + 72 * n1) words2).
  cbn [pwm_words cursor_at].
  split; [exact Hrun0 |]. split; [exact Hrun1 |]. split.
  { unfold render_encode. rewrite Hrun. reflexivity. }
  split.
  { intros k. apply Hf0. left.
    replace (2 * k + 1)%nat with (1 + k * 2)%nat by lia.
    rewrite Nat.Div0.mod_add. cbn. lia. }
  split.
  { intros k. apply Hf1. left.
    replace (2 * k)%nat with (0 + k * 2)%nat by lia.
    rewrite Nat.Div0.mod_add. cbn. lia. }
  split.
  - intros q Hq.
    pose proof (Hb2 0%nat q ltac:(lia)) as H2.
    rewrite decide_False in H2 by lia.
    pose proof (Hb1 0%nat q ltac:(lia)) as H1.
    rewrite decide_True in H1 by lia.
    rewrite <- H1, <- H2. reflexivity.
  - intros q Hq.
    pose proof (Hb2 1%nat (off + q)%nat ltac:(lia)) as H2.
    rewrite decide_True in H2 by lia.
    replace (off + q - off)%nat with q in H2 by lia.
    rewrite <- H2. unfold lane_bit.
    replace (2 * ((off + q) / 32) + 1)%nat with (1 + 2 * ((off + q) / 32))%nat by lia.
    reflexivity.
Qed.

Lemma render_word_interleaving_witness :
  exists st1 st2,
    render_channel 0 (mk_channel 18 0 1 [66051])
      (mk_render_state (repeat 0 16) 0 31) = Ok st1
    /\ render_channel 1 (mk_channel 13 1 1 [255]) st1 = Ok st2
    /\ render_encode [mk_channel 18 0 1 [66051]; mk_channel 13 1 1 [255]]
         (repeat 0 16) = Ok (pwm_words st2)
    /\ (forall k : nat,
          pwm_words st1 !! (2 * k + 1)%nat = repeat 0 16 !! (2 * k + 1)%nat)
    /\ (forall k : nat,
          pwm_words st2 !! (2 * k)%nat = pwm_words st1 !! (2 * k)%nat)
    /\ (forall q, (q < 72 * 1)%nat ->
          (pwm_words st2 !! (2 * (q / 32))%nat
           ≫= λ w, Some (Z.testbit w (31 - Z.of_nat (q mod 32))))
          = channel_bits (mk_channel 18 0 1 [66051]) !! q)
    /\ (forall q, (q < 72 * 1)%nat ->
          (pwm_words st2 !! (2 * ((8 + q) / 32) + 1)%nat
           ≫= λ w, Some (Z.testbit w (31 - Z.of_nat ((8 + q) mod 32))))
          = channel_bits (mk_channel 13 1 1 [255]) !! q).
Proof.
  apply (render_word_interleaving (mk_channel 18 0 1 [66051])
           (mk_channel 13 1 1 [255]) (repeat 0 16)).
  - simpl. lia.
  - simpl. lia.
  - right. vm_compute. lia.
  - right. vm_compute. lia.
Defined.

(** ** C6: the bit cursor is carried from channel 0 to channel 1 *)

Lemma symbol_bits_lookup symbol s :
  0 <= s < 3 ->
  symbol_bits symbol !! Z.to_nat s = Some (Z.testbit symbol (2 - s)).
Proof.
  intros Hs. assert (Hcase : s = 0 \/ s = 1 \/ s = 2) by lia.
  destruct Hcase as [-> | [-> | ->]]; reflexivity.
Qed.

Lemma stream_offset_le n : ((72 * n) mod 32 <= 24)%nat.
Proof.
  replace (72 * n)%nat with (8 * (9 * n))%nat by lia.
  change 32%nat with (8 * 4)%nat.
  rewrite Nat.Div0.mul_mod_distr_l.
  pose proof (Nat.mod_upper_bound (9 * n) 4 ltac:(lia)). lia.
Qed.

(** C6.  [bitpos] starts at 31 and is not reset by the channel loop:
    channel 0 leaves it at [31 - (72 * count0) mod 32], and that is
    the bit of word 1 where the first symbol of channel 1 starts.  The
    bits of word 1 above it are not written. *)
Theorem render_bitpos_carried (ch0 ch1 : ws2811_channel_t) (words : list Z)
  (led : Z) :
  let n0 := Z.to_nat (count ch0) in
  let n1 := Z.to_nat (count ch1) in
  let off := ((72 * n0) mod 32)%nat in
  (n0 <= length (leds ch0))%nat ->
  (n1 <= length (leds ch1))%nat ->
  (n0 = 0 \/ 2 * ((72 * n0 - 1) / 32) < length words)%nat ->
  (1 + 2 * ((off + 72 * n1 - 1) / 32) < length words)%nat ->
  (0 < n1)%nat -> leds ch1 !! 0%nat = Some led ->
  exists st1 words' w1 w1',
    render_channel 0 ch0 (mk_render_state words 0 31) = Ok st1
    /\ bitpos st1 = 31 - Z.of_nat off
    /\ render_channel 1 ch1 st1
       = render_leds ch1 (mk_render_state (pwm_words st1) 1 (31 - Z.of_nat off))
    /\ render_encode [ch0; ch1] words = Ok words'
    /\ words !! 1%nat = Some w1 /\ words' !! 1%nat = Some w1'
    /\ (forall s, 0 <= s < 3 ->
          Z.testbit w1' (31 - Z.of_nat off - s)
          = Z.testbit (bit_symbol (invert ch1) (Z.land (Z.shiftr led 8) 255) 7)
              (2 - s))
    /\ (forall b, 31 - Z.of_nat off < b < 32 -> Z.testbit w1' b = Z.testbit w1 b).
Proof.
  intros n0 n1 off Hn0 Hn1 Hlen0 Hlen1 Hpos Hled.
  pose proof (stream_offset_le n0) as Hoff. fold off in Hoff.
  destruct (render_channels_spec ch0 ch1 [] words Hn0 Hn1 Hlen0 (or_intror Hlen1))
    as (words1 & words2 & Hrun0 & Hrun1 & Hrun & Hl1 & Hl2 & _ & _ & Hb1 & Hb2).
  fold n0 n1 off in Hrun0, Hrun1, Hrun, Hb1, Hb2.
  destruct (lookup_lt_is_Some_2 words 1%nat ltac:(lia)) as [w1 Hw1].
  destruct (lookup_lt_is_Some_2 words2 1%nat ltac:(lia)) as [w1' Hw1'].
  exists (cursor_at 0 (72 * n0) words1), words2, w1, w1'.
  split; [exact Hrun0 |]. split; [reflexivity |]. split; [reflexivity |].
  split; [unfold render_encode; rewrite Hrun; reflexivity |].
  split; [exact Hw1 |]. split; [exact Hw1' |]. split.
  - intros s Hs.
    pose proof (Hb2 1%nat (off + Z.to_nat s)%nat ltac:(lia)) as H2.
    rewrite decide_True in H2 by lia.
    replace (off + Z.to_nat s - off)%nat with (72 * 0 + (24 * 0 + (3 * 0 + Z.to_nat s)))%nat
      in H2 by lia.
    rewrite (channel_bits_lookup ch1 0 led) in H2 by (assumption || lia).
    rewrite (led_bits_lookup _ led 0 (Z.land (Z.shiftr led 8) 255)) in H2
      by (reflexivity || lia).
    rewrite (byte_bits_lookup _ _ 0) in H2 by lia.
    unfold lane_bit in H2.
    rewrite (Nat.div_small (off + Z.to_nat s)), Nat.mod_small in H2 by lia.
    change (1 + 2 * 0)%nat with 1%nat in H2.
    rewrite Hw1' in H2. cbn [mbind option_bind] in H2.
    replace (31 - Z.of_nat (off + Z.to_nat s)) with (31 - Z.of_nat off - s) in H2 by lia.
    change (7 - Z.of_nat 0) with 7 in H2.
    rewrite symbol_bits_lookup in H2 by exact Hs.
    injection H2 as H2. exact H2.
  - intros b Hb.
    pose proof (Hb2 1%nat (Z.to_nat (31 - b)) ltac:(lia)) as H2.
    rewrite decide_False in H2 by lia.
    rewrite (Hb1 1%nat) in H2 by lia.
    rewrite decide_False in H2 by lia.
    unfold lane_bit in H2.
    rewrite Nat.div_small, Nat.mod_small in H2 by lia.
    change (1 + 2 * 0)%nat with 1%nat in H2.
    rewrite Hw1, Hw1' in H2. cbn [mbind option_bind] in H2.
    replace (31 - Z.of_nat (Z.to_nat (31 - b))) with b in H2 by lia.
    injection H2 as H2. exact H2.
Qed.

Lemma render_bitpos_carried_witness :
  exists st1 words' w1 w1',
    render_channel 0 (mk_channel 18 0 1 [66051])
      (mk_render_state (repeat 0 16) 0 31) = Ok st1
    /\ bitpos st1 = 31 - Z.of_nat 8
    /\ render_channel 1 (mk_channel 13 0 1 [255]) st1
       = render_leds (mk_channel 13 0 1 [255])
           (mk_render_state (pwm_words st1) 1 (31 - Z.of_nat 8))
    /\ render_encode [mk_channel 18 0 1 [66051]; mk_channel 13 0 1 [255]]
         (repeat 0 16) = Ok words'
    /\ repeat 0 16 !! 1%nat = Some w1 /\ words' !! 1%nat = Some w1'
    /\ (forall s, 0 <= s < 3 ->
          Z.testbit w1' (31 - Z.of_nat 8 - s)
          = Z.testbit (bit_symbol 0 (Z.land (Z.shiftr 255 8) 255) 7) (2 - s))
    /\ (forall b, 31 - Z.of_nat 8 < b < 32 -> Z.testbit w1' b = Z.testbit w1 b).
Proof.
  apply (render_bitpos_carried (mk_channel 18 0 1 [66051])
           (mk_channel 13 0 1 [255]) (repeat 0 16) 255).
  - simpl. lia.
  - simpl. lia.
  - right. vm_compute. lia.
  - vm_compute. lia.
  - simpl. lia.
  - reflexivity.
Defined.

(** ** C7: inversion *)

Lemma lookup_map {A B : Type} (f : A -> B) (l : list A) (i : nat) :
  map f l !! i = f <$> (l !! i).
Proof.
  revert i. induction l as [| a l IH]; intros [| i]; try reflexivity.
  apply IH.
Qed.

Lemma flat_map_map {A B C : Type} (f : B -> C) (h : A -> list B) (l : list A) :
  flat_map (fun a => map f (h a)) l = map f (flat_map h l).
Proof.
  induction l as [| a l IH]; [reflexivity |].
  cbn [flat_map]. rewrite map_app, IH. reflexivity.
Qed.

Lemma bit_symbol_inverted inv byte k :
  inv <> 0 -> bit_symbol inv byte k = Z.land (Z.lnot (bit_symbol 0 byte k)) 7.
Proof.
  intros Hinv. unfold bit_symbol.
  destruct (Z.eqb_spec inv 0) as [He | _]; [contradiction | reflexivity].
Qed.

Lemma symbol_bits_complement inv byte k :
  inv <> 0 ->
  symbol_bits (bit_symbol inv byte k)
  = map negb (symbol_bits (bit_symbol 0 byte k)).
Proof.
  intros Hinv. rewrite bit_symbol_inverted by exact Hinv.
  unfold bit_symbol. cbn [Z.eqb].
  destruct (Z.land byte (Z.shiftl 1 k) =? 0); reflexivity.
Qed.

Lemma byte_bits_complement inv byte :
  inv <> 0 -> byte_bits inv byte = map negb (byte_bits 0 byte).
Proof.
  intros Hinv. unfold byte_bits.
  rewrite <- (flat_map_map negb (fun k => symbol_bits (bit_symbol 0 byte k))).
  apply flat_map_ext. intros k. apply symbol_bits_complement, Hinv.
Qed.

Lemma led_bits_complement inv led :
  inv <> 0 -> led_bits inv led = map negb (led_bits 0 led).
Proof.
  intros Hinv. unfold led_bits.
  rewrite <- (flat_map_map negb (byte_bits 0)).
  apply flat_map_ext. intros byte. apply byte_bits_complement, Hinv.
Qed.

Lemma channel_bits_complement gp inv n l :
  inv <> 0 ->
  channel_bits (mk_channel gp inv n l)
  = map negb (channel_bits (mk_channel gp 0 n l)).
Proof.
  intros Hinv. unfold channel_bits. cbn [invert count leds].
  rewrite <- (flat_map_map negb (led_bits 0)).
  apply flat_map_ext. intros led. apply led_bits_complement, Hinv.
Qed.

(** C7.  With the inversion flag set, the symbol of every bit of every
    colour byte is the complement, cut to three bits, of the symbol
    with the flag clear; and in the buffer every sub-bit of the
    channel's stream is the complement of the one encoded with the
    flag clear. *)
Theorem render_inverted_complement (chan p : nat) (gp inv n : Z)
  (l words : list Z) :
  inv <> 0 ->
  (chan < 2)%nat -> (p < 32)%nat ->
  (Z.to_nat n <= length l)%nat ->
  (Z.to_nat n = 0 \/ chan + 2 * ((p + 72 * Z.to_nat n - 1) / 32) < length words)%nat ->
  (forall led j byte k,
     led_color led !! j = Some byte -> 0 <= k <= 7 ->
     bit_symbol inv byte k = Z.land (Z.lnot (bit_symbol 0 byte k)) 7
     /\ 0 <= bit_symbol inv byte k < 8)
  /\ exists plain inverted,
       render_channel chan (mk_channel gp 0 n l)
         (mk_render_state words chan (31 - Z.of_nat p))
       = Ok (cursor_at chan (p + 72 * Z.to_nat n) plain)
       /\ render_channel chan (mk_channel gp inv n l)
            (mk_render_state words chan (31 - Z.of_nat p))
          = Ok (cursor_at chan (p + 72 * Z.to_nat n) inverted)
       /\ forall q, (p <= q < p + 72 * Z.to_nat n)%nat ->
            exists b, lane_bit plain chan q = Some b
                      /\ lane_bit inverted chan q = Some (negb b).
Proof.
  intros Hinv Hchan Hp Hn Hlen. split.
  - intros led j byte k _ Hk. split; [apply bit_symbol_inverted, Hinv |].
    unfold bit_symbol.
    destruct (inv =? 0), (Z.land byte (Z.shiftl 1 k) =? 0);
      (split; [apply Z.leb_le | apply Z.ltb_lt]; reflexivity).
  - destruct (render_channel_spec chan (mk_channel gp 0 n l) p words Hchan Hp Hn Hlen)
      as (plain & Hrun0 & _ & _ & Hb0).
    destruct (render_channel_spec chan (mk_channel gp inv n l) p words Hchan Hp Hn Hlen)
      as (inverted & Hrun1 & _ & _ & Hb1).
    cbn [count] in *.
    exists plain, inverted. split; [exact Hrun0 |]. split; [exact Hrun1 |].
    intros q Hq.
    rewrite Hb0, Hb1 by exact Hchan.
    rewrite !decide_True by lia.
    rewrite (channel_bits_complement gp inv n l Hinv).
    rewrite lookup_map.
    destruct (lookup_lt_is_Some_2 (channel_bits (mk_channel gp 0 n l)) (q - p)%nat)
      as [b Hb].
    { rewrite channel_bits_length by exact Hn. cbn [count]. lia. }
    exists b. rewrite Hb. split; reflexivity.
Qed.

Lemma render_inverted_complement_witness :
  (forall led j byte k,
     led_color led !! j = Some byte -> 0 <= k <= 7 ->
     bit_symbol 1 byte k = Z.land (Z.lnot (bit_symbol 0 byte k)) 7
     /\ 0 <= bit_symbol 1 byte k < 8)
  /\ exists plain inverted,
       render_channel 0 (mk_channel 18 0 1 [66051])
         (mk_render_state (repeat 0 16) 0 (31 - Z.of_nat 0))
       = Ok (cursor_at 0 (0 + 72 * Z.to_nat 1) plain)
       /\ render_channel 0 (mk_channel 18 1 1 [66051])
            (mk_render_state (repeat 0 16) 0 (31 - Z.of_nat 0))
          = Ok (cursor_at 0 (0 + 72 * Z.to_nat 1) inverted)
       /\ forall q, (0 <= q < 0 + 72 * Z.to_nat 1)%nat ->
            exists b, lane_bit plain 0 q = Some b
                      /\ lane_bit inverted 0 q = Some (negb b).
Proof.
  apply (render_inverted_complement 0 0 18 1 1 [66051] (repeat 0 16)).
  - lia.
  - lia.
  - lia.
  - simpl. lia.
  - right. vm_compute. lia.
Defined.

(** ** C3: the size of the raw buffer *)

Lemma LED_RESET_BITS_exact freq :
  0 <= freq -> 55 * (freq * 3) < 2 ^ 32 ->
  LED_RESET_BITS freq = 55 * (freq * 3) / 1000000.
Proof.
  intros H0 Hmax. unfold LED_RESET_BITS, LED_RESET_uS.
  rewrite (uint32_small (freq * 3)) by lia.
  rewrite uint32_small by lia. reflexivity.
Qed.

(** C3, in the form the code satisfies.  For an LED count whose bit
    count fits an [int], [PWM_BYTE_COUNT] is the bit count converted
    to bytes, rounded down to a multiple of 8, plus 8, times the
    number of channels, where the reset gap is computed in 32-bit
    unsigned arithmetic: [freq * 3] and then the product with 55 are
    each reduced modulo 2^32.  As long as [55 * (freq * 3)] fits 32
    bits this is the formula of the specification; beyond that it is
    not.  For every frequency the result is a multiple of 4 and does
    not decrease when the LED count grows.  Being a function of the
    two arguments alone, it is deterministic. *)
Theorem PWM_BYTE_COUNT_spec (n n' freq : Z) :
  0 <= n <= n' -> n' * 72 <= INT_MAX ->
  PWM_BYTE_COUNT n freq
  = ((n * 72 + (55 * ((freq * 3) mod 2 ^ 32)) mod 2 ^ 32 / 1000000) / 8 / 8 * 8
     + 8) * 2
  /\ (0 <= freq -> 55 * (freq * 3) < 2 ^ 32 ->
      PWM_BYTE_COUNT n freq = requiredByteCount_spec n freq)
  /\ PWM_BYTE_COUNT n freq mod 4 = 0
  /\ PWM_BYTE_COUNT n freq <= PWM_BYTE_COUNT n' freq.
Proof.
  intros Hn Hmax.
  assert (Hmax0 : n * 72 <= INT_MAX) by lia.
  pose proof (PWM_BYTE_COUNT_exact n freq ltac:(lia) Hmax0) as He.
  pose proof (PWM_BYTE_COUNT_exact n' freq ltac:(lia) Hmax) as He'.
  pose proof (LED_RESET_BITS_range freq) as Hr.
  split; [exact He |]. split; [| split].
  - intros Hf Hfmax. rewrite He.
    unfold requiredByteCount_spec, requiredBitCount_spec.
    rewrite LED_RESET_BITS_exact by assumption. reflexivity.
  - rewrite He. unfold RPI_PWM_CHANNELS.
    replace (((n * 72 + LED_RESET_BITS freq) / 8 / 8 * 8 + 8) * 2)
      with (((n * 72 + LED_RESET_BITS freq) / 8 / 8 * 4 + 4) * 4) by lia.
    apply Z.mod_mul. lia.
  - rewrite He, He'. unfold RPI_PWM_CHANNELS.
    assert (Hle : (n * 72 + LED_RESET_BITS freq) / 8 / 8
                  <= (n' * 72 + LED_RESET_BITS freq) / 8 / 8).
    { apply Z.div_le_mono; [lia |]. apply Z.div_le_mono; lia. }
    lia.
Qed.

Lemma PWM_BYTE_COUNT_spec_witness :
  PWM_BYTE_COUNT 1 800000
  = ((1 * 72 + (55 * ((800000 * 3) mod 2 ^ 32)) mod 2 ^ 32 / 1000000) / 8 / 8 * 8
     + 8) * 2
  /\ (0 <= 800000 -> 55 * (800000 * 3) < 2 ^ 32 ->
      PWM_BYTE_COUNT 1 800000 = requiredByteCount_spec 1 800000)
  /\ PWM_BYTE_COUNT 1 800000 mod 4 = 0
  /\ PWM_BYTE_COUNT 1 800000 <= PWM_BYTE_COUNT 300 800000.
Proof.
  apply (PWM_BYTE_COUNT_spec 1 300 800000).
  - lia.
  - unfold INT_MAX. lia.
Defined.

(** Against C3 as the specification words it: at 26030105 Hz the
    product [55 * (freq * 3)] no longer fits 32 bits, the reset gap
    the macro computes is 0 and not 4294 sub-bits, and for one LED the
    macro yields 32 bytes where the formula of the specification
    yields 1104. *)
Lemma PWM_BYTE_COUNT_wraps :
  PWM_BYTE_COUNT 1 26030105 = 32
  /\ requiredByteCount_spec 1 26030105 = 1104
  /\ ~ (forall n freq : Z,
         0 <= n -> n * 72 <= INT_MAX -> 0 <= freq < 2 ^ 32 ->
         PWM_BYTE_COUNT n freq = requiredByteCount_spec n freq).
Proof.
  split; [reflexivity |]. split; [reflexivity |].
  intros Hall.
  specialize (Hall 1 26030105 ltac:(lia) ltac:(unfold INT_MAX; lia) ltac:(lia)).
  vm_compute in Hall. discriminate Hall.
Qed.

(** ** C4: the descriptor chain *)

Lemma addr_to_bus_nonzero pagemap addr : addr_to_bus pagemap addr <> 0.
Proof.
  unfold addr_to_bus. destruct (pagemap _) as [pfn |]; [| discriminate].
  intros H0.
  assert (Hbit : Z.testbit
            (Z.lor (Z.lor (uint32 (Z.shiftl (uint32 pfn) 12)) 1073741824)
                   (Z.land (uint32 addr) 4095)) 30 = false)
    by (rewrite H0; apply Z.bits_0).
  rewrite !Z.lor_spec in Hbit.
  change (Z.testbit 1073741824 30) with true in Hbit.
  rewrite orb_true_r in Hbit. discriminate.
Qed.

Section ChainFacts.
Context `{Platform}.
Variable pagemap : Z -> option Z.
Variable cb_base : Z.
Hypothesis page_size_pos : 0 < PAGE_SIZE.

Lemma pages_needed_0 : pages_needed 0 = 0%nat.
Proof.
  unfold pages_needed. rewrite Z.div_small by lia. reflexivity.
Qed.

Lemma pages_needed_pos n : 0 < n -> (0 < pages_needed n)%nat.
Proof.
  intros Hn. unfold pages_needed.
  enough (0 < (n + PAGE_SIZE - 1) / PAGE_SIZE) by lia.
  apply Z.div_str_pos. lia.
Qed.

Lemma pages_needed_step n :
  0 < n ->
  pages_needed n
  = S (pages_needed (n - (if PAGE_SIZE <? n then PAGE_SIZE else n))).
Proof.
  intros Hn. unfold pages_needed.
  destruct (Z.ltb_spec PAGE_SIZE n) as [Hlt | Hge].
  - replace (n + PAGE_SIZE - 1) with (n - PAGE_SIZE + PAGE_SIZE - 1 + 1 * PAGE_SIZE) by lia.
    rewrite Z.div_add by lia.
    assert (0 <= (n - PAGE_SIZE + PAGE_SIZE - 1) / PAGE_SIZE) by (apply Z.div_pos; lia).
    lia.
  - replace (n - n + PAGE_SIZE - 1) with (PAGE_SIZE - 1) by lia.
    rewrite (Z.div_small (PAGE_SIZE - 1)) by lia.
    replace (n + PAGE_SIZE - 1) with (n - 1 + 1 * PAGE_SIZE) by lia.
    rewrite Z.div_add, Z.div_small by lia. reflexivity.
Qed.

Lemma pages_needed_cover n :
  0 <= n -> n <= Z.of_nat (pages_needed n) * PAGE_SIZE.
Proof.
  intros Hn. unfold pages_needed.
  assert (0 <= (n + PAGE_SIZE - 1) / PAGE_SIZE) by (apply Z.div_pos; lia).
  rewrite Z2Nat.id by lia.
  pose proof (Z_div_mod_eq_full (n + PAGE_SIZE - 1) PAGE_SIZE).
  pose proof (Z.mod_pos_bound (n + PAGE_SIZE - 1) PAGE_SIZE page_size_pos).
  lia.
Qed.

(** The loop, when every page resolves and the descriptor array has
    a slot for every page: it emits [min (pages, pages needed)]
    descriptors, and leaves [dma_cb] on the last of them only when the
    page list ends before the byte count does. *)
Lemma chain_loop_ok : forall pages st,
  0 <= byte_count st < 2 ^ 31 ->
  Forall (page_ok pagemap) pages ->
  (cb_index st + length pages <= length (cbs st))%nat ->
  let k := Nat.min (length pages) (pages_needed (byte_count st)) in
  exists st',
    chain_loop pagemap cb_base pages st = Ok (false, st')
    /\ emitted st' = (emitted st + k)%nat
    /\ byte_count st' = Z.max 0 (byte_count st - Z.of_nat k * PAGE_SIZE)
    /\ length (cbs st') = length (cbs st)
    /\ ((length pages <= pages_needed (byte_count st))%nat -> pages <> [] ->
        S (cb_index st') = (cb_index st + k)%nat)
    /\ ((pages_needed (byte_count st) < length pages)%nat \/ pages = [] ->
        cb_index st' = (cb_index st + k)%nat)
    /\ (forall i page, (i < k)%nat -> pages !! i = Some page ->
          cbs st' !! (cb_index st + i)%nat
          = Some (chain_desc pagemap cb_base (cb_index st) (byte_count st) i page))
    /\ (forall j, (j < cb_index st \/ cb_index st + k <= j)%nat ->
          cbs st' !! j = cbs st !! j).
Proof.
  induction pages as [| page rest IH]; intros st Hbc Hok Hlen k.
  - exists st. subst k. cbn [chain_loop length Nat.min].
    split; [reflexivity |]. split; [lia |]. split; [lia |]. split; [reflexivity |].
    split; [intros _ Hne; contradiction |]. split; [intros _; lia |].
    split; [intros i page Hi; lia | reflexivity].
  - apply Forall_cons in Hok. destruct Hok as [Hpage Hok].
    cbn [chain_loop length] in *.
    destruct (Z.eqb_spec (byte_count st) 0) as [Hz | Hnz].
    + exists st. subst k. rewrite Hz, pages_needed_0, Nat.min_0_r.
      split; [reflexivity |]. split; [lia |]. split; [lia |]. split; [reflexivity |].
      split; [intros Hle; lia |]. split; [intros _; lia |].
      split; [intros i p Hi; lia | reflexivity].
    + set (pb := if PAGE_SIZE <? byte_count st then PAGE_SIZE else byte_count st) in *.
      assert (Hpb : 0 < pb <= byte_count st /\ pb <= PAGE_SIZE).
      { unfold pb. destruct (Z.ltb_spec PAGE_SIZE (byte_count st)); lia. }
      destruct (lookup_lt_is_Some_2 (cbs st) (cb_index st) ltac:(lia)) as [cb Hcb].
      rewrite Hcb.
      destruct (Z.eqb_spec (addr_to_bus pagemap page) (uint32 (Z.lnot 0)))
        as [Hbad | _]; [contradiction |].
      rewrite (int32_small (byte_count st - pb)) by lia.
      rewrite (uint32_small pb) by lia.
      pose proof (pages_needed_step (byte_count st) ltac:(lia)) as Hstep.
      fold pb in Hstep.
      set (d0 := mk_dma_cb RPI_DMA_TI_WORD (addr_to_bus pagemap page) PWM_FIF1_BUS
                   pb 0
                   (addr_to_bus pagemap
                      (cb_base + DMA_CB_SIZE * (Z.of_nat (cb_index st) + 1)))) in *.
      assert (Hd0 : d0 = chain_desc pagemap cb_base (cb_index st) (byte_count st) 0 page).
      { unfold d0, chain_desc. f_equal.
        - unfold pb. destruct (Z.ltb_spec PAGE_SIZE (byte_count st)); lia.
        - do 3 f_equal. lia. }
      destruct rest as [| page' rest'].
      * eexists. split; [reflexivity |]. subst k.
        cbn [emitted byte_count cbs cb_index length].
        rewrite Hstep. cbn [Nat.min].
        split; [lia |]. split.
        { unfold pb. destruct (Z.ltb_spec PAGE_SIZE (byte_count st)); lia. }
        split; [apply length_insert |]. split; [intros _ _; lia |].
        split; [intros [Hlt | Hnil]; [lia | discriminate] |]. split.
        -- intros i p Hi Hp. assert (i = 0%nat) as -> by lia.
           injection Hp as <-. rewrite Nat.add_0_r.
           rewrite list_lookup_insert_eq by (eapply lookup_lt_Some, Hcb).
           f_equal. exact Hd0.
        -- intros j Hj. apply list_lookup_insert_ne. lia.
      * set (st2 := mk_chain_state (<[cb_index st := d0]> (cbs st))
                      (S (cb_index st)) (byte_count st - pb) (S (emitted st))).
        destruct (IH st2) as (st' & Hrun & Hem & Hbc' & Hl' & Hlast & Hspare & Hdesc & Hframe).
        { cbn [byte_count st2]. lia. }
        { exact Hok. }
        { cbn [cbs cb_index st2]. rewrite length_insert. cbn [length] in *. lia. }
        cbn [byte_count cb_index emitted cbs st2] in *.
        exists st'. split; [exact Hrun |]. subst k.
        rewrite Hstep. cbn [Nat.min].
        set (k2 := Nat.min (length (page' :: rest'))
                     (pages_needed (byte_count st - pb))) in *.
        split; [lia |]. split.
        { rewrite Hbc'.
          destruct (Z.ltb_spec PAGE_SIZE (byte_count st)) as [Hlt | Hge].
          - unfold pb. destruct (Z.ltb_spec PAGE_SIZE (byte_count st)); lia.
          - assert (pb = byte_count st)
              by (unfold pb; destruct (Z.ltb_spec PAGE_SIZE (byte_count st)); lia).
            lia. }
        split; [rewrite Hl'; apply length_insert |].
        split.
        { intros Hle _.
          assert (Hle2 : (length (page' :: rest')
                          <= pages_needed (byte_count st - pb))%nat) by lia.
          pose proof (Hlast Hle2 ltac:(discriminate)) as Hx. lia. }
        split.
        { intros [Hlt | Hnil]; [| discriminate].
          rewrite Hspare by (left; lia). lia. }
        split.
        -- intros i p Hi Hp. destruct i as [| i].
           ++ injection Hp as <-. rewrite Nat.add_0_r.
              rewrite Hframe by (left; lia).
              rewrite list_lookup_insert_eq by (eapply lookup_lt_Some, Hcb).
              f_equal. exact Hd0.
           ++ cbn [lookup list_lookup] in Hp.
              replace (cb_index st + S i)%nat with (S (cb_index st) + i)%nat by lia.
              rewrite (Hdesc i p) by (assumption || lia).
              f_equal. unfold chain_desc. f_equal.
              ** assert (Hk2 : (0 < pages_needed (byte_count st - pb))%nat) by lia.
                 assert (pb = PAGE_SIZE).
                 { unfold pb. destruct (Z.ltb_spec PAGE_SIZE (byte_count st)) as [? | Hge];
                     [reflexivity |].
                   exfalso. unfold pb in Hk2.
                   destruct (Z.ltb_spec PAGE_SIZE (byte_count st)); [lia |].
                   replace (byte_count st - byte_count st) with 0 in Hk2 by lia.
                   rewrite pages_needed_0 in Hk2. lia. }
                 lia.
              ** do 3 f_equal. lia.
        -- intros j Hj. rewrite Hframe by lia.
           apply list_lookup_insert_ne. lia.
Qed.

Lemma pages_needed_below n i :
  (i < pages_needed n)%nat -> Z.of_nat i * PAGE_SIZE < n.
Proof.
  unfold pages_needed. intros Hi.
  pose proof (Z.mul_div_le (n + PAGE_SIZE - 1) PAGE_SIZE page_size_pos) as Hle.
  assert (Hq : Z.of_nat i + 1 <= (n + PAGE_SIZE - 1) / PAGE_SIZE) by lia.
  nia.
Qed.

Lemma chain_total_S k (descs : list dma_cb_t) cb :
  descs !! k = Some cb ->
  chain_total (S k) descs = chain_total k descs + txfr_len cb.
Proof.
  intros Hk. unfold chain_total.
  rewrite (take_S_r _ _ _ Hk), map_app, fold_right_app. cbn [map fold_right].
  generalize (map txfr_len (take k descs)). intros l.
  induction l as [| x l IH]; cbn [fold_right]; lia.
Qed.

Lemma chain_total_min n (descs : list dma_cb_t) : forall k,
  0 <= n ->
  (k <= pages_needed n)%nat ->
  (forall i, (i < k)%nat ->
     txfr_len <$> descs !! i = Some (Z.min PAGE_SIZE (n - Z.of_nat i * PAGE_SIZE))) ->
  chain_total k descs = Z.min n (Z.of_nat k * PAGE_SIZE).
Proof.
  intros k Hn. induction k as [| k IH]; intros Hk Hlen.
  - unfold chain_total. rewrite firstn_O. cbn [map fold_right].
    change (Z.of_nat 0) with 0. lia.
  - pose proof (Hlen k ltac:(lia)) as Hlast.
    destruct (descs !! k) as [cb |] eqn:Hcb; [| discriminate].
    cbn in Hlast. injection Hlast as Hlast.
    rewrite (chain_total_S k descs cb Hcb), Hlast.
    rewrite IH by (try lia; intros i Hi; apply Hlen; lia).
    pose proof (pages_needed_below n k ltac:(lia)). lia.
Qed.

Lemma PWM_BYTE_COUNT_int32 n freq :
  0 <= n -> n * 72 <= INT_MAX ->
  0 < PWM_BYTE_COUNT n freq < 2 ^ 31
  /\ int32 (PWM_BYTE_COUNT n freq) = PWM_BYTE_COUNT n freq.
Proof.
  intros Hn Hmax.
  rewrite PWM_BYTE_COUNT_exact by assumption.
  pose proof (LED_RESET_BITS_range freq) as Hr.
  unfold RPI_PWM_CHANNELS, INT_MAX in *.
  set (b := n * 72 + LED_RESET_BITS freq).
  assert (Hb : 0 <= b < 2 ^ 31 + 4294) by (unfold b; lia).
  assert (Hq : 0 <= b / 8 / 8 < 2 ^ 26).
  { rewrite Z.div_div by lia. split; [apply Z.div_pos; lia |].
    apply Z.div_lt_upper_bound; lia. }
  assert (Hrange : 0 < (b / 8 / 8 * 8 + 8) * 2 < 2 ^ 31) by lia.
  split; [exact Hrange | apply int32_small; lia].
Qed.

(** When the page list has exactly the pages the buffer needs, the
    chain is as the specification describes it. *)
Lemma setup_pwm_chain_exact (pages : list Z) (n freq : Z) (descs : list dma_cb_t) :
  let total := PWM_BYTE_COUNT n freq in
  0 <= n -> n * 72 <= INT_MAX ->
  Forall (page_ok pagemap) pages ->
  length pages = pages_needed total ->
  (length pages <= length descs)%nat ->
  exists st,
    setup_pwm_chain pagemap cb_base pages n freq descs = Ok (0, st)
    /\ emitted st = pages_needed total
    /\ S (cb_index st) = emitted st
    /\ (forall i, (i < emitted st)%nat ->
          txfr_len <$> cbs st !! i
          = Some (Z.min PAGE_SIZE (total - Z.of_nat i * PAGE_SIZE)))
    /\ chain_total (emitted st) (cbs st) = total
    /\ nextconbk <$> cbs st !! cb_index st = Some 0.
Proof.
  intros total Hn Hmax Hok Hlen Hdescs.
  destruct (PWM_BYTE_COUNT_int32 n freq Hn Hmax) as [Hrange Hint]. fold total in Hrange, Hint.
  pose proof (pages_needed_pos total ltac:(lia)) as Hpos.
  destruct (chain_loop_ok pages (mk_chain_state descs 0 total 0))
    as (st & Hrun & Hem & Hbc & Hl & Hlast & _ & Hdesc & _);
    [cbn; lia | exact Hok | cbn; lia |].
  cbn [byte_count cb_index emitted cbs] in *.
  rewrite Hlen, Nat.min_id in *.
  assert (Hne : pages <> []) by (intros ->; cbn in Hlen; lia).
  specialize (Hlast ltac:(lia) Hne).
  destruct (lookup_lt_is_Some_2 (cbs st) (cb_index st) ltac:(lia)) as [cb Hcb].
  unfold setup_pwm_chain. fold total. rewrite Hint, Hrun.
  cbn [mbind result_bind]. rewrite Hcb.
  eexists. split; [reflexivity |]. cbn [emitted cb_index cbs].
  split; [lia |]. split; [lia |].
  assert (Hlens : forall i, (i < pages_needed total)%nat ->
            txfr_len <$> (<[cb_index st :=
                            mk_dma_cb (ti cb) (source_ad cb) (dest_ad cb)
                              (txfr_len cb) (stride cb) 0]> (cbs st)) !! i
            = Some (Z.min PAGE_SIZE (total - Z.of_nat i * PAGE_SIZE))).
  { intros i Hi.
    destruct (lookup_lt_is_Some_2 pages i ltac:(lia)) as [page Hpage].
    pose proof (Hdesc i page Hi Hpage) as Hd. cbn [Nat.add] in Hd.
    destruct (decide (i = cb_index st)) as [-> | Hne'].
    - rewrite list_lookup_insert_eq by (eapply lookup_lt_Some, Hcb).
      rewrite Hcb in Hd. injection Hd as ->. reflexivity.
    - rewrite list_lookup_insert_ne by congruence. rewrite Hd. reflexivity. }
  split; [rewrite Hem; exact Hlens |]. split.
  - rewrite Hem, (chain_total_min total) by (lia || exact Hlens).
    pose proof (pages_needed_cover total ltac:(lia)). lia.
  - rewrite list_lookup_insert_eq by (eapply lookup_lt_Some, Hcb). reflexivity.
Qed.

(** When the page list has a page to spare, as many descriptors are
    emitted and their lengths add up as before, but the terminating
    zero goes to the descriptor after the last emitted one, whose
    [nextconbk] stays as the loop body set it, not zero. *)
Lemma setup_pwm_chain_spare (pages : list Z) (n freq : Z) (descs : list dma_cb_t) :
  let total := PWM_BYTE_COUNT n freq in
  0 <= n -> n * 72 <= INT_MAX ->
  Forall (page_ok pagemap) pages ->
  (pages_needed total < length pages)%nat ->
  (length pages <= length descs)%nat ->
  exists st last,
    setup_pwm_chain pagemap cb_base pages n freq descs = Ok (0, st)
    /\ emitted st = pages_needed total
    /\ cb_index st = emitted st
    /\ S last = emitted st
    /\ chain_total (emitted st) (cbs st) = total
    /\ nextconbk <$> cbs st !! cb_index st = Some 0
    /\ (exists next, nextconbk <$> cbs st !! last = Some next /\ next <> 0).
Proof.
  intros total Hn Hmax Hok Hlen Hdescs.
  destruct (PWM_BYTE_COUNT_int32 n freq Hn Hmax) as [Hrange Hint]. fold total in Hrange, Hint.
  pose proof (pages_needed_pos total ltac:(lia)) as Hpos.
  destruct (chain_loop_ok pages (mk_chain_state descs 0 total 0))
    as (st & Hrun & Hem & Hbc & Hl & _ & Hspare & Hdesc & _);
    [cbn; lia | exact Hok | cbn; lia |].
  cbn [byte_count cb_index emitted cbs] in *.
  rewrite Nat.min_r in * by lia.
  specialize (Hspare ltac:(left; lia)). cbn [Nat.add] in Hspare, Hem.
  destruct (lookup_lt_is_Some_2 (cbs st) (cb_index st) ltac:(lia)) as [cb Hcb].
  unfold setup_pwm_chain. fold total. rewrite Hint, Hrun.
  cbn [mbind result_bind]. rewrite Hcb.
  exists (mk_chain_state
            (<[cb_index st := mk_dma_cb (ti cb) (source_ad cb) (dest_ad cb)
                                (txfr_len cb) (stride cb) 0]> (cbs st))
            (cb_index st) (byte_count st) (emitted st)),
         (pages_needed total - 1)%nat.
  split; [reflexivity |]. cbn [emitted cb_index cbs].
  split; [lia |]. split; [lia |]. split; [lia |].
  assert (Hkeep : forall i page, (i < pages_needed total)%nat -> pages !! i = Some page ->
            (<[cb_index st := mk_dma_cb (ti cb) (source_ad cb) (dest_ad cb)
                                (txfr_len cb) (stride cb) 0]> (cbs st)) !! i
            = Some (chain_desc pagemap cb_base 0 total i page)).
  { intros i page Hi Hpage.
    rewrite list_lookup_insert_ne by lia.
    apply (Hdesc i page Hi Hpage). }
  split.
  - rewrite Hem, (chain_total_min total); try lia.
    + pose proof (pages_needed_cover total ltac:(lia)). lia.
    + intros i Hi.
      destruct (lookup_lt_is_Some_2 pages i ltac:(lia)) as [page Hpage].
      rewrite (Hkeep i page Hi Hpage). reflexivity.
  - split.
    + rewrite list_lookup_insert_eq by (eapply lookup_lt_Some, Hcb). reflexivity.
    + destruct (lookup_lt_is_Some_2 pages (pages_needed total - 1)%nat ltac:(lia))
        as [page Hpage].
      assert (Hlt : (pages_needed total - 1 < pages_needed total)%nat) by lia.
      rewrite (Hkeep _ page Hlt Hpage).
      cbn [fmap option_fmap option_map chain_desc nextconbk].
      eexists. split; [reflexivity | apply addr_to_bus_nonzero].
Qed.
End ChainFacts.

(** The two lemmas at work: 1000 LEDs at 800 kHz need 18048 bytes,
    five pages; with five pages the last emitted descriptor ends the
    chain, with six the sixth descriptor does. *)
Example setup_pwm_chain_five_pages :
  exists st,
    setup_pwm_chain (H := bcm2835) identity_pagemap 131072
      [65536; 69632; 73728; 77824; 81920] 1000 800000
      (repeat (mk_dma_cb 0 0 0 0 0 0) 8) = Ok (0, st)
    /\ emitted st = 5%nat
    /\ chain_total (emitted st) (cbs st) = 18048
    /\ nextconbk <$> cbs st !! 4%nat = Some 0.
Proof.
  destruct (setup_pwm_chain_exact (H := bcm2835) identity_pagemap 131072
              ltac:(reflexivity) [65536; 69632; 73728; 77824; 81920] 1000 800000
              (repeat (mk_dma_cb 0 0 0 0 0 0) 8))
    as (st & Hrun & Hem & Hidx & _ & Htotal & Hlast).
  - lia.
  - unfold INT_MAX. lia.
  - repeat constructor; discriminate.
  - reflexivity.
  - cbn. lia.
  - exists st. rewrite Hem in Hidx. injection Hidx as Hidx.
    rewrite Hidx in Hlast. change (pages_needed _) with 5%nat in Hem.
    rewrite Hem in *. auto.
Qed.

Example setup_pwm_chain_six_pages :
  exists st next,
    setup_pwm_chain (H := bcm2835) identity_pagemap 131072
      [65536; 69632; 73728; 77824; 81920; 86016] 1000 800000
      (repeat (mk_dma_cb 0 0 0 0 0 0) 8) = Ok (0, st)
    /\ emitted st = 5%nat
    /\ nextconbk <$> cbs st !! 4%nat = Some next /\ next <> 0
    /\ nextconbk <$> cbs st !! 5%nat = Some 0.
Proof.
  destruct (setup_pwm_chain_spare (H := bcm2835) identity_pagemap 131072
              ltac:(reflexivity) [65536; 69632; 73728; 77824; 81920; 86016]
              1000 800000 (repeat (mk_dma_cb 0 0 0 0 0 0) 8))
    as (st & last & Hrun & Hem & Hidx & Hlast & _ & Hterm & next & Hnext & Hnz).
  - lia.
  - unfold INT_MAX. lia.
  - repeat constructor; discriminate.
  - vm_compute. lia.
  - cbn. lia.
  - change (pages_needed _) with 5%nat in Hem.
    rewrite Hem in *. injection Hlast as ->. rewrite Hidx in Hterm.
    exists st, next. auto.
Qed.

(** C4, evaluated where it fails.  At 225 LEDs and 800 kHz the buffer
    is exactly one 4096-byte page long.  Given a page list of two
    pages, the loop emits one descriptor of 4096 bytes, steps [dma_cb]
    to the second descriptor because a next page exists, and leaves
    through the [byte_count] test; the terminating zero is then stored
    in the second descriptor, which was never emitted, and the one
    emitted descriptor keeps a [nextconbk] that is not zero. *)
Theorem setup_pwm_chain_terminator_misplaced :
  PWM_BYTE_COUNT 225 800000 = 4096
  /\ exists st,
       setup_pwm_chain (H := bcm2835) identity_pagemap 131072
         [65536; 69632] 225 800000 (repeat (mk_dma_cb 0 0 0 0 0 0) 4)
       = Ok (0, st)
       /\ emitted st = 1%nat
       /\ cb_index st = 1%nat
       /\ txfr_len <$> cbs st !! 0%nat = Some 4096
       /\ nextconbk <$> cbs st !! 0%nat = Some 1073872928
       /\ nextconbk <$> cbs st !! 1%nat = Some 0.
Proof.
  split; [reflexivity |].
  eexists. split; [vm_compute; reflexivity |].
  repeat split.
Qed.

(** ** C10: the result of [ws2811_wait] *)

Section WaitFacts.
Context `{Platform}.
Variable hw : hardware.

Lemma wait_poll_more_fuel fuel : forall t t',
  wait_poll hw fuel t = Ok t' ->
  forall fuel', (fuel <= fuel')%nat -> wait_poll hw fuel' t = Ok t'.
Proof.
  induction fuel as [| fuel IH]; intros t t' Hrun fuel' Hle; [discriminate |].
  destruct fuel' as [| fuel']; [lia |].
  cbn [wait_poll] in *.
  destruct (Z.land (dma_cs hw t) RPI_DMA_CS_ACTIVE =? 0); [exact Hrun |].
  destruct (Z.land (dma_cs hw (S t)) RPI_DMA_CS_ERROR =? 0); [| exact Hrun].
  apply (IH _ _ Hrun). lia.
Qed.

(** How the loop is left: on a read that shows [ACTIVE] clear, or on
    a read that shows [ERROR] set. *)
Lemma wait_poll_exit fuel : forall t t',
  wait_poll hw fuel t = Ok t' ->
  (t < t')%nat /\ (active_clear hw (t' - 1) \/ error_set hw (t' - 1)).
Proof.
  induction fuel as [| fuel IH]; intros t t' Hrun; [discriminate |].
  cbn [wait_poll] in Hrun.
  destruct (Z.eqb_spec (Z.land (dma_cs hw t) RPI_DMA_CS_ACTIVE) 0) as [Ha | Ha].
  - injection Hrun as <-. split; [lia |]. left.
    unfold active_clear. replace (S t - 1)%nat with t by lia. exact Ha.
  - destruct (Z.eqb_spec (Z.land (dma_cs hw (S t)) RPI_DMA_CS_ERROR) 0) as [He | He].
    + destruct (IH _ _ Hrun) as [Hlt Hex]. split; [lia | exact Hex].
    + injection Hrun as <-. split; [lia |]. right.
      unfold error_set. replace (S (S t) - 1)%nat with (S t) by lia. exact He.
Qed.

(** The loop ends once the transfer has ended for good or has failed
    for good. *)
Lemma wait_poll_total (T : nat) :
  (forall t, (T <= t)%nat -> active_clear hw t) \/ (forall t, (T <= t)%nat -> error_set hw t) ->
  forall d t, (T <= t + 2 * d)%nat -> exists t', wait_poll hw (S d) t = Ok t'.
Proof.
  intros Hstable. induction d as [| d IH]; intros t Ht.
  - cbn [wait_poll].
    destruct (Z.eqb_spec (Z.land (dma_cs hw t) RPI_DMA_CS_ACTIVE) 0) as [Ha | Ha];
      [eauto |].
    destruct (Z.eqb_spec (Z.land (dma_cs hw (S t)) RPI_DMA_CS_ERROR) 0) as [He | He];
      [| eauto].
    destruct Hstable as [Hs | Hs].
    + exfalso. apply Ha. apply Hs. lia.
    + exfalso. apply (Hs (S t)); [lia | exact He].
  - change (wait_poll hw (S (S d)) t)
      with (if Z.land (dma_cs hw t) RPI_DMA_CS_ACTIVE =? 0 then Ok (S t)
            else if Z.land (dma_cs hw (S t)) RPI_DMA_CS_ERROR =? 0
                 then wait_poll hw (S d) (S (S t))
                 else Ok (S (S t))).
    destruct (Z.land (dma_cs hw t) RPI_DMA_CS_ACTIVE =? 0); [eauto |].
    destruct (Z.land (dma_cs hw (S t)) RPI_DMA_CS_ERROR =? 0); [| eauto].
    apply IH. lia.
Qed.

(** Once the transfer has ended or failed for good, the call returns
    whatever fuel above [S T] it is given, having only advanced the
    count of reads. *)
Lemma ws2811_wait_returns (m : machine) (dev : ws2811_device_t) (T : nat) :
  load_device m = Ok dev -> dma dev ∈ mapped m ->
  (forall t, (T <= t)%nat -> active_clear hw t) \/ (forall t, (T <= t)%nat -> error_set hw t) ->
  exists t',
    wait_poll hw (S T) (dma_cs_reads m) = Ok t'
    /\ forall fuel, (S T <= fuel)%nat ->
         ws2811_wait hw fuel m
         = Ok (if Z.land (dma_cs hw t') RPI_DMA_CS_ERROR =? 0 then 0 else -1,
               set_dma_cs_reads (S t') m).
Proof.
  intros Hdev Hmap Hstable.
  destruct (wait_poll_total T Hstable T (dma_cs_reads m) ltac:(lia)) as [t' Hpoll].
  exists t'. split; [exact Hpoll |].
  intros fuel Hle. unfold ws2811_wait. rewrite Hdev. cbn [mbind result_bind].
  rewrite decide_True by exact Hmap.
  rewrite (wait_poll_more_fuel _ _ _ Hpoll fuel Hle). reflexivity.
Qed.

(** C10.  Once the transfer has ended or failed for good,
    [ws2811_wait] returns, with -1 or 0, and it returns -1 exactly
    when the read of the control/status register that follows the
    loop shows [ERROR] set.  The hardware keeps [ERROR] set once it
    is set; then -1 is returned exactly when some read made by the
    call showed [ERROR] set, and 0 is returned only after a read that
    showed [ACTIVE] clear. *)
Theorem ws2811_wait_result (m : machine) (dev : ws2811_device_t) (T : nat) :
  load_device m = Ok dev -> dma dev ∈ mapped m ->
  (forall t, (T <= t)%nat -> active_clear hw t) \/ (forall t, (T <= t)%nat -> error_set hw t) ->
  exists fuel r m',
    ws2811_wait hw fuel m = Ok (r, m')
    /\ (forall fuel', (fuel <= fuel')%nat -> ws2811_wait hw fuel' m = Ok (r, m'))
    /\ (dma_cs_reads m < dma_cs_reads m')%nat
    /\ (r = -1 \/ r = 0)
    /\ (r = -1 <-> error_set hw (dma_cs_reads m' - 1))
    /\ ((forall t t', (t <= t')%nat -> error_set hw t -> error_set hw t') ->
        (r = -1 <->
         exists t, (dma_cs_reads m <= t < dma_cs_reads m')%nat /\ error_set hw t)
        /\ (r = 0 ->
            exists t, (dma_cs_reads m <= t < dma_cs_reads m')%nat /\ active_clear hw t)).
Proof.
  intros Hdev Hmap Hstable.
  destruct (ws2811_wait_returns m dev T Hdev Hmap Hstable) as (t' & Hpoll & Hrun).
  destruct (wait_poll_exit _ _ _ Hpoll) as [Hlt Hexit].
  set (r := if Z.land (dma_cs hw t') RPI_DMA_CS_ERROR =? 0 then 0 else -1) in *.
  exists (S T), r, (set_dma_cs_reads (S t') m).
  cbn [dma_cs_reads set_dma_cs_reads].
  replace (S t' - 1)%nat with t' by lia.
  assert (Hr : r = -1 <-> error_set hw t').
  { unfold r, error_set.
    destruct (Z.eqb_spec (Z.land (dma_cs hw t') RPI_DMA_CS_ERROR) 0) as [He | He];
      split; intros Hx; (lia || congruence). }
  split; [apply Hrun; lia |]. split; [exact Hrun |]. split; [lia |].
  split; [unfold r; destruct (_ =? 0); lia |]. split; [exact Hr |].
  intros Hsticky. split.
  - rewrite Hr. split.
    + intros He. exists t'. split; [lia | exact He].
    + intros (t & Ht & He). apply (Hsticky t t'); [lia | exact He].
  - intros Hr0.
    destruct Hexit as [Ha | He].
    + exists (t' - 1)%nat. split; [lia | exact Ha].
    + exfalso.
      assert (Herr : error_set hw t') by (apply (Hsticky (t' - 1)%nat t'); [lia | exact He]).
      apply Hr in Herr. lia.
Qed.
End WaitFacts.

Lemma ws2811_wait_result_witness :
  exists fuel r m',
    ws2811_wait (H := bcm2835) failing_hardware fuel sample_machine = Ok (r, m')
    /\ (forall fuel', (fuel <= fuel')%nat ->
          ws2811_wait (H := bcm2835) failing_hardware fuel' sample_machine
          = Ok (r, m'))
    /\ (dma_cs_reads sample_machine < dma_cs_reads m')%nat
    /\ (r = -1 \/ r = 0)
    /\ (r = -1 <-> error_set (H := bcm2835) failing_hardware (dma_cs_reads m' - 1))
    /\ ((forall t t', (t <= t')%nat ->
           error_set (H := bcm2835) failing_hardware t ->
           error_set (H := bcm2835) failing_hardware t') ->
        (r = -1 <->
         exists t, (dma_cs_reads sample_machine <= t < dma_cs_reads m')%nat
                   /\ error_set (H := bcm2835) failing_hardware t)
        /\ (r = 0 ->
            exists t, (dma_cs_reads sample_machine <= t < dma_cs_reads m')%nat
                      /\ active_clear (H := bcm2835) failing_hardware t)).
Proof.
  apply (ws2811_wait_result (H := bcm2835) failing_hardware sample_machine
           (mk_device 4096 5000 6000 8192 1073750016 7000 8000) 4).
  - reflexivity.
  - vm_compute. reflexivity.
  - right. intros t Ht. unfold error_set, failing_hardware. cbn [dma_cs].
    destruct (Nat.ltb_spec t 4) as [Hlt | Hge]; [lia |].
    vm_compute. discriminate.
Defined.

(** ** C9: cleanup and shutdown *)

Lemma cleanup_null (m : machine) :
  all_null m -> ws2811_cleanup m = Ok m.
Proof.
  destruct m as [[d l] devs ml pg mp r1 r2 ws]. intros [Hd Hl].
  cbn in Hd, Hl. subst d l. reflexivity.
Qed.

Ltac machine_simpl :=
  cbn [ws2811 devices malloced paged mapped dma_cs_reads cm_ctl_reads reg_writes
       set_ws2811 set_devices set_malloced set_paged set_mapped
       set_dma_cs_reads set_cm_ctl_reads push_reg_write
       device channel_leds mbind result_bind] in *.

Lemma free_live (p : Z) (m : machine) :
  p <> 0 -> p ∈ malloced m ->
  free p m = Ok (set_devices (delete p (devices m))
                   (set_malloced (malloced m ∖ {[p]}) m)).
Proof.
  intros Hp Hin. unfold free.
  rewrite decide_False by exact Hp. rewrite decide_True by exact Hin.
  reflexivity.
Qed.

Lemma dma_page_free_live (p : Z) (m : machine) :
  p ∈ paged m -> dma_page_free p m = Ok (set_paged (paged m ∖ {[p]}) m).
Proof.
  intros Hin. unfold dma_page_free. rewrite decide_True by exact Hin.
  reflexivity.
Qed.

Lemma cleanup_channel_ok (chan : nat) (m : machine) (p : Z) :
  channel_leds (ws2811 m) !! chan = Some p ->
  (p <> 0 -> p ∈ malloced m) ->
  exists m',
    cleanup_channel chan m = Ok m'
    /\ ws2811 m' = mk_ws2811 (device (ws2811 m))
                     (<[chan := 0]> (channel_leds (ws2811 m)))
    /\ malloced m' = (if decide (p = 0) then malloced m else malloced m ∖ {[p]})
    /\ devices m' = (if decide (p = 0) then devices m else delete p (devices m))
    /\ paged m' = paged m /\ mapped m' = mapped m
    /\ dma_cs_reads m' = dma_cs_reads m /\ cm_ctl_reads m' = cm_ctl_reads m.
Proof.
  intros Hlk Hlive. unfold cleanup_channel. rewrite Hlk.
  destruct (decide (p = 0)) as [Hp | Hp].
  - machine_simpl. eexists. split; [reflexivity |]. machine_simpl.
    repeat split; reflexivity.
  - rewrite (free_live p m Hp (Hlive Hp)). machine_simpl.
    eexists. split; [reflexivity |]. machine_simpl.
    repeat split; reflexivity.
Qed.

Lemma load_device_eq (m : machine) (dev : ws2811_device_t) :
  devices m !! device (ws2811 m) = Some dev -> load_device m = Ok dev.
Proof. intros Hlk. unfold load_device. rewrite Hlk. reflexivity. Qed.

(** Goals about what is left of a set after some frees. *)
Ltac shrink_sets :=
  first
    [ reflexivity
    | let x := fresh "x" in
      let Hx := fresh "Hx" in
      intros x Hx;
      repeat (apply elem_of_difference in Hx; destruct Hx as [Hx _]);
      exact Hx ].

Ltac in_difference :=
  rewrite ?elem_of_difference, ?elem_of_singleton;
  repeat split; first [assumption | congruence].

(** Membership in a set given by its elements. *)
Ltac set_compute := apply (bool_decide_unpack _); vm_compute; exact I.

Ltac gone_by Hgone :=
  let p := fresh "p" in
  let Hp := fresh "Hp" in
  intros p Hp; eapply Hgone;
  [ exact Hp
  | first [ left; reflexivity
          | right; left; eexists; reflexivity
          | right; right; do 2 eexists; reflexivity ] ].

Lemma cleanup_device_ok (m : machine) :
  (device (ws2811 m) <> 0 ->
   device (ws2811 m) ∈ malloced m
   /\ exists dev, devices m !! device (ws2811 m) = Some dev
        /\ (pwm_raw dev <> 0 -> pwm_raw dev ∈ paged m)
        /\ (dma_cb dev <> 0 -> dma_cb dev ∈ paged m)
        /\ (pwm_raw dev <> 0 -> pwm_raw dev <> dma_cb dev)) ->
  exists m',
    cleanup_device m = Ok m'
    /\ ws2811 m' = ws2811 m
    /\ malloced m' ⊆ malloced m /\ paged m' ⊆ paged m
    /\ mapped m' = mapped m
    /\ dma_cs_reads m' = dma_cs_reads m /\ cm_ctl_reads m' = cm_ctl_reads m
    /\ (forall p, devices m !! p = None -> devices m' !! p = None).
Proof.
  intros Hdev. unfold cleanup_device.
  destruct (decide (device (ws2811 m) = 0)) as [Hd | Hd].
  { exists m. repeat split; (reflexivity || auto). }
  assert (Hgone : forall (dv : gmap Z ws2811_device_t) p,
            devices m !! p = None ->
            (dv = devices m
             \/ (exists x, dv = <[device (ws2811 m) := x]> (devices m))
             \/ exists x y, dv = <[device (ws2811 m) := x]>
                                 (<[device (ws2811 m) := y]> (devices m))) ->
            delete (device (ws2811 m)) dv !! p = None).
  { intros dv p Hp Hdv.
    destruct (decide (p = device (ws2811 m))) as [-> | Hne'];
      [apply lookup_delete_eq |].
    rewrite lookup_delete_ne by congruence.
    destruct Hdv as [-> | [[x ->] | (x & y & ->)]];
      rewrite ?lookup_insert_ne by congruence; exact Hp. }
  destruct (Hdev Hd) as (Hdl & dev & Hlk & Hraw & Hcb & Hne).
  rewrite (load_device_eq m dev Hlk). machine_simpl.
  destruct (decide (pwm_raw dev = 0)) as [Hr | Hr]; machine_simpl.
  - rewrite (load_device_eq m dev Hlk). machine_simpl.
    destruct (decide (dma_cb dev = 0)) as [Hc | Hc]; machine_simpl.
    + rewrite (free_live _ m Hd Hdl).
      eexists. split; [reflexivity |]. machine_simpl.
      repeat split; try reflexivity; try shrink_sets; gone_by Hgone.
    + rewrite (dma_page_free_live _ m (Hcb Hc)). machine_simpl.
      rewrite free_live by (machine_simpl; assumption).
      eexists. split; [reflexivity |]. machine_simpl.
      repeat split; try reflexivity; try shrink_sets; gone_by Hgone.
  - rewrite (dma_page_free_live _ m (Hraw Hr)). machine_simpl.
    erewrite load_device_eq by (machine_simpl; apply lookup_insert_eq).
    machine_simpl. cbn [dma_cb].
    destruct (decide (dma_cb dev = 0)) as [Hc | Hc]; machine_simpl.
    + rewrite free_live by (machine_simpl; assumption).
      eexists. split; [reflexivity |]. machine_simpl.
      repeat split; try reflexivity; try shrink_sets; gone_by Hgone.
    + rewrite dma_page_free_live
        by (machine_simpl; specialize (Hcb Hc); specialize (Hne Hr);
            in_difference).
      machine_simpl.
      rewrite free_live by (machine_simpl; assumption).
      eexists. split; [reflexivity |]. machine_simpl.
      repeat split; try reflexivity; try shrink_sets; gone_by Hgone.
Qed.

Lemma cleanup_owned (m : machine) :
  owned_ok m ->
  exists m1,
    ws2811_cleanup m = Ok m1 /\ all_null m1
    /\ malloced m1 ⊆ malloced m /\ paged m1 ⊆ paged m
    /\ mapped m1 = mapped m
    /\ dma_cs_reads m1 = dma_cs_reads m /\ cm_ctl_reads m1 = cm_ctl_reads m
    /\ devices m1 !! 0 = None.
Proof.
  intros (Hm0 & Hp0 & _ & Hdom
          & (p0 & p1 & Hl & Hp0l & Hp1l & Hp01 & Hp0d & Hp1d) & Hdev).
  unfold ws2811_cleanup.
  change (seq 0 (Z.to_nat RPI_PWM_CHANNELS)) with [0%nat; 1%nat].
  cbn [foldM].
  destruct (cleanup_channel_ok 0 m p0)
    as (ma & -> & Hwa & Hma & Hda & Hpa & Hmpa & Hra & Hca);
    [rewrite Hl; reflexivity | exact Hp0l |].
  machine_simpl. rewrite Hl in Hwa. cbn [insert list_insert] in Hwa.
  destruct (cleanup_channel_ok 1 ma p1)
    as (mb & -> & Hwb & Hmb & Hdb & Hpb & Hmpb & Hrb & Hcb').
  { rewrite Hwa. reflexivity. }
  { intros Hn1. rewrite Hma. destruct (decide (p0 = 0)) as [? | Hn0]; [auto |].
    specialize (Hp1l Hn1). specialize (Hp01 Hn0).
    apply elem_of_difference. split; [exact Hp1l |].
    rewrite elem_of_singleton. congruence. }
  machine_simpl. rewrite Hwa in Hwb.
  cbn [insert list_insert device channel_leds] in Hwb.
  assert (Hsub : malloced mb ⊆ malloced m).
  { rewrite Hmb, Hma.
    destruct (decide (p1 = 0)), (decide (p0 = 0)); intros x Hx;
      repeat (apply elem_of_difference in Hx; destruct Hx as [Hx _]); exact Hx. }
  assert (Hdevs : forall p, devices m !! p = None -> devices mb !! p = None).
  { intros p Hp. rewrite Hdb, Hda.
    destruct (decide (p1 = 0)), (decide (p0 = 0));
      rewrite ?lookup_delete_None; auto. }
  destruct (cleanup_device_ok mb)
    as (mc & -> & Hwc & Hmc & Hpc & Hmpc & Hrc & Hcc & Hdc).
  { rewrite Hwb. cbn [device]. intros Hd.
    destruct (Hdev Hd) as (Hdl & dev & Hlk & Hraw & Hcb & Hne).
    split.
    - rewrite Hmb, Hma.
      destruct (decide (p1 = 0)) as [? | Hn1], (decide (p0 = 0)) as [? | Hn0];
        try specialize (Hp0d Hn0); try specialize (Hp1d Hn1);
        rewrite ?elem_of_difference, ?elem_of_singleton;
        repeat split; (exact Hdl || congruence).
    - exists dev. rewrite Hpb, Hpa. split; [| auto].
      rewrite Hdb, Hda.
      destruct (decide (p1 = 0)) as [? | Hn1], (decide (p0 = 0)) as [? | Hn0];
        try specialize (Hp0d Hn0); try specialize (Hp1d Hn1);
        rewrite ?lookup_delete_ne by congruence; exact Hlk. }
  machine_simpl.
  eexists. split; [reflexivity |]. unfold all_null. machine_simpl.
  rewrite Hwc, Hwb. cbn [channel_leds].
  split; [split; reflexivity |].
  split; [etransitivity; [exact Hmc | exact Hsub] |].
  split; [rewrite <- Hpa, <- Hpb; exact Hpc |].
  split; [congruence |]. split; [congruence |]. split; [congruence |].
  apply Hdc, Hdevs, Hdom, Hm0.
Qed.

Lemma cleanup_device_exact (m : machine) (dev : ws2811_device_t) :
  (device (ws2811 m) <> 0 ->
   device (ws2811 m) ∈ malloced m
   /\ devices m !! device (ws2811 m) = Some dev
   /\ (pwm_raw dev <> 0 -> pwm_raw dev ∈ paged m)
   /\ (dma_cb dev <> 0 -> dma_cb dev ∈ paged m)
   /\ (pwm_raw dev <> 0 -> pwm_raw dev <> dma_cb dev)) ->
  exists m',
    cleanup_device m = Ok m'
    /\ ws2811 m' = ws2811 m
    /\ malloced m' = without (device (ws2811 m)) (malloced m)
    /\ paged m' = (if decide (device (ws2811 m) = 0) then paged m
                   else without (dma_cb dev) (without (pwm_raw dev) (paged m)))
    /\ mapped m' = mapped m /\ reg_writes m' = reg_writes m
    /\ dma_cs_reads m' = dma_cs_reads m /\ cm_ctl_reads m' = cm_ctl_reads m.
Proof.
  intros Hdev. unfold cleanup_device, without.
  destruct (decide (device (ws2811 m) = 0)) as [Hd | Hd].
  { exists m. repeat split; reflexivity. }
  destruct (Hdev Hd) as (Hdl & Hlk & Hraw & Hcb & Hne).
  rewrite (load_device_eq m dev Hlk). machine_simpl.
  destruct (decide (pwm_raw dev = 0)) as [Hr | Hr]; machine_simpl.
  - rewrite (load_device_eq m dev Hlk). machine_simpl.
    destruct (decide (dma_cb dev = 0)) as [Hc | Hc]; machine_simpl.
    + rewrite (free_live _ m Hd Hdl).
      eexists. split; [reflexivity |]. machine_simpl.
      repeat split; reflexivity.
    + rewrite (dma_page_free_live _ m (Hcb Hc)). machine_simpl.
      rewrite free_live by (machine_simpl; assumption).
      eexists. split; [reflexivity |]. machine_simpl.
      repeat split; reflexivity.
  - rewrite (dma_page_free_live _ m (Hraw Hr)). machine_simpl.
    erewrite load_device_eq by (machine_simpl; apply lookup_insert_eq).
    machine_simpl. cbn [dma_cb].
    destruct (decide (dma_cb dev = 0)) as [Hc | Hc]; machine_simpl.
    + rewrite free_live by (machine_simpl; assumption).
      eexists. split; [reflexivity |]. machine_simpl.
      repeat split; reflexivity.
    + rewrite dma_page_free_live
        by (machine_simpl; specialize (Hcb Hc); specialize (Hne Hr);
            in_difference).
      machine_simpl.
      rewrite free_live by (machine_simpl; assumption).
      eexists. split; [reflexivity |]. machine_simpl.
      repeat split; reflexivity.
Qed.

Lemma cleanup_channel_regs (chan : nat) (m m' : machine) :
  cleanup_channel chan m = Ok m' -> reg_writes m' = reg_writes m.
Proof.
  unfold cleanup_channel, free.
  destruct (channel_leds (ws2811 m) !! chan) as [p |]; [| discriminate].
  destruct (decide (p = 0)); machine_simpl.
  - intros Hrun. injection Hrun as <-. reflexivity.
  - destruct (decide (p ∈ malloced m)); machine_simpl; [| discriminate].
    intros Hrun. injection Hrun as <-. reflexivity.
Qed.

(** Cleanup releases what the instance owns and nothing else. *)
Lemma cleanup_exact (m : machine) (p0 p1 : Z) (dev : ws2811_device_t) :
  owned_ok m ->
  channel_leds (ws2811 m) = [p0; p1] ->
  (device (ws2811 m) <> 0 -> devices m !! device (ws2811 m) = Some dev) ->
  exists m1,
    ws2811_cleanup m = Ok m1 /\ all_null m1
    /\ malloced m1
       = without (device (ws2811 m)) (without p1 (without p0 (malloced m)))
    /\ paged m1 = (if decide (device (ws2811 m) = 0) then paged m
                   else without (dma_cb dev) (without (pwm_raw dev) (paged m)))
    /\ mapped m1 = mapped m /\ reg_writes m1 = reg_writes m
    /\ dma_cs_reads m1 = dma_cs_reads m /\ cm_ctl_reads m1 = cm_ctl_reads m.
Proof.
  intros (Hm0 & Hp0 & _ & Hdom
          & (q0 & q1 & Hl' & Hp0l & Hp1l & Hp01 & Hp0d & Hp1d) & Hdev) Hl Hrec.
  rewrite Hl in Hl'. injection Hl' as <- <-.
  unfold ws2811_cleanup.
  change (seq 0 (Z.to_nat RPI_PWM_CHANNELS)) with [0%nat; 1%nat].
  cbn [foldM].
  destruct (cleanup_channel_ok 0 m p0)
    as (ma & Hruna & Hwa & Hma & Hda & Hpa & Hmpa & Hra & Hca);
    [rewrite Hl; reflexivity | exact Hp0l |].
  pose proof (cleanup_channel_regs _ _ _ Hruna) as Hrga.
  rewrite Hruna. machine_simpl. rewrite Hl in Hwa. cbn [insert list_insert] in Hwa.
  destruct (cleanup_channel_ok 1 ma p1)
    as (mb & Hrunb & Hwb & Hmb & Hdb & Hpb & Hmpb & Hrb & Hcb').
  { rewrite Hwa. reflexivity. }
  { intros Hn1. rewrite Hma. destruct (decide (p0 = 0)) as [? | Hn0]; [auto |].
    specialize (Hp1l Hn1). specialize (Hp01 Hn0).
    apply elem_of_difference. split; [exact Hp1l |].
    rewrite elem_of_singleton. congruence. }
  pose proof (cleanup_channel_regs _ _ _ Hrunb) as Hrgb.
  rewrite Hrunb. machine_simpl. rewrite Hwa in Hwb.
  cbn [insert list_insert device channel_leds] in Hwb.
  destruct (cleanup_device_exact mb dev)
    as (mc & -> & Hwc & Hmc & Hpc & Hmpc & Hrgc & Hrc & Hcc).
  { rewrite Hwb. cbn [device]. intros Hd.
    destruct (Hdev Hd) as (Hdl & dev' & Hlk & Hraw & Hcb & Hne).
    rewrite (Hrec Hd) in Hlk. injection Hlk as <-.
    split.
    - rewrite Hmb, Hma.
      destruct (decide (p1 = 0)) as [? | Hn1], (decide (p0 = 0)) as [? | Hn0];
        try specialize (Hp0d Hn0); try specialize (Hp1d Hn1);
        rewrite ?elem_of_difference, ?elem_of_singleton;
        repeat split; (exact Hdl || congruence).
    - rewrite Hpb, Hpa. split; [| auto].
      rewrite Hdb, Hda.
      destruct (decide (p1 = 0)) as [? | Hn1], (decide (p0 = 0)) as [? | Hn0];
        try specialize (Hp0d Hn0); try specialize (Hp1d Hn1);
        rewrite ?lookup_delete_ne by congruence; exact (Hrec Hd). }
  machine_simpl.
  eexists. split; [reflexivity |]. unfold all_null. machine_simpl.
  rewrite Hwc, Hwb in *. cbn [channel_leds device] in *.
  split; [split; reflexivity |].
  split; [rewrite Hmc, Hmb, Hma; reflexivity |].
  split; [rewrite Hpc, Hpb, Hpa; reflexivity |].
  repeat split; congruence.
Qed.

Section ShutdownFacts.
Context `{Platform}.
Variable hw : hardware.

Lemma busy_poll_more_fuel fuel : forall t t',
  busy_poll hw fuel t = Ok t' ->
  forall fuel', (fuel <= fuel')%nat -> busy_poll hw fuel' t = Ok t'.
Proof.
  induction fuel as [| fuel IH]; intros t t' Hrun fuel' Hle; [discriminate |].
  destruct fuel' as [| fuel']; [lia |].
  cbn [busy_poll] in *.
  destruct (Z.land (cm_pwm_ctl hw t) CM_PWM_CTL_BUSY =? 0); [exact Hrun |].
  apply (IH _ _ Hrun). lia.
Qed.

Lemma busy_poll_total (T : nat) :
  (forall t, (T <= t)%nat -> clock_idle hw t) ->
  forall d t, (T <= t + d)%nat -> exists t', busy_poll hw (S d) t = Ok t'.
Proof.
  intros Hidle. induction d as [| d IH]; intros t Ht.
  - cbn [busy_poll].
    destruct (Z.eqb_spec (Z.land (cm_pwm_ctl hw t) CM_PWM_CTL_BUSY) 0) as [Hb | Hb];
      [eauto |].
    exfalso. apply Hb. apply Hidle. lia.
  - change (busy_poll hw (S (S d)) t)
      with (if Z.land (cm_pwm_ctl hw t) CM_PWM_CTL_BUSY =? 0 then Ok (S t)
            else busy_poll hw (S d) (S t)).
    destruct (Z.land (cm_pwm_ctl hw t) CM_PWM_CTL_BUSY =? 0); [eauto |].
    apply IH. lia.
Qed.

(** Shutdown without a device record dereferences [NULL]. *)
Lemma fini_without_device (fuel : nat) (m : machine) :
  devices m !! device (ws2811 m) = None -> ws2811_fini hw fuel m = Fault.
Proof.
  intros Hnone. unfold ws2811_fini, ws2811_wait, load_device.
  rewrite Hnone. reflexivity.
Qed.

Lemma elem_of_unmap_window (x p : Z) (s : gset Z) :
  x ∈ unmap_window p s
  <-> x ∈ s /\ ~ (x = p /\ p mod PAGE_SIZE = 0 /\ p <> 0).
Proof.
  unfold unmap_window, unmap_device.
  destruct (decide (p = 0)) as [Hp | Hp];
    [| destruct (decide (p mod PAGE_SIZE = 0)) as [Ha | Ha]];
    rewrite ?elem_of_difference, ?elem_of_singleton; tauto.
Qed.

(** Shutdown on hardware that comes to rest: the two stores of
    [stop_pwm], the calls of [unmap_device], and what cleanup
    releases. *)
Lemma fini_exact (m : machine) (p0 p1 : Z) (dev : ws2811_device_t) :
  owned_ok m ->
  channel_leds (ws2811 m) = [p0; p1] ->
  (device (ws2811 m) <> 0 -> devices m !! device (ws2811 m) = Some dev) ->
  forall T,
    device (ws2811 m) <> 0 ->
    dma dev ∈ mapped m -> pwm dev ∈ mapped m -> cm_pwm dev ∈ mapped m ->
    (forall t, (T <= t)%nat -> active_clear hw t)
    \/ (forall t, (T <= t)%nat -> error_set hw t) ->
    (forall t, (T <= t)%nat -> clock_idle hw t) ->
    exists fuel m1,
      ws2811_fini hw fuel m = Ok m1 /\ all_null m1
      /\ malloced m1
         = without (device (ws2811 m)) (without p1 (without p0 (malloced m)))
      /\ paged m1
         = (if decide (device (ws2811 m) = 0) then paged m
            else without (dma_cb dev) (without (pwm_raw dev) (paged m)))
      /\ mapped m1
         = unmap_window (gpio dev) (unmap_window (cm_pwm dev)
             (unmap_window (pwm dev) (unmap_window (dma dev) (mapped m))))
      /\ reg_writes m1
         = CmPwmCtl (Z.lor CM_PWM_CTL_PASSWD CM_PWM_CTL_KILL)
           :: PwmCtl 0 :: reg_writes m
      /\ devices m1 !! 0 = None.
Proof.
  intros Hok Hl Hrec T Hd Hdma Hpwm Hcm Hstable Hidle.
  pose proof (Hrec Hd) as Hdev_lk.
  pose proof (load_device_eq m dev Hdev_lk) as Hdev.
  destruct (ws2811_wait_returns hw m dev T Hdev Hdma Hstable) as (t1 & _ & Hwait).
  destruct (busy_poll_total T Hidle T (cm_ctl_reads m) ltac:(lia)) as [t2 Hbusy].
  set (fuel := S T).
  exists fuel.
  unfold ws2811_fini. rewrite (Hwait fuel) by (unfold fuel; lia).
  machine_simpl.
  unfold stop_pwm.
  rewrite (load_device_eq _ dev) by (machine_simpl; exact Hdev_lk).
  machine_simpl.
  rewrite decide_True by exact Hpwm. rewrite decide_True by exact Hcm.
  rewrite (busy_poll_more_fuel _ _ _ Hbusy fuel) by (unfold fuel; lia).
  machine_simpl.
  unfold unmap_registers.
  rewrite (load_device_eq _ dev) by (machine_simpl; exact Hdev_lk).
  machine_simpl.
  match goal with
  | |- context [ws2811_cleanup ?m3] =>
      assert (Hok3 : owned_ok m3);
      [| destruct (cleanup_exact m3 p0 p1 dev Hok3)
           as (m4 & Hrun & Hnull & Hml & Hpg & Hmp & Hrg & _ & _);
         [machine_simpl; exact Hl | machine_simpl; exact Hrec |];
         destruct (cleanup_owned m3 Hok3)
           as (m4' & Hrun' & _ & _ & _ & _ & _ & _ & Hd0) ]
  end.
  - destruct Hok as (Hm0 & Hp0 & Hmp0 & Hdom & Hleds & Hdv).
    unfold owned_ok. machine_simpl.
    split; [exact Hm0 |]. split; [exact Hp0 |]. split.
    + rewrite !elem_of_unmap_window. tauto.
    + split; [exact Hdom |]. split; [exact Hleds | exact Hdv].
  - rewrite Hrun in Hrun'. injection Hrun' as <-.
    machine_simpl. exists m4.
    split; [exact Hrun |]. split; [exact Hnull |].
    split; [exact Hml |]. split; [exact Hpg |].
    split; [rewrite Hmp; reflexivity |]. split; [exact Hrg | exact Hd0].
Qed.

(** C9, in the form the code satisfies.  From any state in which
    every owned pointer is null or live, cleanup succeeds (no block is
    freed that is not live, so none is freed twice), releases exactly
    the blocks the instance owns (the two LED arrays and the device
    record to [malloc], the raw buffer and the descriptor storage to
    the page allocator), leaves the device pointer and both [leds]
    pointers null, and a second cleanup changes nothing.  A shutdown
    of a device whose record is present and whose registers are
    mapped, on hardware that comes to rest, releases the same blocks
    and leaves the same pointers null, and a cleanup may follow it; a
    shutdown when the device pointer is null (a second shutdown among
    them) dereferences the null pointer. *)
Theorem cleanup_twice_shutdown_once (m : machine) (p0 p1 : Z)
  (dev : ws2811_device_t) :
  owned_ok m ->
  channel_leds (ws2811 m) = [p0; p1] ->
  (device (ws2811 m) <> 0 -> devices m !! device (ws2811 m) = Some dev) ->
  let heap := without (device (ws2811 m)) (without p1 (without p0 (malloced m))) in
  let pages := if decide (device (ws2811 m) = 0) then paged m
               else without (dma_cb dev) (without (pwm_raw dev) (paged m)) in
  (exists m1,
     ws2811_cleanup m = Ok m1 /\ all_null m1
     /\ malloced m1 = heap /\ paged m1 = pages
     /\ ws2811_cleanup m1 = Ok m1)
  /\ (forall T,
        device (ws2811 m) <> 0 ->
        dma dev ∈ mapped m -> pwm dev ∈ mapped m -> cm_pwm dev ∈ mapped m ->
        (forall t, (T <= t)%nat -> active_clear hw t)
        \/ (forall t, (T <= t)%nat -> error_set hw t) ->
        (forall t, (T <= t)%nat -> clock_idle hw t) ->
        exists fuel m1,
          ws2811_fini hw fuel m = Ok m1 /\ all_null m1
          /\ malloced m1 = heap /\ paged m1 = pages
          /\ ws2811_cleanup m1 = Ok m1
          /\ forall fuel', ws2811_fini hw fuel' m1 = Fault)
  /\ (device (ws2811 m) = 0 -> forall fuel, ws2811_fini hw fuel m = Fault).
Proof.
  intros Hok Hl Hrec heap pages. split; [| split].
  - destruct (cleanup_exact m p0 p1 dev Hok Hl Hrec)
      as (m1 & Hrun & Hnull & Hml & Hpg & _).
    exists m1. split_and!; try assumption.
    apply cleanup_null, Hnull.
  - intros T Hd Hdma Hpwm Hcm Hstable Hidle.
    destruct (fini_exact m p0 p1 dev Hok Hl Hrec T Hd Hdma Hpwm Hcm Hstable Hidle)
      as (fuel & m1 & Hrun & Hnull & Hml & Hpg & _ & _ & Hd0).
    exists fuel, m1. split_and!; try assumption.
    + apply cleanup_null, Hnull.
    + intros fuel'. apply fini_without_device.
      destruct Hnull as [-> _]. exact Hd0.
  - intros Hd fuel. apply fini_without_device. rewrite Hd.
    destruct Hok as (Hm0 & _ & _ & Hdom & _). apply Hdom, Hm0.
Qed.
End ShutdownFacts.

(** The sample states satisfy [owned_ok]. *)
Ltac sample_owned :=
  unfold owned_ok; try unfold sample_machine; try unfold board_machine;
  machine_simpl;
  split; [set_compute |]; split; [set_compute |]; split; [set_compute |];
  split;
  [ let p := fresh "p" in
    let Hp := fresh "Hp" in
    intros p Hp; apply lookup_singleton_None; intros <-; apply Hp; set_compute
  | split;
    [ exists 2000, 3000; repeat split; first [intros _; set_compute | lia]
    | intros _; split; [set_compute |];
      eexists; split; [apply lookup_singleton_eq |]; cbn;
      repeat split; first [intros _; set_compute | lia] ] ].

Lemma cleanup_twice_shutdown_once_witness :
  let m := sample_machine in
  let dev := mk_device 4096 5000 6000 8192 1073750016 7000 8000 in
  let heap := without (device (ws2811 m)) (without 3000 (without 2000 (malloced m))) in
  let pages := if decide (device (ws2811 m) = 0) then paged m
               else without (dma_cb dev) (without (pwm_raw dev) (paged m)) in
  (exists m1,
     ws2811_cleanup m = Ok m1 /\ all_null m1
     /\ malloced m1 = heap /\ paged m1 = pages
     /\ ws2811_cleanup m1 = Ok m1)
  /\ (forall T,
        device (ws2811 m) <> 0 ->
        dma dev ∈ mapped m -> pwm dev ∈ mapped m -> cm_pwm dev ∈ mapped m ->
        (forall t, (T <= t)%nat -> active_clear (H := bcm2835) quiet_hardware t)
        \/ (forall t, (T <= t)%nat -> error_set (H := bcm2835) quiet_hardware t) ->
        (forall t, (T <= t)%nat -> clock_idle (H := bcm2835) quiet_hardware t) ->
        exists fuel m1,
          ws2811_fini (H := bcm2835) quiet_hardware fuel m = Ok m1
          /\ all_null m1
          /\ malloced m1 = heap /\ paged m1 = pages
          /\ ws2811_cleanup m1 = Ok m1
          /\ forall fuel', ws2811_fini (H := bcm2835) quiet_hardware fuel' m1 = Fault)
  /\ (device (ws2811 m) = 0 ->
      forall fuel, ws2811_fini (H := bcm2835) quiet_hardware fuel m = Fault).
Proof.
  apply (cleanup_twice_shutdown_once (H := bcm2835) quiet_hardware sample_machine
           2000 3000 (mk_device 4096 5000 6000 8192 1073750016 7000 8000)).
  - sample_owned.
  - reflexivity.
  - intros _. reflexivity.
Defined.

(** Against C9 as the specification words it: on an initialized device
    and hardware at rest the first shutdown succeeds and nulls the
    device pointer, and a second shutdown then dereferences it. *)
Lemma shutdown_twice_faults :
  exists m1,
    ws2811_fini (H := bcm2835) quiet_hardware 1 sample_machine = Ok m1
    /\ device (ws2811 m1) = 0
    /\ forall fuel, ws2811_fini (H := bcm2835) quiet_hardware fuel m1 = Fault.
Proof.
  eexists. split; [vm_compute; reflexivity |].
  split; [reflexivity |].
  intros fuel. apply fini_without_device. vm_compute. reflexivity.
Qed.

(** ** C8: the idle level *)

Lemma pwm_raw_fill_ok inv wc : forall wordpos words,
  (wc = 0 \/ wordpos + 2 * (wc - 1) < length words)%nat ->
  exists words',
    pwm_raw_fill inv wc wordpos words = Ok words'
    /\ length words' = length words
    /\ (forall i, (i < wc)%nat ->
          words' !! (wordpos + 2 * i)%nat
          = Some (if inv =? 0 then 0 else uint32 (Z.lnot 0)))
    /\ (forall w, (forall i, (i < wc)%nat -> w <> (wordpos + 2 * i)%nat) ->
          words' !! w = words !! w).
Proof.
  induction wc as [| wc IH]; intros wordpos words Hlen.
  - exists words. cbn [pwm_raw_fill]. repeat split; try reflexivity.
    intros i Hi. lia.
  - destruct Hlen as [H0 | Hlen]; [discriminate |].
    destruct (lookup_lt_is_Some_2 words wordpos ltac:(lia)) as [x Hx].
    cbn [pwm_raw_fill]. rewrite Hx.
    set (v := if inv =? 0 then 0 else uint32 (Z.lnot 0)).
    destruct (IH (wordpos + 2)%nat (<[wordpos := v]> words))
      as (words' & Hrun & Hl & Hset & Hframe).
    { rewrite length_insert. destruct wc; [left; reflexivity | right; lia]. }
    exists words'. split; [exact Hrun |].
    split; [rewrite Hl; apply length_insert |]. split.
    + intros [| i] Hi.
      * rewrite Hframe by (intros j Hj; lia).
        replace (wordpos + 2 * 0)%nat with wordpos by lia.
        apply list_lookup_insert_eq. eapply lookup_lt_Some, Hx.
      * replace (wordpos + 2 * S i)%nat with (wordpos + 2 + 2 * i)%nat by lia.
        apply Hset. lia.
    + intros w Hw. rewrite Hframe.
      * apply list_lookup_insert_ne. specialize (Hw 0%nat ltac:(lia)). lia.
      * intros i Hi. specialize (Hw (S i) ltac:(lia)). lia.
Qed.

Lemma max_channel_led_count_two ch0 ch1 rest :
  max_channel_led_count (ch0 :: ch1 :: rest)
  = Z.max 0 (Z.max (count ch0) (count ch1)).
Proof.
  unfold max_channel_led_count.
  change (Z.to_nat RPI_PWM_CHANNELS) with 2%nat. cbn [firstn fold_left].
  rewrite firstn_O. cbn [fold_left].
  destruct (Z.gtb_spec (count ch0) 0);
    destruct (Z.gtb_spec (count ch1) (count ch0));
    destruct (Z.gtb_spec (count ch1) 0); lia.
Qed.

(** The number of words of each output, from the sizing macro. *)
Lemma pwm_word_count n freq :
  0 <= n -> n * 72 <= INT_MAX ->
  let b := n * 72 + LED_RESET_BITS freq in
  PWM_BYTE_COUNT n freq / 4 = 2 * (2 * (b / 64) + 2)
  /\ int32 (uint32 (uint32 (PWM_BYTE_COUNT n freq / 4) / RPI_PWM_CHANNELS))
     = 2 * (b / 64) + 2
  /\ b < 32 * (2 * (b / 64) + 2).
Proof.
  intros Hn Hmax b.
  pose proof (LED_RESET_BITS_range freq) as Hr.
  rewrite PWM_BYTE_COUNT_exact by assumption. fold b.
  unfold RPI_PWM_CHANNELS, INT_MAX in *.
  assert (Hb : 0 <= b < 2 ^ 31 + 4294) by (unfold b; lia).
  rewrite Z.div_div by lia. change (8 * 8) with 64.
  assert (Hq : 0 <= b / 64 < 2 ^ 26).
  { split; [apply Z.div_pos; lia | apply Z.div_lt_upper_bound; lia]. }
  assert (E : (b / 64 * 8 + 8) * 2 / 4 = 2 * (2 * (b / 64) + 2)).
  { replace ((b / 64 * 8 + 8) * 2) with ((2 * (2 * (b / 64) + 2)) * 4) by lia.
    apply Z.div_mul. lia. }
  rewrite E. split; [reflexivity |]. split.
  - rewrite (uint32_small (2 * (2 * (b / 64) + 2))) by lia.
    replace (2 * (2 * (b / 64) + 2)) with ((2 * (b / 64) + 2) * 2) by lia.
    rewrite Z.div_mul by lia. rewrite uint32_small by lia.
    apply int32_small. lia.
  - pose proof (Z.div_mod b 64 ltac:(lia)).
    pose proof (Z.mod_pos_bound b 64 ltac:(lia)). lia.
Qed.

Lemma pwm_raw_init_ok ch0 ch1 freq words :
  let maxcount := max_channel_led_count [ch0; ch1] in
  maxcount * 72 <= INT_MAX ->
  length words = Z.to_nat (PWM_BYTE_COUNT maxcount freq / 4) ->
  exists idle,
    pwm_raw_init [ch0; ch1] freq words = Ok idle
    /\ length idle = length words
    /\ (forall w, (w < length words)%nat ->
          idle !! w = Some (idle_word (word_channel ch0 ch1 w))).
Proof.
  intros maxcount Hmax Hlen.
  assert (Hm0 : 0 <= maxcount).
  { unfold maxcount. rewrite max_channel_led_count_two. lia. }
  destruct (pwm_word_count maxcount freq Hm0 Hmax) as (Hwords & Hwc & _).
  set (b := maxcount * 72 + LED_RESET_BITS freq) in *.
  pose proof (LED_RESET_BITS_range freq) as Hr.
  assert (Hq : 0 <= b / 64) by (apply Z.div_pos; unfold b; lia).
  set (wc := Z.to_nat (2 * (b / 64) + 2)).
  assert (HL : length words = (2 * wc)%nat) by (rewrite Hlen, Hwords; unfold wc; lia).
  unfold pwm_raw_init. fold maxcount. rewrite Hwc. fold wc.
  change (seq 0 (Z.to_nat RPI_PWM_CHANNELS)) with [0%nat; 1%nat].
  cbn [foldM lookup list_lookup].
  destruct (pwm_raw_fill_ok (invert ch0) wc 0 words) as (w1 & -> & Hl1 & Hs1 & Hf1);
    [right; lia |].
  cbn [mbind result_bind].
  destruct (pwm_raw_fill_ok (invert ch1) wc 1 w1) as (w2 & -> & Hl2 & Hs2 & Hf2);
    [right; lia |].
  cbn [mbind result_bind].
  exists w2. split; [reflexivity |]. split; [lia |].
  intros w Hw. unfold word_channel, idle_word.
  pose proof (Nat.div_mod_eq w 2) as Hdm.
  pose proof (Nat.mod_upper_bound w 2 ltac:(lia)) as Hmb.
  destruct (Nat.eqb_spec (w mod 2) 0) as [He | Hne].
  - rewrite Hf2 by (intros i Hi; lia).
    replace w with (0 + 2 * (w / 2))%nat at 1 by lia.
    apply Hs1. lia.
  - replace w with (1 + 2 * (w / 2))%nat at 1 by lia.
    apply Hs2. lia.
Qed.

Lemma idle_word_bits ch b :
  0 <= b < 32 -> Z.testbit (idle_word ch) b = idle_bit ch.
Proof.
  intros Hb. unfold idle_word, idle_bit.
  destruct (invert ch =? 0); cbn [negb]; [apply Z.bits_0 |].
  change (uint32 (Z.lnot 0)) with (Z.ones 32).
  apply Z.ones_spec_low. lia.
Qed.

Lemma lane_bit_word words c k b x :
  (c < 2)%nat -> 0 <= b < 32 ->
  words !! (c + 2 * k)%nat = Some x ->
  lane_bit words c (32 * k + Z.to_nat (31 - b)) = Some (Z.testbit x b).
Proof.
  intros Hc Hb Hx. unfold lane_bit.
  replace (32 * k + Z.to_nat (31 - b))%nat with (Z.to_nat (31 - b) + k * 32)%nat by lia.
  rewrite Nat.div_add, Nat.Div0.mod_add by lia.
  rewrite Nat.div_small, Nat.mod_small by lia.
  cbn [Nat.add]. rewrite Hx. cbn [mbind option_bind].
  do 2 f_equal. lia.
Qed.

Lemma pwm_raw_byte_uniform words w m x (v : bool) :
  words !! w = Some x ->
  (forall i, 0 <= i < 8 -> Z.testbit x (8 * Z.of_nat m + i) = v) ->
  pwm_raw_byte words w m = Some (if v then 255 else 0).
Proof.
  intros Hx Hbits. unfold pwm_raw_byte. rewrite Hx. cbn [mbind option_bind].
  f_equal. apply Z.bits_inj'. intros i Hi.
  rewrite Z.land_spec, Z.shiftr_spec by lia.
  change 255 with (Z.ones 8).
  destruct (Z.ltb_spec i 8) as [Hlt | Hge].
  - rewrite Z.ones_spec_low, andb_true_r by lia.
    rewrite Z.add_comm, Hbits by lia.
    destruct v; [rewrite Z.ones_spec_low by lia | rewrite Z.bits_0]; reflexivity.
  - rewrite Z.ones_spec_high, andb_false_r by lia.
    destruct v; [rewrite Z.ones_spec_high by lia | rewrite Z.bits_0]; reflexivity.
Qed.

Lemma render_frames_idle ch0 ch1 frames : forall words,
  let n0 := Z.to_nat (count ch0) in
  let n1 := Z.to_nat (count ch1) in
  let off := ((72 * n0) mod 32)%nat in
  (n0 = 0 \/ 2 * ((72 * n0 - 1) / 32) < length words)%nat ->
  (n1 = 0 \/ 1 + 2 * ((off + 72 * n1 - 1) / 32) < length words)%nat ->
  Forall (fun f => (n0 <= length (fst f))%nat /\ (n1 <= length (snd f))%nat) frames ->
  exists words',
    render_frames ch0 ch1 frames words = Ok words'
    /\ length words' = length words
    /\ (forall c q, (c < 2)%nat -> (encoded_end ch0 ch1 c <= q)%nat ->
          lane_bit words' c q = lane_bit words c q).
Proof.
  induction frames as [| [l0 l1] frames IH]; intros words n0 n1 off Hlen0 Hlen1 Hall.
  - exists words. repeat split; reflexivity.
  - apply Forall_cons in Hall. destruct Hall as [[Hl0 Hl1] Hall].
    cbn [fst snd] in Hl0, Hl1. cbn [render_frames].
    destruct (render_encode_bits (with_leds ch0 l0) (with_leds ch1 l1) [] words)
      as (words1 & -> & Hlen & Hbits); try assumption.
    cbn [mbind result_bind].
    destruct (IH words1) as (words' & Hrun & Hlen' & Hkeep);
      [rewrite Hlen; exact Hlen0 | rewrite Hlen; exact Hlen1 | exact Hall |].
    exists words'. split; [exact Hrun |]. split; [congruence |].
    intros c q Hc Hq. rewrite Hkeep, Hbits by assumption.
    cbn [with_leds count]. fold n0 n1 off.
    unfold encoded_end in Hq. fold n0 n1 off in Hq.
    destruct (Nat.eqb_spec c 0) as [-> | Hne].
    + rewrite decide_False by lia. rewrite decide_False by lia. reflexivity.
    + rewrite decide_False by lia. rewrite decide_False by lia. reflexivity.
Qed.

(** C8.  [pwm_raw_init] stores in every word of the buffer the idle
    word of the channel the word belongs to, all zeros or all ones.
    After any number of renders that follow, with the LED counts
    unchanged and whatever colours the client has set, every bit that
    lies beyond the last encoded sub-bit of its channel, and so every
    byte made of such bits, still holds the idle level.  The reset gap
    of at least 24 sub-bits makes the buffer long enough for the
    offset that channel 1 inherits from channel 0. *)
Theorem idle_region_kept (ch0 ch1 : ws2811_channel_t) (freq : Z)
  (words0 : list Z) (frames : list (list Z * list Z)) :
  let maxcount := max_channel_led_count [ch0; ch1] in
  let n0 := Z.to_nat (count ch0) in
  let n1 := Z.to_nat (count ch1) in
  maxcount * 72 <= INT_MAX ->
  24 <= LED_RESET_BITS freq ->
  length words0 = Z.to_nat (PWM_BYTE_COUNT maxcount freq / 4) ->
  Forall (fun f => (n0 <= length (fst f))%nat /\ (n1 <= length (snd f))%nat) frames ->
  exists idle,
    pwm_raw_init [ch0; ch1] freq words0 = Ok idle
    /\ (forall w, (w < length words0)%nat ->
          idle !! w = Some (idle_word (word_channel ch0 ch1 w)))
    /\ exists words',
         render_frames ch0 ch1 frames idle = Ok words'
         /\ length words' = length words0
         /\ (forall w b, (w < length words0)%nat -> 0 <= b < 32 ->
               (encoded_end ch0 ch1 (w mod 2) <= 32 * (w / 2) + Z.to_nat (31 - b))%nat ->
               exists x, words' !! w = Some x
                         /\ Z.testbit x b = idle_bit (word_channel ch0 ch1 w))
         /\ (forall w m, (w < length words0)%nat -> (m < 4)%nat ->
               (encoded_end ch0 ch1 (w mod 2) <= 32 * (w / 2) + (24 - 8 * m))%nat ->
               pwm_raw_byte words' w m = Some (idle_byte (word_channel ch0 ch1 w))).
Proof.
  intros maxcount n0 n1 Hmax Hreset Hlen Hall.
  assert (Hmc : maxcount = Z.max 0 (Z.max (count ch0) (count ch1))).
  { unfold maxcount. apply max_channel_led_count_two. }
  assert (Hm0 : 0 <= maxcount) by lia.
  destruct (pwm_word_count maxcount freq Hm0 Hmax) as (Hwords & _ & Hcap).
  set (b := maxcount * 72 + LED_RESET_BITS freq) in *.
  assert (Hq : 0 <= b / 64) by (apply Z.div_pos; unfold b; lia).
  set (wc := Z.to_nat (2 * (b / 64) + 2)).
  assert (HL : length words0 = (2 * wc)%nat) by (rewrite Hlen, Hwords; unfold wc; lia).
  assert (Hbits_cap : (72 * Z.to_nat maxcount + 24 < 32 * wc)%nat).
  { unfold wc. unfold b in Hcap, Hq |- *. lia. }
  assert (Hn0 : (n0 <= Z.to_nat maxcount)%nat) by (unfold n0; lia).
  assert (Hn1 : (n1 <= Z.to_nat maxcount)%nat) by (unfold n1; lia).
  pose proof (stream_offset_le n0) as Hoff.
  destruct (pwm_raw_init_ok ch0 ch1 freq words0 Hmax Hlen) as (idle & Hinit & Hli & Hidle).
  exists idle. split; [exact Hinit |]. split; [exact Hidle |].
  destruct (render_frames_idle ch0 ch1 frames idle) as (words' & Hrun & Hl' & Hkeep).
  { fold n0. right. rewrite Hli, HL.
    enough ((72 * n0 - 1) / 32 < wc)%nat by lia.
    apply Nat.Div0.div_lt_upper_bound. lia. }
  { fold n0 n1. right. rewrite Hli, HL.
    enough (((72 * n0) mod 32 + 72 * n1 - 1) / 32 < wc)%nat by lia.
    apply Nat.Div0.div_lt_upper_bound. lia. }
  { exact Hall. }
  exists words'. split; [exact Hrun |]. split; [congruence |].
  assert (Hbit : forall w b, (w < length words0)%nat -> 0 <= b < 32 ->
            (encoded_end ch0 ch1 (w mod 2) <= 32 * (w / 2) + Z.to_nat (31 - b))%nat ->
            exists x, words' !! w = Some x
                      /\ Z.testbit x b = idle_bit (word_channel ch0 ch1 w)).
  { intros w bb Hw Hbb Hend.
    pose proof (Nat.div_mod_eq w 2) as Hdm.
    pose proof (Nat.mod_upper_bound w 2 ltac:(lia)) as Hmb.
    destruct (lookup_lt_is_Some_2 words' w ltac:(lia)) as [x Hx].
    exists x. split; [exact Hx |].
    assert (Hx' : words' !! (w mod 2 + 2 * (w / 2))%nat = Some x).
    { replace (w mod 2 + 2 * (w / 2))%nat with w by lia. exact Hx. }
    assert (Hi' : idle !! (w mod 2 + 2 * (w / 2))%nat
                  = Some (idle_word (word_channel ch0 ch1 w))).
    { replace (w mod 2 + 2 * (w / 2))%nat with w by lia. apply Hidle, Hw. }
    pose proof (Hkeep (w mod 2)%nat _ Hmb Hend) as Hk.
    rewrite (lane_bit_word words' _ _ bb x Hmb Hbb Hx') in Hk.
    rewrite (lane_bit_word idle _ _ bb _ Hmb Hbb Hi') in Hk.
    injection Hk as ->. apply idle_word_bits, Hbb. }
  split; [exact Hbit |].
  intros w m Hw Hm Hend.
  destruct (lookup_lt_is_Some_2 words' w ltac:(lia)) as [x Hx].
  assert (Hv : idle_byte (word_channel ch0 ch1 w)
               = if idle_bit (word_channel ch0 ch1 w) then 255 else 0).
  { unfold idle_byte, idle_bit. destruct (invert _ =? 0); reflexivity. }
  rewrite Hv. apply (pwm_raw_byte_uniform words' w m x _ Hx).
  intros i Hi.
  destruct (Hbit w (8 * Z.of_nat m + i) Hw ltac:(lia) ltac:(lia)) as (x' & Hx' & Hb').
  congruence.
Qed.

Lemma idle_region_kept_witness :
  exists idle,
    pwm_raw_init [mk_channel 18 0 1 []; mk_channel 13 1 1 []] 800000 (repeat 7 16)
    = Ok idle
    /\ (forall w, (w < length (repeat 7 16))%nat ->
          idle !! w
          = Some (idle_word
                    (word_channel (mk_channel 18 0 1 []) (mk_channel 13 1 1 []) w)))
    /\ exists words',
         render_frames (mk_channel 18 0 1 []) (mk_channel 13 1 1 [])
           [([66051], [255]); ([16777215], [0])] idle = Ok words'
         /\ length words' = length (repeat 7 16)
         /\ (forall w b, (w < length (repeat 7 16))%nat -> 0 <= b < 32 ->
               (encoded_end (mk_channel 18 0 1 []) (mk_channel 13 1 1 []) (w mod 2)
                <= 32 * (w / 2) + Z.to_nat (31 - b))%nat ->
               exists x, words' !! w = Some x
                         /\ Z.testbit x b
                            = idle_bit (word_channel (mk_channel 18 0 1 [])
                                          (mk_channel 13 1 1 []) w))
         /\ (forall w m, (w < length (repeat 7 16))%nat -> (m < 4)%nat ->
               (encoded_end (mk_channel 18 0 1 []) (mk_channel 13 1 1 []) (w mod 2)
                <= 32 * (w / 2) + (24 - 8 * m))%nat ->
               pwm_raw_byte words' w m
               = Some (idle_byte (word_channel (mk_channel 18 0 1 [])
                                    (mk_channel 13 1 1 []) w))).
Proof.
  apply (idle_region_kept (mk_channel 18 0 1 []) (mk_channel 13 1 1 []) 800000
           (repeat 7 16) [([66051], [255]); ([16777215], [0])]).
  - vm_compute. discriminate.
  - vm_compute. discriminate.
  - reflexivity.
  - repeat constructor.
Defined.

(** * Part III: further properties of the code *)

(** ** The encoder: ranges, repetition, read-back *)

Lemma uint32_high_bits z j : 32 <= j -> Z.testbit (uint32 z) j = false.
Proof. intros Hj. unfold uint32. apply Z.mod_pow2_bits_high. lia. Qed.

Lemma set_bit_uint32 w i b :
  0 <= i -> set_bit w i b = uint32 (set_bit w i b).
Proof.
  intros Hi. apply Z.bits_inj'. intros j Hj.
  destruct (Z.ltb_spec j 32) as [Hlt | Hge].
  - unfold uint32. rewrite Z.mod_pow2_bits_low by lia. reflexivity.
  - rewrite (uint32_high_bits (set_bit w i b)) by exact Hge.
    unfold set_bit.
    destruct b; rewrite ?Z.lor_spec, Z.land_spec, !uint32_high_bits by exact Hge;
      rewrite ?andb_false_r; reflexivity.
Qed.

Lemma set_bit_range w i b : 0 <= i -> 0 <= set_bit w i b < 2 ^ 32.
Proof.
  intros Hi. rewrite set_bit_uint32 by exact Hi. apply uint32_range.
Qed.

Lemma set_bit_same x i b :
  0 <= x < 2 ^ 32 -> 0 <= i < 32 -> Z.testbit x i = b -> set_bit x i b = x.
Proof.
  intros Hx Hi Hb. apply Z.bits_inj'. intros j Hj.
  destruct (Z.ltb_spec j 32) as [Hlt | Hge].
  - rewrite set_bit_testbit by lia.
    destruct (Z.eqb_spec i j) as [-> | _]; [symmetry; exact Hb | reflexivity].
  - rewrite set_bit_uint32, uint32_high_bits by lia.
    rewrite <- (uint32_small x Hx), uint32_high_bits by lia. reflexivity.
Qed.

Lemma words_ok_insert words i x :
  words_ok words -> 0 <= x < 2 ^ 32 -> words_ok (<[i := x]> words).
Proof.
  unfold words_ok. rewrite !Forall_lookup. intros Hok Hx j y Hj.
  destruct (decide (i = j)) as [-> | Hne].
  - destruct (decide (j < length words)%nat) as [Hlt | Hge].
    + rewrite list_lookup_insert_eq in Hj by exact Hlt. injection Hj as <-. exact Hx.
    + rewrite list_insert_ge in Hj by lia. exact (Hok _ _ Hj).
  - rewrite list_lookup_insert_ne in Hj by exact Hne. exact (Hok _ _ Hj).
Qed.

Lemma words_ok_lookup words i x :
  words_ok words -> words !! i = Some x -> 0 <= x < 2 ^ 32.
Proof.
  unfold words_ok. rewrite Forall_lookup. intros Hok Hx. exact (Hok _ _ Hx).
Qed.

(** A pass of the encoder keeps every word a [uint32_t]. *)
Lemma put_bits_words_ok chan bs : forall p words st',
  put_bits bs (cursor_at chan p words) = Ok st' ->
  words_ok words -> words_ok (pwm_words st').
Proof.
  induction bs as [| b bs IH]; intros p words st' Hrun Hok.
  - injection Hrun as <-. exact Hok.
  - unfold put_bits in Hrun. cbn [foldM] in Hrun.
    rewrite put_bit_cursor in Hrun.
    destruct (words !! (chan + 2 * (p / 32))%nat) as [w |]; [| discriminate].
    cbn [mbind result_bind] in Hrun.
    apply (IH _ _ _ Hrun). apply words_ok_insert; [exact Hok |].
    apply set_bit_range.
    pose proof (Nat.mod_upper_bound p 32 ltac:(lia)). lia.
Qed.

(** A pass that stores what the buffer already holds changes nothing. *)
Lemma put_bits_same chan bs : forall p words,
  words_ok words ->
  (forall q, (p <= q < p + length bs)%nat ->
     lane_bit words chan q = bs !! (q - p)%nat) ->
  put_bits bs (cursor_at chan p words)
  = Ok (cursor_at chan (p + length bs) words).
Proof.
  induction bs as [| b bs IH]; intros p words Hok Hbits.
  - cbn [length]. rewrite Nat.add_0_r. reflexivity.
  - unfold put_bits. cbn [foldM]. rewrite put_bit_cursor.
    pose proof (Hbits p ltac:(cbn [length]; lia)) as Hp.
    replace (p - p)%nat with 0%nat in Hp by lia. cbn [lookup list_lookup] in Hp.
    unfold lane_bit in Hp.
    destruct (words !! (chan + 2 * (p / 32))%nat) as [x |] eqn:Hx; [| discriminate].
    cbn [mbind option_bind] in Hp. injection Hp as Hp.
    pose proof (Nat.mod_upper_bound p 32 ltac:(lia)) as Hm.
    rewrite set_bit_same by (try lia; try exact Hp; eapply words_ok_lookup; eauto).
    rewrite list_insert_id by exact Hx.
    cbn [mbind result_bind].
    fold (put_bits bs (cursor_at chan (S p) words)).
    rewrite IH; [cbn [length]; f_equal; f_equal; lia | exact Hok |].
    intros q Hq. rewrite Hbits by (cbn [length]; lia).
    replace (q - p)%nat with (S (q - S p)) by lia. reflexivity.
Qed.

Lemma render_channel_put_bits chan ch p words :
  (p < 32)%nat -> (Z.to_nat (count ch) <= length (leds ch))%nat ->
  render_channel chan ch (mk_render_state words chan (31 - Z.of_nat p))
  = put_bits (channel_bits ch) (cursor_at chan p words).
Proof.
  intros Hp Hn. rewrite <- (cursor_at_small chan p words Hp).
  rewrite render_channel_cursor by exact Hp.
  apply render_leds_put_bits, Hn.
Qed.

(** X1.  Rendering keeps every word of the buffer a [uint32_t] and
    the buffer its length, and rendering the same frame a second time
    leaves the buffer exactly as the first render left it. *)
Theorem render_encode_repeat (ch0 ch1 : ws2811_channel_t) (words : list Z) :
  let n0 := Z.to_nat (count ch0) in
  let n1 := Z.to_nat (count ch1) in
  let off := ((72 * n0) mod 32)%nat in
  (n0 <= length (leds ch0))%nat ->
  (n1 <= length (leds ch1))%nat ->
  (n0 = 0 \/ 2 * ((72 * n0 - 1) / 32) < length words)%nat ->
  (n1 = 0 \/ 1 + 2 * ((off + 72 * n1 - 1) / 32) < length words)%nat ->
  words_ok words ->
  exists words',
    render_encode [ch0; ch1] words = Ok words'
    /\ words_ok words' /\ length words' = length words
    /\ render_encode [ch0; ch1] words' = Ok words'.
Proof.
  intros n0 n1 off Hn0 Hn1 Hlen0 Hlen1 Hok.
  assert (Hoff : (off < 32)%nat) by (apply Nat.mod_upper_bound; lia).
  destruct (render_channels_spec ch0 ch1 [] words Hn0 Hn1 Hlen0 Hlen1)
    as (words1 & words2 & Hrun0 & Hrun1 & Hrun & Hl1 & Hl2 & _ & _ & Hb1 & Hb2).
  fold n0 n1 off in Hrun0, Hrun1, Hrun, Hb1, Hb2.
  assert (Hok1 : words_ok words1).
  { change 31 with (31 - Z.of_nat 0) in Hrun0.
    rewrite (render_channel_put_bits 0 ch0 0 words) in Hrun0 by (lia || exact Hn0).
    exact (put_bits_words_ok _ _ _ _ _ Hrun0 Hok). }
  assert (Hok2 : words_ok words2).
  { rewrite render_channel_after in Hrun1.
    fold off in Hrun1.
    rewrite (render_channel_put_bits 1 ch1 off words1) in Hrun1 by assumption.
    exact (put_bits_words_ok _ _ _ _ _ Hrun1 Hok1). }
  exists words2.
  split; [unfold render_encode; rewrite Hrun; reflexivity |].
  split; [exact Hok2 |]. split; [exact Hl2 |].
  pose proof (channel_bits_length ch0 Hn0) as Hbl0. fold n0 in Hbl0.
  pose proof (channel_bits_length ch1 Hn1) as Hbl1. fold n1 in Hbl1.
  unfold render_encode, render_channels.
  change (seq 0 (Z.to_nat RPI_PWM_CHANNELS)) with [0%nat; 1%nat].
  cbn [foldM lookup list_lookup].
  change 31 with (31 - Z.of_nat 0).
  rewrite (render_channel_put_bits 0 ch0 0 words2) by (lia || exact Hn0).
  rewrite put_bits_same; [| exact Hok2 |].
  2:{ intros q Hq. rewrite Hbl0 in Hq.
      rewrite Hb2, Hb1 by lia.
      rewrite decide_False by lia. rewrite decide_True by lia.
      f_equal. lia. }
  cbn [mbind result_bind]. rewrite Hbl0, render_channel_after.
  cbn [Nat.add]. fold off.
  rewrite (render_channel_put_bits 1 ch1 off words2) by assumption.
  rewrite put_bits_same; [reflexivity | exact Hok2 |].
  intros q Hq. rewrite Hbl1 in Hq.
  rewrite Hb2 by lia. rewrite decide_True by lia. reflexivity.
Qed.

Lemma render_encode_repeat_witness :
  exists words',
    render_encode [mk_channel 18 0 1 [66051]; mk_channel 13 1 2 [255; 65280]]
      (repeat 0 16) = Ok words'
    /\ words_ok words' /\ length words' = length (repeat 0 16)
    /\ render_encode [mk_channel 18 0 1 [66051]; mk_channel 13 1 2 [255; 65280]]
         words' = Ok words'.
Proof.
  apply (render_encode_repeat (mk_channel 18 0 1 [66051])
           (mk_channel 13 1 2 [255; 65280]) (repeat 0 16)).
  - simpl. lia.
  - simpl. lia.
  - right. vm_compute. lia.
  - right. vm_compute. lia.
  - unfold words_ok. repeat constructor; lia.
Defined.

Lemma byte_of_negated_bits x :
  0 <= x < 256 ->
  foldr (fun k a => Z.b2z (negb (Z.testbit x (7 - Z.of_nat k)))
                    * 2 ^ (7 - Z.of_nat k) + a)
        0 (seq 0 8) = 255 - x.
Proof.
  intros Hx.
  assert (Hall : forallb
            (fun n => foldr (fun k a =>
                               Z.b2z (negb (Z.testbit (Z.of_nat n) (7 - Z.of_nat k)))
                               * 2 ^ (7 - Z.of_nat k) + a) 0 (seq 0 8)
                      =? 255 - Z.of_nat n) (seq 0 256) = true)
    by (vm_compute; reflexivity).
  rewrite forallb_forall in Hall.
  specialize (Hall (Z.to_nat x)).
  rewrite Z2Nat.id in Hall by lia.
  apply Z.eqb_eq, Hall, in_seq. lia.
Qed.

Lemma lane_byte_inverted words chan p byte :
  0 <= byte < 256 ->
  (forall k, (k < 8)%nat ->
     lane_bit words chan (p + 3 * k + 1)%nat
     = Some (negb (Z.testbit byte (7 - Z.of_nat k)))) ->
  lane_byte words chan p = Some (255 - byte).
Proof.
  intros Hbyte Hbits. unfold lane_byte.
  pose proof (byte_of_negated_bits byte Hbyte) as E.
  cbn [seq foldr] in E |- *.
  rewrite !Hbits by lia. cbn [mbind option_bind].
  f_equal. exact E.
Qed.

(** The middle sub-bit of a symbol is the data bit, complemented in an
    inverted channel. *)
Lemma channel_bits_data ch i led j byte k :
  (i < Z.to_nat (count ch))%nat -> leds ch !! i = Some led ->
  led_color led !! j = Some byte -> (k < 8)%nat ->
  channel_bits ch !! (72 * i + 24 * j + 3 * k + 1)%nat
  = Some (if invert ch =? 0 then Z.testbit byte (7 - Z.of_nat k)
          else negb (Z.testbit byte (7 - Z.of_nat k))).
Proof.
  intros Hi Hled Hbyte Hk.
  assert (Hj : (j < 3)%nat) by (apply lookup_lt_Some in Hbyte; exact Hbyte).
  replace (72 * i + 24 * j + 3 * k + 1)%nat
    with (72 * i + (24 * j + (3 * k + 1)))%nat by lia.
  rewrite (channel_bits_lookup ch i led) by (assumption || lia).
  rewrite (led_bits_lookup _ led j byte) by (assumption || lia).
  rewrite byte_bits_lookup by (assumption || lia).
  destruct (Z.eqb_spec (invert ch) 0) as [He | Hne].
  - rewrite He, symbol_bits_plain by lia. reflexivity.
  - rewrite symbol_bits_inverted by (lia || exact Hne). reflexivity.
Qed.

(** X2.  Read back as the serializer reads it, the buffer the encoder
    leaves carries, for every LED of either channel, the bytes
    [color[0..2]] of that LED (green, red, blue), eight symbols each,
    complemented when the channel is inverted.  The stream of channel
    1 starts at the sub-bit where the cursor of channel 0 stopped. *)
Theorem render_read_back (ch0 ch1 : ws2811_channel_t) (words : list Z) :
  let n0 := Z.to_nat (count ch0) in
  let n1 := Z.to_nat (count ch1) in
  let off := ((72 * n0) mod 32)%nat in
  (n0 <= length (leds ch0))%nat ->
  (n1 <= length (leds ch1))%nat ->
  (n0 = 0 \/ 2 * ((72 * n0 - 1) / 32) < length words)%nat ->
  (n1 = 0 \/ 1 + 2 * ((off + 72 * n1 - 1) / 32) < length words)%nat ->
  exists words',
    render_encode [ch0; ch1] words = Ok words'
    /\ (forall i led j byte,
          (i < n0)%nat -> leds ch0 !! i = Some led ->
          led_color led !! j = Some byte ->
          lane_byte words' 0 (72 * i + 24 * j) = Some (stream_byte ch0 byte))
    /\ (forall i led j byte,
          (i < n1)%nat -> leds ch1 !! i = Some led ->
          led_color led !! j = Some byte ->
          lane_byte words' 1 (off + 72 * i + 24 * j) = Some (stream_byte ch1 byte)).
Proof.
  intros n0 n1 off Hn0 Hn1 Hlen0 Hlen1.
  destruct (render_encode_bits ch0 ch1 [] words Hn0 Hn1 Hlen0 Hlen1)
    as (words' & Hrun & _ & Hbits).
  fold n0 n1 off in Hbits.
  exists words'. split; [exact Hrun |].
  assert (Hread : forall c ch start i led j byte,
            (c < 2)%nat ->
            (forall q, (q < 72 * Z.to_nat (count ch))%nat ->
               lane_bit words' c (start + q) = channel_bits ch !! q) ->
            (i < Z.to_nat (count ch))%nat -> leds ch !! i = Some led ->
            led_color led !! j = Some byte ->
            lane_byte words' c (start + 72 * i + 24 * j)
            = Some (stream_byte ch byte)).
  { intros c ch start i led j byte Hc Hlane Hi Hled Hbyte.
    assert (Hj : (j < 3)%nat) by (apply lookup_lt_Some in Hbyte; exact Hbyte).
    assert (Hrange : 0 <= byte < 256).
    { apply (led_color_range led). apply list_elem_of_lookup. eauto. }
    assert (Hmid : forall k, (k < 8)%nat ->
              lane_bit words' c (start + 72 * i + 24 * j + 3 * k + 1)
              = Some (if invert ch =? 0 then Z.testbit byte (7 - Z.of_nat k)
                      else negb (Z.testbit byte (7 - Z.of_nat k)))).
    { intros k Hk.
      replace (start + 72 * i + 24 * j + 3 * k + 1)%nat
        with (start + (72 * i + 24 * j + 3 * k + 1))%nat by lia.
      rewrite Hlane by lia.
      apply (channel_bits_data ch i led j byte k); assumption. }
    unfold stream_byte. destruct (invert ch =? 0).
    - apply lane_byte_plain; assumption.
    - apply lane_byte_inverted; assumption. }
  split.
  - intros i led j byte Hi Hled Hbyte.
    apply (Hread 0%nat ch0 0%nat i led j byte); try assumption; [lia |].
    intros q Hq. cbn [Nat.add]. rewrite Hbits by lia.
    rewrite decide_True by lia. reflexivity.
  - intros i led j byte Hi Hled Hbyte.
    apply (Hread 1%nat ch1 off i led j byte); try assumption; [lia |].
    intros q Hq. rewrite Hbits by lia.
    rewrite decide_False by lia. rewrite decide_True by lia.
    f_equal. lia.
Qed.

Lemma render_read_back_witness :
  exists words',
    render_encode [mk_channel 18 0 1 [66051]; mk_channel 13 1 2 [255; 65280]]
      (repeat 0 16) = Ok words'
    /\ (forall i led j byte,
          (i < 1)%nat -> [66051] !! i = Some led ->
          led_color led !! j = Some byte ->
          lane_byte words' 0 (72 * i + 24 * j)
          = Some (stream_byte (mk_channel 18 0 1 [66051]) byte))
    /\ (forall i led j byte,
          (i < 2)%nat -> [255; 65280] !! i = Some led ->
          led_color led !! j = Some byte ->
          lane_byte words' 1 (8 + 72 * i + 24 * j)
          = Some (stream_byte (mk_channel 13 1 2 [255; 65280]) byte)).
Proof.
  apply (render_read_back (mk_channel 18 0 1 [66051])
           (mk_channel 13 1 2 [255; 65280]) (repeat 0 16)).
  - simpl. lia.
  - simpl. lia.
  - right. vm_compute. lia.
  - right. vm_compute. lia.
Defined.

Lemma render_frames_app ch0 ch1 fs1 fs2 : forall words,
  render_frames ch0 ch1 (fs1 ++ fs2) words
  = (words' ← render_frames ch0 ch1 fs1 words; render_frames ch0 ch1 fs2 words').
Proof.
  induction fs1 as [| [l0 l1] fs1 IH]; intros words; [reflexivity |].
  cbn [app render_frames].
  destruct (render_encode _ words) as [w | |]; cbn [mbind result_bind];
    [apply IH | reflexivity | reflexivity].
Qed.

(** X3.  Whatever was rendered before, and whatever the buffer held
    at first, after a render the encoded region of each channel holds
    the sub-bits of the frame just rendered and nothing of an earlier
    one. *)
Theorem render_last_frame_wins (ch0 ch1 : ws2811_channel_t) (words : list Z)
  (frames : list (list Z * list Z)) (l0 l1 : list Z) :
  let n0 := Z.to_nat (count ch0) in
  let n1 := Z.to_nat (count ch1) in
  let off := ((72 * n0) mod 32)%nat in
  (n0 = 0 \/ 2 * ((72 * n0 - 1) / 32) < length words)%nat ->
  (n1 = 0 \/ 1 + 2 * ((off + 72 * n1 - 1) / 32) < length words)%nat ->
  Forall (fun f => (n0 <= length (fst f))%nat /\ (n1 <= length (snd f))%nat) frames ->
  (n0 <= length l0)%nat -> (n1 <= length l1)%nat ->
  exists words',
    render_frames ch0 ch1 (frames ++ [(l0, l1)]) words = Ok words'
    /\ (forall q, (q < 72 * n0)%nat ->
          lane_bit words' 0 q = channel_bits (with_leds ch0 l0) !! q)
    /\ (forall q, (q < 72 * n1)%nat ->
          lane_bit words' 1 (off + q) = channel_bits (with_leds ch1 l1) !! q).
Proof.
  intros n0 n1 off Hlen0 Hlen1 Hall Hl0 Hl1.
  destruct (render_frames_idle ch0 ch1 frames words Hlen0 Hlen1 Hall)
    as (mid & Hmid & Hlm & _).
  destruct (render_encode_bits (with_leds ch0 l0) (with_leds ch1 l1) [] mid)
    as (words' & Hrun & _ & Hbits);
    [exact Hl0 | exact Hl1 | rewrite Hlm; exact Hlen0 | rewrite Hlm; exact Hlen1 |].
  cbn [with_leds count] in Hbits. fold n0 n1 off in Hbits.
  exists words'. split.
  - rewrite render_frames_app, Hmid. cbn [mbind result_bind render_frames].
    rewrite Hrun. reflexivity.
  - split.
    + intros q Hq. rewrite Hbits by lia. rewrite decide_True by lia. reflexivity.
    + intros q Hq. rewrite Hbits by lia.
      rewrite decide_False by lia. rewrite decide_True by lia. f_equal. lia.
Qed.

Lemma render_last_frame_wins_witness :
  exists words',
    render_frames (mk_channel 18 0 1 []) (mk_channel 13 1 1 [])
      ([([66051], [255]); ([16777215], [0])] ++ [([1], [2])]) (repeat 7 16)
    = Ok words'
    /\ (forall q, (q < 72 * 1)%nat ->
          lane_bit words' 0 q
          = channel_bits (with_leds (mk_channel 18 0 1 []) [1]) !! q)
    /\ (forall q, (q < 72 * 1)%nat ->
          lane_bit words' 1 (8 + q)
          = channel_bits (with_leds (mk_channel 13 1 1 []) [2]) !! q).
Proof.
  apply (render_last_frame_wins (mk_channel 18 0 1 []) (mk_channel 13 1 1 [])
           (repeat 7 16) [([66051], [255]); ([16777215], [0])] [1] [2]).
  - right. vm_compute. lia.
  - right. vm_compute. lia.
  - repeat constructor.
  - simpl. lia.
  - simpl. lia.
Defined.

(** ** The colour word, the buffer size and the channel maximum *)

Lemma led_color_low24 led : led_color (Z.land led 16777215) = led_color led.
Proof.
  assert (Hb : forall s, 0 <= s -> s + 8 <= 24 ->
            Z.land (Z.shiftr (Z.land led 16777215) s) 255
            = Z.land (Z.shiftr led s) 255).
  { intros s Hs Hs8. apply Z.bits_inj'. intros i Hi.
    rewrite !Z.land_spec, !Z.shiftr_spec, Z.land_spec by lia.
    change 255 with (Z.ones 8). change 16777215 with (Z.ones 24).
    destruct (Z.ltb_spec i 8) as [Hlt | Hge].
    - rewrite (Z.ones_spec_low 24) by lia. rewrite andb_true_r. reflexivity.
    - rewrite (Z.ones_spec_high 8) by lia. rewrite !andb_false_r. reflexivity. }
  unfold led_color. rewrite !Hb by lia. reflexivity.
Qed.

(** X4.  The encoder reads the low 24 bits of a colour word only:
    clearing the top byte of every entry of the LED arrays changes
    nothing in what a render does, faults included. *)
Theorem render_ignores_top_byte (chans : list ws2811_channel_t) (words : list Z) :
  render_encode
    (map (fun ch => with_leds ch (map (fun led => Z.land led 16777215) (leds ch)))
         chans) words
  = render_encode chans words.
Proof.
  unfold render_encode. f_equal. unfold render_channels.
  apply foldM_ext. intros chan st.
  rewrite lookup_map. destruct (chans !! chan) as [ch |]; [| reflexivity].
  cbn [fmap option_fmap option_map].
  unfold render_channel, render_leds. cbn [with_leds count invert leds].
  apply foldM_ext. intros i st'.
  rewrite lookup_map. destruct (leds ch !! i) as [led |]; [| reflexivity].
  cbn [fmap option_fmap option_map].
  unfold render_led. rewrite led_color_low24. reflexivity.
Qed.

(** X5.  The channel maximum that sizes the buffer is never negative,
    is at least the count of either channel, and is zero or the count
    of one of them; channels past the second play no part. *)
Theorem max_channel_led_count_bounds (chans : list ws2811_channel_t) :
  let m := max_channel_led_count chans in
  0 <= m
  /\ (forall i ch, (i < 2)%nat -> chans !! i = Some ch -> count ch <= m)
  /\ (m = 0 \/ exists i ch, (i < 2)%nat /\ chans !! i = Some ch /\ m = count ch).
Proof.
  unfold max_channel_led_count.
  change (Z.to_nat RPI_PWM_CHANNELS) with 2%nat.
  destruct chans as [| ch0 [| ch1 rest]]; cbn [firstn fold_left].
  - split; [lia |]. split; [| left; reflexivity].
    intros i ch _ Hch. destruct i; discriminate.
  - destruct (Z.gtb_spec (count ch0) 0) as [Hgt | Hle].
    + split; [lia |]. split.
      * intros [| i] ch Hi Hch; [| destruct i; discriminate].
        injection Hch as <-. lia.
      * right. exists 0%nat, ch0. repeat split. lia.
    + split; [lia |]. split; [| left; reflexivity].
      intros [| i] ch Hi Hch; [| destruct i; discriminate].
      injection Hch as <-. lia.
  - rewrite firstn_O. cbn [fold_left].
    assert (Hlook : forall i ch, (i < 2)%nat ->
              (ch0 :: ch1 :: rest) !! i = Some ch -> ch = ch0 \/ ch = ch1).
    { intros [| [| i]] ch Hi Hch; [left | right | lia];
        injection Hch as <-; reflexivity. }
    destruct (Z.gtb_spec (count ch0) 0) as [Hgt0 | Hle0];
      [destruct (Z.gtb_spec (count ch1) (count ch0)) as [Hgt1 | Hle1]
      | destruct (Z.gtb_spec (count ch1) 0) as [Hgt1 | Hle1]].
    + split; [lia |]. split.
      * intros i ch Hi Hch. destruct (Hlook i ch Hi Hch) as [-> | ->]; lia.
      * right. exists 1%nat, ch1. repeat split. lia.
    + split; [lia |]. split.
      * intros i ch Hi Hch. destruct (Hlook i ch Hi Hch) as [-> | ->]; lia.
      * right. exists 0%nat, ch0. repeat split. lia.
    + split; [lia |]. split.
      * intros i ch Hi Hch. destruct (Hlook i ch Hi Hch) as [-> | ->]; lia.
      * right. exists 1%nat, ch1. repeat split. lia.
    + split; [lia |]. split; [| left; reflexivity].
      intros i ch Hi Hch. destruct (Hlook i ch Hi Hch) as [-> | ->]; lia.
Qed.

(** ** Where the encoder leaves the buffer *)

Lemma put_bits_overrun chan bs : forall p words,
  bs <> [] ->
  (length words <= chan + 2 * ((p + length bs - 1) / 32))%nat ->
  put_bits bs (cursor_at chan p words) = Fault.
Proof.
  induction bs as [| b bs IH]; intros p words Hne Hlen; [congruence |].
  unfold put_bits. cbn [foldM]. rewrite put_bit_cursor.
  destruct (words !! (chan + 2 * (p / 32))%nat) as [w |] eqn:Hx; [| reflexivity].
  cbn [mbind result_bind].
  fold (put_bits bs (cursor_at chan (S p)
          (<[(chan + 2 * (p / 32))%nat
             := set_bit w (31 - Z.of_nat (p mod 32)) b]> words))).
  destruct bs as [| b' bs'].
  - exfalso. cbn [length] in Hlen.
    replace (p + 1 - 1)%nat with p in Hlen by lia.
    apply lookup_lt_Some in Hx. lia.
  - apply IH; [discriminate |].
    rewrite length_insert. cbn [length] in Hlen |- *.
    replace (S p + S (length bs') - 1)%nat
      with (p + S (S (length bs')) - 1)%nat by lia.
    exact Hlen.
Qed.

Lemma channel_bits_nonempty ch :
  (Z.to_nat (count ch) <= length (leds ch))%nat ->
  Z.to_nat (count ch) <> 0%nat -> channel_bits ch <> [].
Proof.
  intros Hn Hpos Hnil. pose proof (channel_bits_length ch Hn) as Hl.
  rewrite Hnil in Hl. cbn [length] in Hl. lia.
Qed.

(** Past the end of the buffer the encoder faults. *)
Lemma render_encode_overrun ch0 ch1 words :
  let n0 := Z.to_nat (count ch0) in
  let n1 := Z.to_nat (count ch1) in
  let off := ((72 * n0) mod 32)%nat in
  (n0 <= length (leds ch0))%nat ->
  (n1 <= length (leds ch1))%nat ->
  ((n0 <> 0 /\ length words <= 2 * ((72 * n0 - 1) / 32))%nat
   \/ (n1 <> 0 /\ length words <= 1 + 2 * ((off + 72 * n1 - 1) / 32))%nat) ->
  render_encode [ch0; ch1] words = Fault.
Proof.
  intros n0 n1 off Hn0 Hn1 Hbad.
  assert (Hoff : (off < 32)%nat) by (apply Nat.mod_upper_bound; lia).
  destruct (decide (n0 = 0 \/ 2 * ((72 * n0 - 1) / 32) < length words)%nat)
    as [Hlen0 | Hbad0].
  - destruct Hbad as [Hbad | Hbad1]; [lia |].
    destruct (render_channel_spec 0 ch0 0 words ltac:(lia) ltac:(lia) Hn0)
      as (words1 & Hrun0 & Hl0 & _).
    { fold n0. cbn [Nat.add]. exact Hlen0. }
    fold n0 in Hrun0. cbn [Nat.add] in Hrun0.
    change (31 - Z.of_nat 0) with 31 in Hrun0.
    unfold render_encode, render_channels.
    change (seq 0 (Z.to_nat RPI_PWM_CHANNELS)) with [0%nat; 1%nat].
    cbn [foldM lookup list_lookup]. rewrite Hrun0. cbn [mbind result_bind].
    rewrite render_channel_after.
    rewrite render_channel_put_bits by assumption.
    rewrite put_bits_overrun; [reflexivity | |].
    + apply channel_bits_nonempty; [exact Hn1 | fold n1; lia].
    + rewrite (channel_bits_length ch1 Hn1), Hl0. fold n1 off. lia.
  - unfold render_encode, render_channels.
    change (seq 0 (Z.to_nat RPI_PWM_CHANNELS)) with [0%nat; 1%nat].
    cbn [foldM lookup list_lookup].
    change 31 with (31 - Z.of_nat 0) at 1.
    rewrite render_channel_put_bits by (assumption || lia).
    rewrite put_bits_overrun; [reflexivity | |].
    + apply channel_bits_nonempty; [exact Hn0 | fold n0; lia].
    + rewrite (channel_bits_length ch0 Hn0). fold n0. cbn [Nat.add]. lia.
Qed.

(** X6.  With LED arrays as long as the counts say, a render writes
    outside the raw buffer exactly when the last sub-bit of one of
    the channels falls in a word the buffer does not have; the last
    sub-bit of channel 1 is counted from the offset it inherits from
    channel 0. *)
Theorem render_overrun_iff (ch0 ch1 : ws2811_channel_t) (words : list Z) :
  let n0 := Z.to_nat (count ch0) in
  let n1 := Z.to_nat (count ch1) in
  let off := ((72 * n0) mod 32)%nat in
  (n0 <= length (leds ch0))%nat ->
  (n1 <= length (leds ch1))%nat ->
  render_encode [ch0; ch1] words = Fault
  <-> ((n0 <> 0 /\ length words <= 2 * ((72 * n0 - 1) / 32))%nat
       \/ (n1 <> 0 /\ length words <= 1 + 2 * ((off + 72 * n1 - 1) / 32))%nat).
Proof.
  intros n0 n1 off Hn0 Hn1. split.
  - intros Hfault.
    destruct (decide (n0 = 0 \/ 2 * ((72 * n0 - 1) / 32) < length words)%nat)
      as [Hlen0 | Hbad0]; [| left; lia].
    destruct (decide (n1 = 0 \/ 1 + 2 * ((off + 72 * n1 - 1) / 32) < length words)%nat)
      as [Hlen1 | Hbad1]; [| right; lia].
    destruct (render_encode_bits ch0 ch1 [] words Hn0 Hn1 Hlen0 Hlen1)
      as (words' & Hrun & _).
    rewrite Hrun in Hfault. discriminate.
  - apply render_encode_overrun; assumption.
Qed.

Lemma render_overrun_iff_witness :
  let words : list Z := repeat 0 28 in
  render_encode [mk_channel 18 0 3 [1; 2; 3]; mk_channel 13 0 6 [1; 2; 3; 4; 5; 6]]
    words = Fault
  <-> ((3 <> 0 /\ length words <= 2 * ((72 * 3 - 1) / 32))%nat
       \/ (6 <> 0
           /\ length words <= 1 + 2 * (((72 * 3) mod 32 + 72 * 6 - 1) / 32))%nat).
Proof.
  apply (render_overrun_iff (mk_channel 18 0 3 [1; 2; 3])
           (mk_channel 13 0 6 [1; 2; 3; 4; 5; 6]) (repeat 0 28)).
  - simpl. lia.
  - simpl. lia.
Defined.

(** X7.  The sizing macro leaves no room for the offset channel 1
    inherits when the reset gap is shorter than 16 sub-bits (a
    frequency below 96970 Hz): with a count of channel 0 that is 3
    modulo 4 and a count of channel 1, not below it, that is 6 modulo
    8, a render writes past the end of a buffer of
    [PWM_BYTE_COUNT(maxcount, freq)] bytes, whatever the colours. *)
Theorem render_overruns_sized_buffer (ch0 ch1 : ws2811_channel_t) (freq : Z)
  (words : list Z) :
  let maxcount := max_channel_led_count [ch0; ch1] in
  0 <= count ch0 -> count ch0 mod 4 = 3 ->
  count ch0 <= count ch1 -> count ch1 mod 8 = 6 ->
  count ch1 * 72 <= INT_MAX ->
  LED_RESET_BITS freq < 16 ->
  (Z.to_nat (count ch0) <= length (leds ch0))%nat ->
  (Z.to_nat (count ch1) <= length (leds ch1))%nat ->
  length words = Z.to_nat (PWM_BYTE_COUNT maxcount freq / 4) ->
  render_encode [ch0; ch1] words = Fault.
Proof.
  intros maxcount H0 Hm0 Hle Hm1 Hmax Hreset Hn0 Hn1 Hlen.
  assert (Hmc : maxcount = count ch1).
  { unfold maxcount. rewrite max_channel_led_count_two. lia. }
  rewrite Hmc in Hlen.
  destruct (pwm_word_count (count ch1) freq ltac:(lia) Hmax) as (Hwords & _ & _).
  pose proof (LED_RESET_BITS_range freq) as Hr.
  set (r := LED_RESET_BITS freq) in *.
  set (q0 := count ch0 / 4).
  set (q1 := count ch1 / 8).
  assert (E0 : count ch0 = 4 * q0 + 3).
  { unfold q0. rewrite <- Hm0. apply Z_div_mod_eq_full. }
  assert (E1 : count ch1 = 8 * q1 + 6).
  { unfold q1. rewrite <- Hm1. apply Z_div_mod_eq_full. }
  assert (Hq0 : 0 <= q0) by lia.
  assert (Hq1 : 0 <= q1) by lia.
  assert (Hdiv : (count ch1 * 72 + r) / 64 = 9 * q1 + 6).
  { symmetry. apply (Z.div_unique _ _ _ (48 + r)); lia. }
  rewrite Hwords, Hdiv in Hlen.
  apply render_encode_overrun; [exact Hn0 | exact Hn1 |]. right.
  set (n0 := Z.to_nat (count ch0)) in *.
  set (n1 := Z.to_nat (count ch1)) in *.
  assert (Hoff : ((72 * n0) mod 32 = 24)%nat).
  { symmetry. apply (Nat.mod_unique _ _ (Z.to_nat (9 * q0 + 6))); unfold n0; lia. }
  rewrite Hoff.
  assert (Hk : ((24 + 72 * n1 - 1) / 32 = Z.to_nat (18 * q1 + 14))%nat).
  { symmetry. apply (Nat.div_unique _ _ _ 7); unfold n1; lia. }
  rewrite Hk, Hlen. unfold n1. lia.
Qed.

Lemma render_overruns_sized_buffer_witness :
  render_encode [mk_channel 18 0 3 [1; 2; 3]; mk_channel 13 0 6 [1; 2; 3; 4; 5; 6]]
    (repeat 0 28) = Fault.
Proof.
  apply (render_overruns_sized_buffer (mk_channel 18 0 3 [1; 2; 3])
           (mk_channel 13 0 6 [1; 2; 3; 4; 5; 6]) 90000 (repeat 0 28)).
  - simpl. lia.
  - reflexivity.
  - simpl. lia.
  - reflexivity.
  - vm_compute. discriminate.
  - vm_compute. reflexivity.
  - simpl. lia.
  - simpl. lia.
  - vm_compute. reflexivity.
Defined.

(** X8.  The sizing macro gives each of the two outputs a whole number
    of 32-bit words (the byte count is a multiple of 8), with room for
    the [LED_BIT_COUNT] sub-bits it was asked for and at least one
    sub-bit, at most 64, to spare. *)
Theorem PWM_BYTE_COUNT_capacity (n freq : Z) :
  0 <= n -> n * 72 <= INT_MAX ->
  PWM_BYTE_COUNT n freq mod 8 = 0
  /\ LED_BIT_COUNT n freq < 4 * PWM_BYTE_COUNT n freq
  /\ 4 * PWM_BYTE_COUNT n freq <= LED_BIT_COUNT n freq + 64.
Proof.
  intros Hn Hmax.
  rewrite LED_BIT_COUNT_exact, PWM_BYTE_COUNT_exact by assumption.
  pose proof (LED_RESET_BITS_range freq) as Hr.
  set (b := n * 72 + LED_RESET_BITS freq).
  assert (Hb : 0 <= b) by (unfold b; lia).
  unfold RPI_PWM_CHANNELS.
  rewrite Z.div_div by lia. change (8 * 8) with 64.
  pose proof (Z_div_mod_eq_full b 64) as Hdm.
  pose proof (Z.mod_pos_bound b 64 ltac:(lia)) as Hmod.
  split; [| lia].
  replace ((b / 64 * 8 + 8) * 2) with ((2 * (b / 64) + 2) * 8) by lia.
  apply Z.mod_mul. lia.
Qed.

Lemma PWM_BYTE_COUNT_capacity_witness :
  PWM_BYTE_COUNT 225 800000 mod 8 = 0
  /\ LED_BIT_COUNT 225 800000 < 4 * PWM_BYTE_COUNT 225 800000
  /\ 4 * PWM_BYTE_COUNT 225 800000 <= LED_BIT_COUNT 225 800000 + 64.
Proof.
  apply (PWM_BYTE_COUNT_capacity 225 800000).
  - lia.
  - unfold INT_MAX. lia.
Defined.

(** ** [addr_to_bus] *)

Lemma addr_to_bus_bits pagemap addr pfn i :
  pagemap (Z.shiftr (uint32 addr) 9) = Some pfn -> 0 <= i ->
  Z.testbit (addr_to_bus pagemap addr) i
  = if i <? 12 then Z.testbit addr i
    else if i =? 30 then true
    else if i <? 32 then Z.testbit pfn (i - 12)
    else false.
Proof.
  intros Hpfn Hi. unfold addr_to_bus. rewrite Hpfn.
  rewrite !Z.lor_spec, Z.land_spec.
  change 1073741824 with (2 ^ 30). change 4095 with (Z.ones 12).
  rewrite Z.pow2_bits_eqb by lia.
  destruct (Z.ltb_spec i 12) as [Hlow | Hhigh].
  - rewrite Z.ones_spec_low, andb_true_r by lia.
    unfold uint32 at 1 3. rewrite !Z.mod_pow2_bits_low by lia.
    rewrite Z.shiftl_spec, Z.testbit_neg_r by lia.
    destruct (Z.eqb_spec 30 i) as [He | _]; [lia |]. reflexivity.
  - rewrite Z.ones_spec_high, andb_false_r, orb_false_r by lia.
    destruct (Z.eqb_spec i 30) as [-> | Hne]; [apply orb_true_r |].
    destruct (Z.eqb_spec 30 i) as [He | _]; [lia |]. rewrite orb_false_r.
    destruct (Z.ltb_spec i 32) as [Hlt | Hge].
    + unfold uint32. rewrite Z.mod_pow2_bits_low by lia.
      rewrite Z.shiftl_spec by lia. rewrite Z.mod_pow2_bits_low by lia.
      reflexivity.
    + apply uint32_high_bits. exact Hge.
Qed.

Lemma addr_to_bus_range pagemap addr : 0 <= addr_to_bus pagemap addr < 2 ^ 32.
Proof.
  unfold addr_to_bus. destruct (pagemap _) as [pfn |]; [| apply uint32_range].
  set (r := Z.lor _ _).
  assert (Hr : r = uint32 r); [| rewrite Hr; apply uint32_range].
  apply Z.bits_inj'. intros j Hj.
  destruct (Z.ltb_spec j 32) as [Hlt | Hge].
  - unfold uint32. rewrite Z.mod_pow2_bits_low by lia. reflexivity.
  - rewrite (uint32_high_bits r) by exact Hge. unfold r.
    rewrite !Z.lor_spec, Z.land_spec, !uint32_high_bits by exact Hge.
    change 1073741824 with (2 ^ 30). rewrite Z.pow2_bits_eqb by lia.
    destruct (Z.eqb_spec 30 j) as [He | _]; [lia |]. reflexivity.
Qed.

(** X9.  A translation that succeeds yields a 32-bit bus address made
    of the in-page offset of the pointer (bits 0 to 11), the low
    twenty bits of the frame number the page table gave (from bit 12
    up) and bit 30, which is always set and hides bit 18 of the frame
    number. *)
Theorem addr_to_bus_layout (pagemap : Z -> option Z) (addr pfn : Z) :
  pagemap (Z.shiftr (uint32 addr) 9) = Some pfn ->
  let bus := addr_to_bus pagemap addr in
  0 <= bus < 2 ^ 32
  /\ Z.land bus 4095 = Z.land addr 4095
  /\ Z.testbit bus 30 = true
  /\ (forall i, 12 <= i < 32 -> i <> 30 ->
        Z.testbit bus i = Z.testbit pfn (i - 12)).
Proof.
  intros Hpfn bus. split; [apply addr_to_bus_range |]. split; [| split].
  - apply Z.bits_inj'. intros i Hi. rewrite !Z.land_spec.
    change 4095 with (Z.ones 12).
    destruct (Z.ltb_spec i 12) as [Hlow | Hhigh].
    + unfold bus. rewrite (addr_to_bus_bits pagemap addr pfn i Hpfn Hi).
      destruct (Z.ltb_spec i 12); [reflexivity | lia].
    + rewrite Z.ones_spec_high, !andb_false_r by lia. reflexivity.
  - unfold bus. rewrite (addr_to_bus_bits pagemap addr pfn 30 Hpfn) by lia.
    reflexivity.
  - intros i Hi Hne. unfold bus.
    rewrite (addr_to_bus_bits pagemap addr pfn i Hpfn) by lia.
    destruct (Z.ltb_spec i 12); [lia |].
    destruct (Z.eqb_spec i 30); [lia |].
    destruct (Z.ltb_spec i 32); [reflexivity | lia].
Qed.

Lemma addr_to_bus_layout_witness :
  let bus := addr_to_bus identity_pagemap 65540 in
  0 <= bus < 2 ^ 32
  /\ Z.land bus 4095 = Z.land 65540 4095
  /\ Z.testbit bus 30 = true
  /\ (forall i, 12 <= i < 32 -> i <> 30 ->
        Z.testbit bus i = Z.testbit 16 (i - 12)).
Proof.
  apply (addr_to_bus_layout identity_pagemap 65540 16).
  vm_compute. reflexivity.
Defined.

(** X10.  For a pointer whose in-page offset is not 0xfff, and so for
    every page-aligned pointer, the result is the all-ones value that
    reports a failure exactly when the page table could not be read: a
    translation that succeeds is never taken for a failure. *)
Theorem addr_to_bus_failure_value (pagemap : Z -> option Z) (addr : Z) :
  Z.land addr 4095 <> 4095 ->
  addr_to_bus pagemap addr = uint32 (Z.lnot 0)
  <-> pagemap (Z.shiftr (uint32 addr) 9) = None.
Proof.
  intros Hoff. split.
  - intros Hbad. destruct (pagemap (Z.shiftr (uint32 addr) 9)) as [pfn |] eqn:Hpfn;
      [exfalso | reflexivity].
    apply Hoff. apply Z.bits_inj'. intros i Hi.
    rewrite Z.land_spec. change 4095 with (Z.ones 12).
    destruct (Z.ltb_spec i 12) as [Hlow | Hhigh].
    + rewrite Z.ones_spec_low, andb_true_r by lia.
      pose proof (addr_to_bus_bits pagemap addr pfn i Hpfn Hi) as Hb.
      rewrite Hbad in Hb. change (uint32 (Z.lnot 0)) with (Z.ones 32) in Hb.
      rewrite Z.ones_spec_low in Hb by lia.
      destruct (Z.ltb_spec i 12); [symmetry; exact Hb | lia].
    + rewrite Z.ones_spec_high, andb_false_r by lia. reflexivity.
  - intros Hnone. unfold addr_to_bus. rewrite Hnone. reflexivity.
Qed.

Lemma addr_to_bus_failure_value_witness :
  addr_to_bus identity_pagemap 65536 = uint32 (Z.lnot 0)
  <-> identity_pagemap (Z.shiftr (uint32 65536) 9) = None.
Proof.
  apply (addr_to_bus_failure_value identity_pagemap 65536).
  vm_compute. discriminate.
Defined.

Lemma lor_low_bits x y :
  (forall i, 0 <= i < 12 -> Z.testbit x i = false) -> 0 <= y < 4096 ->
  Z.lor x y = x + y.
Proof.
  intros Hx Hy. rewrite <- Z.add_lor_land.
  assert (Hdisj : Z.land x y = 0); [| rewrite Hdisj; lia].
  apply Z.bits_inj'. intros i Hi. rewrite Z.land_spec, Z.bits_0.
  destruct (Z.ltb_spec i 12) as [Hlow | Hhigh].
  - rewrite Hx by lia. reflexivity.
  - rewrite <- (Z.mod_small y (2 ^ 12)) by lia.
    rewrite Z.mod_pow2_bits_high by lia. apply andb_false_r.
Qed.

(** X11.  The page table is read at the offset [addr >> 9], so the
    pointers of one 512-byte block share a read: from a block start
    that translates, a pointer [d] bytes further in the block
    translates to the bus address [d] further. *)
Theorem addr_to_bus_same_block (pagemap : Z -> option Z) (addr d pfn : Z) :
  0 <= addr -> addr + 512 <= 2 ^ 32 -> addr mod 512 = 0 -> 0 <= d < 512 ->
  pagemap (Z.shiftr addr 9) = Some pfn ->
  addr_to_bus pagemap (addr + d) = addr_to_bus pagemap addr + d.
Proof.
  intros H0 Hmax Hal Hd Hpfn. unfold addr_to_bus.
  rewrite (uint32_small (addr + d)), (uint32_small addr) by lia.
  assert (Hblock : Z.shiftr (addr + d) 9 = Z.shiftr addr 9).
  { rewrite !Z.shiftr_div_pow2 by lia. change (2 ^ 9) with 512.
    symmetry. apply (Z.div_unique (addr + d) 512 (addr / 512) d); [lia |].
    pose proof (Z_div_mod_eq_full addr 512). lia. }
  rewrite Hblock, Hpfn.
  change 4095 with (Z.ones 12). rewrite !Z.land_ones by lia.
  change (2 ^ 12) with 4096.
  assert (Hmod : (addr + d) mod 4096 = addr mod 4096 + d).
  { pose proof (Z_div_mod_eq_full addr 512) as E1.
    pose proof (Z_div_mod_eq_full (addr / 512) 8) as E2.
    pose proof (Z.mod_pos_bound (addr / 512) 8 ltac:(lia)) as B2.
    assert (E3 : addr mod 4096 = 512 * ((addr / 512) mod 8)).
    { symmetry. apply (Z.mod_unique addr 4096 (addr / 512 / 8)); lia. }
    symmetry. apply (Z.mod_unique (addr + d) 4096 (addr / 512 / 8)); lia. }
  assert (Hlow : forall i, 0 <= i < 12 ->
            Z.testbit (Z.lor (uint32 (Z.shiftl (uint32 pfn) 12)) 1073741824) i = false).
  { intros i Hi. rewrite Z.lor_spec. change 1073741824 with (2 ^ 30).
    rewrite Z.pow2_bits_eqb by lia.
    unfold uint32 at 1. rewrite Z.mod_pow2_bits_low by lia.
    rewrite Z.shiftl_spec, Z.testbit_neg_r by lia.
    destruct (Z.eqb_spec 30 i); [lia | reflexivity]. }
  pose proof (Z.mod_pos_bound addr 4096 ltac:(lia)) as Hb1.
  pose proof (Z.mod_pos_bound (addr + d) 4096 ltac:(lia)) as Hb2.
  rewrite (lor_low_bits _ ((addr + d) mod 4096) Hlow Hb2).
  rewrite (lor_low_bits _ (addr mod 4096) Hlow Hb1). lia.
Qed.

Lemma addr_to_bus_same_block_witness :
  addr_to_bus identity_pagemap (131072 + 32) = addr_to_bus identity_pagemap 131072 + 32.
Proof.
  apply (addr_to_bus_same_block identity_pagemap 131072 32 32).
  - lia.
  - lia.
  - reflexivity.
  - lia.
  - reflexivity.
Defined.

(** ** The descriptor chain, whatever the length of the page list *)

Section ChainShape.
Context `{Platform}.
Variable pagemap : Z -> option Z.
Variable cb_base : Z.
Hypothesis page_size_pos : 0 < PAGE_SIZE.

(** X12.  When every page translates, [setup_pwm] builds one
    descriptor per page until the byte count is used up or the page
    list ends, and returns 0 in either case: a page list that is too
    short is not reported, the chain then moves [PAGE_SIZE] bytes per
    page and no more.  Descriptor [i] reads the page [i] of the list,
    writes to the PWM FIFO, moves a full page or the remainder, and
    links to the descriptor that follows it in the array.  The
    terminating zero goes to the last descriptor built when the page
    list has no page to spare, and to the one after it otherwise. *)
Theorem setup_pwm_chain_descriptors (pages : list Z) (n freq : Z)
  (descs : list dma_cb_t) :
  let total := PWM_BYTE_COUNT n freq in
  let k := Nat.min (length pages) (pages_needed total) in
  0 <= n -> n * 72 <= INT_MAX ->
  Forall (page_ok pagemap) pages -> pages <> [] ->
  (length pages <= length descs)%nat ->
  exists st,
    setup_pwm_chain pagemap cb_base pages n freq descs = Ok (0, st)
    /\ emitted st = k
    /\ length (cbs st) = length descs
    /\ cb_index st
       = (if decide (length pages <= pages_needed total)%nat then k - 1 else k)%nat
    /\ (forall i page, (i < k)%nat -> pages !! i = Some page ->
          cbs st !! i
          = Some (mk_dma_cb RPI_DMA_TI_WORD (addr_to_bus pagemap page) PWM_FIF1_BUS
                    (Z.min PAGE_SIZE (total - Z.of_nat i * PAGE_SIZE)) 0
                    (if decide (i = cb_index st) then 0
                     else addr_to_bus pagemap
                            (cb_base + DMA_CB_SIZE * (Z.of_nat i + 1)))))
    /\ nextconbk <$> cbs st !! cb_index st = Some 0
    /\ chain_total k (cbs st) = Z.min total (Z.of_nat (length pages) * PAGE_SIZE)
    /\ (forall j, (k < j)%nat -> cbs st !! j = descs !! j).
Proof.
  intros total k Hn Hmax Hok Hne Hdescs.
  destruct (PWM_BYTE_COUNT_int32 n freq Hn Hmax) as [Hrange Hint].
  fold total in Hrange, Hint.
  pose proof (pages_needed_pos page_size_pos total ltac:(lia)) as Hpos.
  assert (Hpages : (0 < length pages)%nat).
  { destruct pages; [contradiction | cbn [length]; lia]. }
  destruct (chain_loop_ok pagemap cb_base page_size_pos pages
              (mk_chain_state descs 0 total 0))
    as (st & Hrun & Hem & _ & Hl & Hlast & Hspare & Hdesc & Hframe);
    [cbn; lia | exact Hok | cbn; lia |].
  cbn [byte_count cb_index emitted cbs Nat.add] in Hem, Hl, Hlast, Hspare, Hdesc, Hframe.
  fold k in Hem, Hlast, Hspare, Hdesc, Hframe.
  assert (Hk : (0 < k <= length pages)%nat) by (unfold k; lia).
  assert (Hidx : cb_index st
                 = (if decide (length pages <= pages_needed total)%nat
                    then k - 1 else k)%nat).
  { destruct (decide (length pages <= pages_needed total)%nat) as [Hle | Hgt].
    - specialize (Hlast Hle Hne). lia.
    - apply Hspare. left. lia. }
  assert (Hin : (cb_index st < length (cbs st))%nat).
  { rewrite Hidx, Hl.
    destruct (decide (length pages <= pages_needed total)%nat); unfold k; lia. }
  destruct (lookup_lt_is_Some_2 (cbs st) (cb_index st) Hin) as [cb Hcb].
  unfold setup_pwm_chain. fold total. rewrite Hint, Hrun.
  cbn [mbind result_bind]. rewrite Hcb.
  eexists. split; [reflexivity |]. cbn [emitted cb_index cbs].
  set (cbs' := <[cb_index st := mk_dma_cb (ti cb) (source_ad cb) (dest_ad cb)
                                  (txfr_len cb) (stride cb) 0]> (cbs st)).
  assert (Hcontents : forall i page, (i < k)%nat -> pages !! i = Some page ->
            cbs' !! i
            = Some (mk_dma_cb RPI_DMA_TI_WORD (addr_to_bus pagemap page) PWM_FIF1_BUS
                      (Z.min PAGE_SIZE (total - Z.of_nat i * PAGE_SIZE)) 0
                      (if decide (i = cb_index st) then 0
                       else addr_to_bus pagemap
                              (cb_base + DMA_CB_SIZE * (Z.of_nat i + 1))))).
  { intros i page Hi Hpage. pose proof (Hdesc i page Hi Hpage) as Hd.
    unfold cbs'. destruct (decide (i = cb_index st)) as [-> | Hne'].
    - rewrite list_lookup_insert_eq by exact Hin.
      rewrite Hcb in Hd. injection Hd as ->. reflexivity.
    - rewrite list_lookup_insert_ne by congruence. rewrite Hd. reflexivity. }
  split; [exact Hem |]. split; [unfold cbs'; rewrite length_insert; exact Hl |].
  split; [exact Hidx |]. split; [exact Hcontents |]. split; [| split].
  - unfold cbs'. rewrite list_lookup_insert_eq by exact Hin. reflexivity.
  - rewrite (chain_total_min page_size_pos total); [| lia | unfold k; lia |].
    + destruct (decide (length pages <= pages_needed total)%nat) as [Hle | Hgt].
      * replace k with (length pages) by (unfold k; lia). reflexivity.
      * replace k with (pages_needed total) by (unfold k; lia).
        pose proof (pages_needed_cover page_size_pos total ltac:(lia)) as Hcover.
        assert (Z.of_nat (pages_needed total) * PAGE_SIZE
                <= Z.of_nat (length pages) * PAGE_SIZE) by nia.
        lia.
    + intros i Hi.
      destruct (lookup_lt_is_Some_2 pages i ltac:(lia)) as [page Hpage].
      rewrite (Hcontents i page Hi Hpage). reflexivity.
  - intros j Hj. unfold cbs'.
    rewrite list_lookup_insert_ne
      by (rewrite Hidx; destruct (decide (length pages <= pages_needed total)%nat); lia).
    apply Hframe. lia.
Qed.

Lemma chain_loop_fail (bad : Z) (rest : list Z) : forall good st cb0,
  0 <= byte_count st < 2 ^ 31 ->
  Forall (page_ok pagemap) good ->
  addr_to_bus pagemap bad = uint32 (Z.lnot 0) ->
  (length good < pages_needed (byte_count st))%nat ->
  cbs st !! (cb_index st + length good)%nat = Some cb0 ->
  exists st',
    chain_loop pagemap cb_base (good ++ bad :: rest) st = Ok (true, st')
    /\ emitted st' = (emitted st + length good)%nat
    /\ cb_index st' = (cb_index st + length good)%nat
    /\ byte_count st' = byte_count st - Z.of_nat (length good) * PAGE_SIZE
    /\ cbs st' !! cb_index st'
       = Some (mk_dma_cb RPI_DMA_TI_WORD (uint32 (Z.lnot 0)) (dest_ad cb0)
                 (txfr_len cb0) (stride cb0) (nextconbk cb0))
    /\ (forall j, (cb_index st + length good < j)%nat -> cbs st' !! j = cbs st !! j)
    /\ (forall j, (j < cb_index st)%nat -> cbs st' !! j = cbs st !! j)
    /\ (forall i page, good !! i = Some page ->
          cbs st' !! (cb_index st + i)%nat
          = Some (mk_dma_cb RPI_DMA_TI_WORD (addr_to_bus pagemap page) PWM_FIF1_BUS
                    PAGE_SIZE 0
                    (addr_to_bus pagemap
                       (cb_base
                        + DMA_CB_SIZE * (Z.of_nat (cb_index st + i) + 1)))))
    /\ length (cbs st') = length (cbs st).
Proof.
  induction good as [| page good IH]; intros st cb0 Hbc Hok Hbad Hneed Hcb0.
  - cbn [app length chain_loop] in *. rewrite Nat.add_0_r in *.
    destruct (Z.eqb_spec (byte_count st) 0) as [Hz | Hnz].
    { rewrite Hz, (pages_needed_0 page_size_pos) in Hneed. lia. }
    rewrite Hcb0, Hbad, Z.eqb_refl.
    eexists. split; [reflexivity |]. cbn [emitted cb_index byte_count cbs].
    split; [lia |]. split; [lia |]. split; [lia |].
    split; [| split; [| split; [| split]]].
    + apply list_lookup_insert_eq. eapply lookup_lt_Some, Hcb0.
    + intros j Hj. apply list_lookup_insert_ne. lia.
    + intros j Hj. apply list_lookup_insert_ne. lia.
    + intros i page Hi. rewrite lookup_nil in Hi. discriminate.
    + apply length_insert.
  - apply Forall_cons in Hok. destruct Hok as [Hpage Hok].
    cbn [app length] in *. cbn [chain_loop].
    destruct (Z.eqb_spec (byte_count st) 0) as [Hz | Hnz].
    { rewrite Hz, (pages_needed_0 page_size_pos) in Hneed. lia. }
    pose proof (pages_needed_step page_size_pos (byte_count st) ltac:(lia)) as Hstep.
    destruct (Z.ltb_spec PAGE_SIZE (byte_count st)) as [Hlt | Hge].
    2: { replace (byte_count st - byte_count st) with 0 in Hstep by lia.
         rewrite (pages_needed_0 page_size_pos) in Hstep. lia. }
    destruct (lookup_lt_is_Some_2 (cbs st) (cb_index st)) as [cb Hcb].
    { apply lookup_lt_Some in Hcb0. lia. }
    rewrite Hcb.
    destruct (Z.eqb_spec (addr_to_bus pagemap page) (uint32 (Z.lnot 0)))
      as [Hbad' | _]; [contradiction |].
    rewrite (int32_small (byte_count st - PAGE_SIZE)) by lia.
    rewrite (uint32_small PAGE_SIZE) by lia.
    destruct (good ++ bad :: rest) as [| p l] eqn:Hrest.
    { destruct good; discriminate. }
    set (st1 := mk_chain_state _ _ _ _).
    destruct (IH st1 cb0)
      as (st' & Hrun & Hem & Hidx & Hbc' & Hslot & Hframe & Hlow & Hdesc & Hlen).
    + unfold st1. cbn [byte_count]. lia.
    + exact Hok.
    + exact Hbad.
    + unfold st1. cbn [byte_count]. lia.
    + unfold st1. cbn [cbs cb_index].
      rewrite list_lookup_insert_ne by lia.
      replace (S (cb_index st) + length good)%nat
        with (cb_index st + S (length good))%nat by lia.
      exact Hcb0.
    + unfold st1 in Hem, Hidx, Hbc', Hframe, Hlow, Hdesc, Hlen.
      cbn [emitted cb_index byte_count cbs] in *.
      rewrite length_insert in Hlen.
      exists st'. split; [exact Hrun |]. split; [lia |]. split; [lia |].
      split; [lia |]. split; [exact Hslot |]. split; [| split; [| split]].
      4: exact Hlen.
      * intros j Hj. rewrite Hframe by lia.
        apply list_lookup_insert_ne. lia.
      * intros j Hj. rewrite Hlow by lia.
        apply list_lookup_insert_ne. lia.
      * intros [| i] pg Hi.
        -- cbn in Hi. injection Hi as <-. rewrite Nat.add_0_r.
           rewrite Hlow by lia.
           apply list_lookup_insert_eq. eapply lookup_lt_Some, Hcb.
        -- cbn in Hi. specialize (Hdesc i pg Hi).
           replace (cb_index st + S i)%nat with (S (cb_index st) + i)%nat by lia.
           exact Hdesc.
Qed.

(** X13.  When the address of a page the chain still needs does not
    translate, [setup_pwm] gives up with -1 at that page.  The
    descriptors of the pages before it are built in full: descriptor
    [i] reads page [i], writes to the PWM FIFO, moves a whole page and
    links to the slot after it.  The descriptor of the failing page
    has its transfer information and an all-ones source address stored
    and its other fields as they were, the slots after it are
    untouched, and no terminating zero is stored anywhere: the last
    descriptor built links to the slot of the failing page. *)
Theorem setup_pwm_chain_translation_failure (good : list Z) (bad : Z)
  (rest : list Z) (n freq : Z) (descs : list dma_cb_t) (cb0 : dma_cb_t) :
  let total := PWM_BYTE_COUNT n freq in
  0 <= n -> n * 72 <= INT_MAX ->
  Forall (page_ok pagemap) good ->
  addr_to_bus pagemap bad = uint32 (Z.lnot 0) ->
  (length good < pages_needed total)%nat ->
  descs !! length good = Some cb0 ->
  exists st,
    setup_pwm_chain pagemap cb_base (good ++ bad :: rest) n freq descs
    = Ok (-1, st)
    /\ emitted st = length good
    /\ cb_index st = length good
    /\ length (cbs st) = length descs
    /\ (forall i page, good !! i = Some page ->
          cbs st !! i
          = Some (mk_dma_cb RPI_DMA_TI_WORD (addr_to_bus pagemap page) PWM_FIF1_BUS
                    PAGE_SIZE 0
                    (addr_to_bus pagemap
                       (cb_base + DMA_CB_SIZE * (Z.of_nat i + 1)))))
    /\ cbs st !! length good
       = Some (mk_dma_cb RPI_DMA_TI_WORD (uint32 (Z.lnot 0)) (dest_ad cb0)
                 (txfr_len cb0) (stride cb0) (nextconbk cb0))
    /\ (forall j, (length good < j)%nat -> cbs st !! j = descs !! j)
    /\ byte_count st = total - Z.of_nat (length good) * PAGE_SIZE.
Proof.
  intros total Hn Hmax Hok Hbad Hneed Hcb0.
  destruct (PWM_BYTE_COUNT_int32 n freq Hn Hmax) as [Hrange Hint].
  fold total in Hrange, Hint.
  destruct (chain_loop_fail bad rest good (mk_chain_state descs 0 total 0) cb0)
    as (st & Hrun & Hem & Hidx & Hbc & Hslot & Hframe & _ & Hdesc & Hlen);
    [cbn; lia | exact Hok | exact Hbad | exact Hneed | exact Hcb0 |].
  cbn [emitted cb_index cbs byte_count Nat.add] in Hem, Hidx, Hbc, Hframe, Hdesc, Hlen.
  unfold setup_pwm_chain. fold total. rewrite Hint, Hrun.
  cbn [mbind result_bind].
  exists st. split; [reflexivity |]. split; [exact Hem |]. split; [exact Hidx |].
  split; [| split; [exact Hdesc |]].
  2: split; [rewrite <- Hidx; exact Hslot |]; split; [exact Hframe | exact Hbc].
  exact Hlen.
Qed.
End ChainShape.

Lemma setup_pwm_chain_descriptors_witness :
  let pages : list Z := [65536; 69632; 73728] in
  let total := PWM_BYTE_COUNT 1000 800000 in
  let k := Nat.min (length pages)
                   (pages_needed (H := bcm2835) total) in
  exists st,
    setup_pwm_chain (H := bcm2835) identity_pagemap 131072
      pages 1000 800000 (repeat (mk_dma_cb 0 0 0 0 0 0) 8)
    = Ok (0, st)
    /\ emitted st = k
    /\ length (cbs st) = length (repeat (mk_dma_cb 0 0 0 0 0 0) 8)
    /\ cb_index st
       = (if decide (length pages
                     <= pages_needed (H := bcm2835) total)%nat
          then k - 1 else k)%nat
    /\ (forall i page, (i < k)%nat -> pages !! i = Some page ->
          cbs st !! i
          = Some (mk_dma_cb (RPI_DMA_TI_WORD (Platform := bcm2835))
                    (addr_to_bus identity_pagemap page)
                    (PWM_FIF1_BUS (Platform := bcm2835))
                    (Z.min (PAGE_SIZE (Platform := bcm2835))
                           (total - Z.of_nat i * PAGE_SIZE (Platform := bcm2835))) 0
                    (if decide (i = cb_index st) then 0
                     else addr_to_bus identity_pagemap
                            (131072 + DMA_CB_SIZE (Platform := bcm2835)
                                      * (Z.of_nat i + 1)))))
    /\ nextconbk <$> cbs st !! cb_index st = Some 0
    /\ chain_total k (cbs st)
       = Z.min total (Z.of_nat (length pages)
                      * PAGE_SIZE (Platform := bcm2835))
    /\ (forall j, (k < j)%nat ->
          cbs st !! j = repeat (mk_dma_cb 0 0 0 0 0 0) 8 !! j).
Proof.
  apply (setup_pwm_chain_descriptors (H := bcm2835) identity_pagemap 131072
           ltac:(reflexivity) [65536; 69632; 73728] 1000 800000
           (repeat (mk_dma_cb 0 0 0 0 0 0) 8)).
  - lia.
  - unfold INT_MAX. lia.
  - repeat constructor; discriminate.
  - discriminate.
  - simpl. lia.
Defined.

Lemma setup_pwm_chain_translation_failure_witness :
  let good : list Z := [65536; 69632] in
  let total := PWM_BYTE_COUNT 1000 800000 in
  exists st,
    setup_pwm_chain (H := bcm2835) short_pagemap 131072
      (good ++ 73728 :: [77824; 81920]) 1000 800000
      (repeat (mk_dma_cb 0 0 0 0 0 7) 8)
    = Ok (-1, st)
    /\ emitted st = length good
    /\ cb_index st = length good
    /\ length (cbs st) = length (repeat (mk_dma_cb 0 0 0 0 0 7) 8)
    /\ (forall i page, good !! i = Some page ->
          cbs st !! i
          = Some (mk_dma_cb (RPI_DMA_TI_WORD (Platform := bcm2835))
                    (addr_to_bus short_pagemap page)
                    (PWM_FIF1_BUS (Platform := bcm2835))
                    (PAGE_SIZE (Platform := bcm2835)) 0
                    (addr_to_bus short_pagemap
                       (131072 + DMA_CB_SIZE (Platform := bcm2835)
                                 * (Z.of_nat i + 1)))))
    /\ cbs st !! length good
       = Some (mk_dma_cb (RPI_DMA_TI_WORD (Platform := bcm2835))
                 (uint32 (Z.lnot 0)) (dest_ad (mk_dma_cb 0 0 0 0 0 7))
                 (txfr_len (mk_dma_cb 0 0 0 0 0 7)) (stride (mk_dma_cb 0 0 0 0 0 7))
                 (nextconbk (mk_dma_cb 0 0 0 0 0 7)))
    /\ (forall j, (length good < j)%nat ->
          cbs st !! j = repeat (mk_dma_cb 0 0 0 0 0 7) 8 !! j)
    /\ byte_count st
       = total - Z.of_nat (length good) * PAGE_SIZE (Platform := bcm2835).
Proof.
  apply (setup_pwm_chain_translation_failure (H := bcm2835) short_pagemap 131072
           ltac:(reflexivity) [65536; 69632] 73728 [77824; 81920] 1000 800000
           (repeat (mk_dma_cb 0 0 0 0 0 7) 8) (mk_dma_cb 0 0 0 0 0 7)).
  - lia.
  - unfold INT_MAX. lia.
  - repeat constructor; discriminate.
  - reflexivity.
  - vm_compute. lia.
  - reflexivity.
Defined.

(** ** The polling loops *)

Section PollFacts.
Context `{Platform}.
Variable hw : hardware.

Lemma wait_poll_stuck fuel : forall t,
  (forall t', (t <= t')%nat -> ~ active_clear hw t' /\ ~ error_set hw t') ->
  wait_poll hw fuel t = Timeout.
Proof.
  induction fuel as [| fuel IH]; intros t Hstuck; [reflexivity |].
  cbn [wait_poll].
  destruct (Z.eqb_spec (Z.land (dma_cs hw t) RPI_DMA_CS_ACTIVE) 0) as [Ha | _].
  { exfalso. destruct (Hstuck t ltac:(lia)) as [Hact _]. apply Hact. exact Ha. }
  destruct (Z.eqb_spec (Z.land (dma_cs hw (S t)) RPI_DMA_CS_ERROR) 0) as [_ | He].
  - apply IH. intros t' Ht'. apply Hstuck. lia.
  - exfalso. destruct (Hstuck (S t) ltac:(lia)) as [_ Herr]. apply Herr. exact He.
Qed.

(** X14.  [ws2811_wait] has no deadline: as long as every read of the
    control/status register shows [ACTIVE] set and [ERROR] clear, the
    call is still polling whatever number of polls it is given, and
    so is [ws2811_fini], which starts with it. *)
Theorem ws2811_wait_blocks (m : machine) (dev : ws2811_device_t) :
  load_device m = Ok dev -> dma dev ∈ mapped m ->
  (forall t, (dma_cs_reads m <= t)%nat -> ~ active_clear hw t /\ ~ error_set hw t) ->
  forall fuel,
    ws2811_wait hw fuel m = Timeout /\ ws2811_fini hw fuel m = Timeout.
Proof.
  intros Hdev Hmap Hstuck fuel.
  assert (Hwait : ws2811_wait hw fuel m = Timeout).
  { unfold ws2811_wait. rewrite Hdev. cbn [mbind result_bind].
    rewrite decide_True by exact Hmap.
    rewrite (wait_poll_stuck fuel _ Hstuck). reflexivity. }
  split; [exact Hwait |].
  unfold ws2811_fini. rewrite Hwait. reflexivity.
Qed.

Lemma busy_poll_exact : forall d t fuel,
  (forall t', (t <= t' < t + d)%nat -> ~ clock_idle hw t') ->
  clock_idle hw (t + d) ->
  busy_poll hw fuel t = if (d <? fuel)%nat then Ok (S (t + d)) else Timeout.
Proof.
  induction d as [| d IH]; intros t fuel Hbusy Hidle.
  - rewrite Nat.add_0_r in *. destruct fuel as [| fuel]; [reflexivity |].
    cbn [busy_poll]. unfold clock_idle in Hidle. rewrite Hidle. reflexivity.
  - destruct fuel as [| fuel]; [reflexivity |].
    cbn [busy_poll].
    destruct (Z.eqb_spec (Z.land (cm_pwm_ctl hw t) CM_PWM_CTL_BUSY) 0) as [Hb | _].
    { exfalso. apply (Hbusy t); [lia | exact Hb]. }
    rewrite (IH (S t) fuel).
    + change (S d <? S fuel)%nat with (d <? fuel)%nat.
      replace (S t + d)%nat with (t + S d)%nat by lia. reflexivity.
    + intros t' Ht'. apply Hbusy. lia.
    + replace (S t + d)%nat with (t + S d)%nat by lia. exact Hidle.
Qed.

(** X15.  [stop_pwm] stores 0 in the PWM control register, then the
    password with [KILL] in the clock control register, and then reads
    the clock control register until a read shows [BUSY] clear: it
    returns at the first such read and not before, and changes nothing
    else. *)
Theorem stop_pwm_effect (m : machine) (dev : ws2811_device_t) (d : nat) :
  load_device m = Ok dev -> pwm dev ∈ mapped m -> cm_pwm dev ∈ mapped m ->
  (forall t, (cm_ctl_reads m <= t < cm_ctl_reads m + d)%nat -> ~ clock_idle hw t) ->
  clock_idle hw (cm_ctl_reads m + d) ->
  forall fuel,
    stop_pwm hw fuel m
    = if (d <? fuel)%nat
      then Ok (set_cm_ctl_reads (S (cm_ctl_reads m + d))
                 (push_reg_write
                    (CmPwmCtl (Z.lor CM_PWM_CTL_PASSWD CM_PWM_CTL_KILL))
                    (push_reg_write (PwmCtl 0) m)))
      else Timeout.
Proof.
  intros Hdev Hpwm Hcm Hbusy Hidle fuel.
  unfold stop_pwm. rewrite Hdev. cbn [mbind result_bind].
  rewrite decide_True by exact Hpwm. rewrite decide_True by exact Hcm.
  cbn [cm_ctl_reads push_reg_write].
  rewrite (busy_poll_exact d _ fuel Hbusy Hidle).
  destruct (d <? fuel)%nat; reflexivity.
Qed.
End PollFacts.

Lemma ws2811_wait_blocks_witness :
  ws2811_wait (H := bcm2835) stuck_hardware 1000 sample_machine = Timeout
  /\ ws2811_fini (H := bcm2835) stuck_hardware 1000 sample_machine = Timeout.
Proof.
  apply (ws2811_wait_blocks (H := bcm2835) stuck_hardware sample_machine
           (mk_device 4096 5000 6000 8192 1073750016 7000 8000)).
  - reflexivity.
  - vm_compute. reflexivity.
  - intros t _. split.
    + intros Hclear. vm_compute in Hclear. discriminate.
    + intros Herr. apply Herr. reflexivity.
Defined.

Lemma stop_pwm_effect_witness :
  stop_pwm (H := bcm2835) slow_clock_hardware 4 sample_machine
  = if (3 <? 4)%nat
    then Ok (set_cm_ctl_reads (S (cm_ctl_reads sample_machine + 3))
               (push_reg_write
                  (CmPwmCtl (Z.lor (CM_PWM_CTL_PASSWD (Platform := bcm2835))
                                   (CM_PWM_CTL_KILL (Platform := bcm2835))))
                  (push_reg_write (PwmCtl 0) sample_machine)))
    else Timeout.
Proof.
  apply (stop_pwm_effect (H := bcm2835) slow_clock_hardware sample_machine
           (mk_device 4096 5000 6000 8192 1073750016 7000 8000) 3).
  - reflexivity.
  - vm_compute. reflexivity.
  - vm_compute. reflexivity.
  - intros t Ht. unfold clock_idle, slow_clock_hardware. cbn [cm_pwm_ctl].
    cbn [cm_ctl_reads sample_machine Nat.add] in Ht.
    destruct (Nat.ltb_spec t 3) as [_ | Hge]; [| lia].
    intros Hidle. vm_compute in Hidle. discriminate.
  - vm_compute. reflexivity.
Defined.

(** ** What cleanup and shutdown release *)

Section ReleaseFacts.
Context `{Platform}.
Variable hw : hardware.

(** X16.  From a state in which every owned pointer is null or live,
    [ws2811_cleanup] releases exactly what the instance owns: the two
    LED arrays and the device record go back to [malloc], the raw
    buffer and the descriptor storage to the page allocator, every
    other block stays live, no register window is unmapped and no
    register is accessed.  [ws2811_fini] on hardware that comes to
    rest releases the same blocks after it has stored 0 in the PWM
    control register and the password with [KILL] in the clock control
    register, also when the transfer it waited for ended in an error.
    Of the four register windows it unmaps those whose pointer is a
    multiple of the page size and no other: [unmap_device] hands
    [munmap] the pointer as [map_device] returned it, so a window of
    registers that do not start their page stays mapped, with the
    device record that held its pointer freed. *)
Theorem shutdown_releases_owned (m : machine) (p0 p1 : Z) (dev : ws2811_device_t) :
  owned_ok m ->
  channel_leds (ws2811 m) = [p0; p1] ->
  (device (ws2811 m) <> 0 -> devices m !! device (ws2811 m) = Some dev) ->
  let heap := without (device (ws2811 m)) (without p1 (without p0 (malloced m))) in
  let pages := if decide (device (ws2811 m) = 0) then paged m
               else without (dma_cb dev) (without (pwm_raw dev) (paged m)) in
  let window x := x = dma dev \/ x = pwm dev \/ x = cm_pwm dev \/ x = gpio dev in
  (exists m1,
     ws2811_cleanup m = Ok m1 /\ all_null m1
     /\ malloced m1 = heap /\ paged m1 = pages
     /\ mapped m1 = mapped m /\ reg_writes m1 = reg_writes m
     /\ dma_cs_reads m1 = dma_cs_reads m /\ cm_ctl_reads m1 = cm_ctl_reads m)
  /\ (forall T,
        device (ws2811 m) <> 0 ->
        dma dev ∈ mapped m -> pwm dev ∈ mapped m -> cm_pwm dev ∈ mapped m ->
        (forall t, (T <= t)%nat -> active_clear hw t)
        \/ (forall t, (T <= t)%nat -> error_set hw t) ->
        (forall t, (T <= t)%nat -> clock_idle hw t) ->
        exists fuel m1,
          ws2811_fini hw fuel m = Ok m1 /\ all_null m1
          /\ malloced m1 = heap /\ paged m1 = pages
          /\ (forall x, x ∈ mapped m1
                        <-> x ∈ mapped m /\ ~ (window x /\ x mod PAGE_SIZE = 0))
          /\ reg_writes m1
             = CmPwmCtl (Z.lor CM_PWM_CTL_PASSWD CM_PWM_CTL_KILL)
               :: PwmCtl 0 :: reg_writes m).
Proof.
  intros Hok Hl Hrec heap pages window. split.
  - exact (cleanup_exact m p0 p1 dev Hok Hl Hrec).
  - intros T Hd Hdma Hpwm Hcm Hstable Hidle.
    destruct (fini_exact hw m p0 p1 dev Hok Hl Hrec T Hd Hdma Hpwm Hcm Hstable Hidle)
      as (fuel & m1 & Hrun & Hnull & Hml & Hpg & Hmp & Hrg & _).
    exists fuel, m1. split_and!; try assumption.
    intros x. rewrite Hmp, !elem_of_unmap_window. unfold window.
    destruct Hok as (_ & _ & Hmp0 & _).
    split.
    + intros ((((Hx & N0) & N1) & N2) & N3). split; [exact Hx |].
      intros [[-> | [-> | [-> | ->]]] Ha].
      * apply N0. split_and!; try reflexivity; try assumption.
        intros Hz. rewrite Hz in Hx. contradiction.
      * apply N1. split_and!; try reflexivity; try assumption.
        intros Hz. rewrite Hz in Hx. contradiction.
      * apply N2. split_and!; try reflexivity; try assumption.
        intros Hz. rewrite Hz in Hx. contradiction.
      * apply N3. split_and!; try reflexivity; try assumption.
        intros Hz. rewrite Hz in Hx. contradiction.
    + intros [Hx Hn]. split_and!; try assumption.
      all: intros (-> & Ha & _); apply Hn; split; [| exact Ha]; tauto.
Qed.
End ReleaseFacts.

Lemma shutdown_releases_owned_witness :
  let m := board_machine in
  let dev := mk_device 4096 1049856 2097152 8192 1073750016 3145728 4194464 in
  let heap := without (device (ws2811 m)) (without 3000 (without 2000 (malloced m))) in
  let pages := if decide (device (ws2811 m) = 0) then paged m
               else without (dma_cb dev) (without (pwm_raw dev) (paged m)) in
  let window x := x = dma dev \/ x = pwm dev \/ x = cm_pwm dev \/ x = gpio dev in
  (exists m1,
     ws2811_cleanup m = Ok m1 /\ all_null m1
     /\ malloced m1 = heap /\ paged m1 = pages
     /\ mapped m1 = mapped m /\ reg_writes m1 = reg_writes m
     /\ dma_cs_reads m1 = dma_cs_reads m /\ cm_ctl_reads m1 = cm_ctl_reads m)
  /\ (forall T,
        device (ws2811 m) <> 0 ->
        dma dev ∈ mapped m -> pwm dev ∈ mapped m -> cm_pwm dev ∈ mapped m ->
        (forall t, (T <= t)%nat -> active_clear (H := bcm2835) failing_hardware t)
        \/ (forall t, (T <= t)%nat -> error_set (H := bcm2835) failing_hardware t) ->
        (forall t, (T <= t)%nat -> clock_idle (H := bcm2835) failing_hardware t) ->
        exists fuel m1,
          ws2811_fini (H := bcm2835) failing_hardware fuel m = Ok m1 /\ all_null m1
          /\ malloced m1 = heap /\ paged m1 = pages
          /\ (forall x, x ∈ mapped m1
                        <-> x ∈ mapped m
                            /\ ~ (window x /\ x mod PAGE_SIZE (Platform := bcm2835) = 0))
          /\ reg_writes m1
             = CmPwmCtl (Z.lor (CM_PWM_CTL_PASSWD (Platform := bcm2835))
                               (CM_PWM_CTL_KILL (Platform := bcm2835)))
               :: PwmCtl 0 :: reg_writes m).
Proof.
  apply (shutdown_releases_owned (H := bcm2835) failing_hardware board_machine
           2000 3000 (mk_device 4096 1049856 2097152 8192 1073750016 3145728 4194464)).
  - sample_owned.
  - reflexivity.
  - intros _. reflexivity.
Defined.

(** ** [gpio_init] *)

(** X17.  [gpio_init] reports -1 exactly when a channel has a pin
    other than 0 for which [pwm_pin_alt] has no selector.  It never
    programs pin 0, programs a pin only with the selector found for
    it, leaves the pin of channel 0 programmed when channel 1 is the
    one that fails, and does not look at channel 1 when channel 0
    fails. *)
Theorem gpio_init_result (pwm_pin_alt : nat -> Z -> Z)
  (ch0 ch1 : ws2811_channel_t) (fsel : list (Z * Z)) :
  let sel0 := pwm_pin_alt 0%nat (gpionum ch0) in
  let sel1 := pwm_pin_alt 1%nat (gpionum ch1) in
  let bad0 := gpionum ch0 <> 0 /\ sel0 < 0 in
  let bad1 := gpionum ch1 <> 0 /\ sel1 < 0 in
  exists r fsel',
    gpio_init pwm_pin_alt [ch0; ch1] fsel = Ok (r, fsel')
    /\ (r = -1 <-> bad0 \/ bad1)
    /\ (r = 0 <-> ~ bad0 /\ ~ bad1)
    /\ (forall pin sel,
          (pin, sel) ∈ fsel'
          <-> (pin, sel) ∈ fsel
              \/ (pin <> 0 /\ 0 <= sel
                  /\ ((pin = gpionum ch0 /\ sel = sel0)
                      \/ (~ bad0 /\ pin = gpionum ch1 /\ sel = sel1)))).
Proof.
  intros sel0 sel1 bad0 bad1. unfold gpio_init.
  change (seq 0 (Z.to_nat RPI_PWM_CHANNELS)) with [0%nat; 1%nat].
  cbn [gpio_init_loop lookup list_lookup]. fold sel0 sel1.
  subst bad0 bad1.
  destruct (Z.eqb_spec (gpionum ch0) 0) as [Hp0 | Hp0];
    [| destruct (Z.ltb_spec sel0 0) as [Hs0 | Hs0]];
    try (destruct (Z.eqb_spec (gpionum ch1) 0) as [Hp1 | Hp1];
         [| destruct (Z.ltb_spec sel1 0) as [Hs1 | Hs1]]);
    eexists; eexists; (split; [reflexivity |]);
    (split; [split; [intros Hr; try discriminate; try lia; tauto | intros Hbad; lia] |]);
    (split; [split; [intros Hr; try discriminate; lia | intros Hgood; lia] |]);
    intros pin sel; rewrite ?elem_of_cons;
    (split; [intros Hin | intros Hin]).
  all: repeat match goal with
       | Hx : _ \/ _ |- _ => destruct Hx as [Hx | Hx]
       | Hx : _ /\ _ |- _ => destruct Hx
       | Hx : (_, _) = (_, _) |- _ => injection Hx as -> ->
       end; subst; try lia; try tauto.
  all: try (left; assumption).
  all: try (right; repeat split; try lia; tauto).
  all: try (right; left; reflexivity).
  all: try (left; reflexivity).
  all: try (right; right; assumption).
Qed.

(** ** The whole of [ws2811_render] *)

Section RenderFacts.
Context `{Platform} `{DmaStart}.
Variable hw : hardware.

End RenderFacts.


(** ** Initialization *)

Lemma load_store_device (f : ws2811_device_t -> ws2811_device_t) (m : machine) dev :
  devices m !! device (ws2811 m) = Some dev ->
  store_device f m
  = Ok (set_devices (<[device (ws2811 m) := f dev]> (devices m)) m).
Proof.
  intros Hlk. unfold store_device. rewrite (load_device_eq m dev Hlk). reflexivity.
Qed.

Lemma map_step (f : ws2811_device_t -> ws2811_device_t) (w : Z) (m : machine) dev :
  devices m !! device (ws2811 m) = Some dev ->
  exists m1,
    store_device f (map_window w m) = Ok m1
    /\ ws2811 m1 = ws2811 m /\ malloced m1 = malloced m /\ paged m1 = paged m
    /\ dma_cs_reads m1 = dma_cs_reads m /\ cm_ctl_reads m1 = cm_ctl_reads m
    /\ reg_writes m1 = reg_writes m
    /\ devices m1 = <[device (ws2811 m) := f dev]> (devices m)
    /\ devices m1 !! device (ws2811 m1) = Some (f dev)
    /\ mapped m1 = (if w =? 0 then ∅ else {[w]}) ∪ mapped m.
Proof.
  intros Hlk. unfold map_window.
  destruct (decide (w = 0)) as [-> | Hw].
  - rewrite (load_store_device f m dev Hlk). eexists. split; [reflexivity |].
    machine_simpl. repeat split; try reflexivity.
    + apply lookup_insert_eq.
    + change (0 =? 0) with true. cbn iota. rewrite union_empty_l_L. reflexivity.
  - rewrite (load_store_device f _ dev) by (machine_simpl; exact Hlk).
    eexists. split; [reflexivity |]. machine_simpl. repeat split; try reflexivity.
    + apply lookup_insert_eq.
    + destruct (Z.eqb_spec w 0); [contradiction | reflexivity].
Qed.

Lemma map_registers_spec (dma_addr : Z) (window : nat -> Z) (m : machine) dev :
  devices m !! device (ws2811 m) = Some dev ->
  exists rc m' dev',
    map_registers dma_addr window m = Ok (rc, m')
    /\ ws2811 m' = ws2811 m /\ malloced m' = malloced m /\ paged m' = paged m
    /\ dma_cs_reads m' = dma_cs_reads m /\ cm_ctl_reads m' = cm_ctl_reads m
    /\ reg_writes m' = reg_writes m
    /\ devices m' = <[device (ws2811 m) := dev']> (devices m)
    /\ pwm_raw dev' = pwm_raw dev /\ dma_cb dev' = dma_cb dev
    /\ dma_cb_addr dev' = dma_cb_addr dev
    /\ mapped m'
       = (if dma_addr =? 0 then ∅ else mapped_windows window 0 4) ∪ mapped m
    /\ (rc = 0 \/ rc = -1)
    /\ (rc = 0 <-> dma_addr <> 0 /\ forall k, (k < 4)%nat -> window k <> 0)
    /\ (rc = 0 ->
        dev' = mk_device (pwm_raw dev) (window 0%nat) (window 1%nat) (dma_cb dev)
                 (dma_cb_addr dev) (window 2%nat) (window 3%nat)).
Proof.
  intros Hlk. unfold map_registers.
  destruct (Z.eqb_spec dma_addr 0) as [Hd | Hd].
  { exists (-1), m, dev. split; [reflexivity |].
    repeat split; try reflexivity; try lia.
    - rewrite insert_id by exact Hlk. reflexivity.
    - rewrite union_empty_l_L. reflexivity. }
  assert (Hall : forall P : nat -> Prop, P 0%nat -> P 1%nat -> P 2%nat -> P 3%nat ->
                   forall k, (k < 4)%nat -> P k).
  { intros P P0 P1 P2 P3 k Hk.
    destruct k as [| [| [| [| k]]]]; (assumption || lia). }
  unfold mapped_windows.
  match goal with |- context [store_device ?f (map_window _ m)] =>
    destruct (map_step f (window 0%nat) m dev Hlk)
      as (m1 & -> & Hw1 & Hml1 & Hpg1 & Hr1 & Hc1 & Hrw1 & Hdv1 & Hlk1 & Hmp1)
  end.
  cbn [mbind result_bind].
  destruct (Z.eqb_spec (window 0%nat) 0) as [H0' | H0'].
  { eexists (-1), m1, _. split; [reflexivity |].
    split_and!; try eassumption; try reflexivity; try lia.
    split; [lia | intros [_ Hw]; exfalso; apply (Hw 0%nat); [lia | assumption]]. }
  match goal with |- context [store_device ?f (map_window _ m1)] =>
    destruct (map_step f (window 1%nat) m1 _ Hlk1)
      as (m2 & -> & Hw2 & Hml2 & Hpg2 & Hr2 & Hc2 & Hrw2 & Hdv2 & Hlk2 & Hmp2)
  end.
  cbn [mbind result_bind]. cbn [pwm_raw dma pwm dma_cb dma_cb_addr gpio cm_pwm] in *.
  rewrite Hw1, Hdv1, insert_insert_eq in Hdv2. rewrite Hmp1 in Hmp2.
  destruct (Z.eqb_spec (window 1%nat) 0) as [H1' | H1'].
  { eexists (-1), m2, _. split; [reflexivity |].
    split_and!; try exact Hdv2; try congruence; try reflexivity; try lia.
    all: try (split; [lia | intros [_ Hw]; exfalso; apply (Hw 1%nat); [lia | assumption]]).
    rewrite Hmp2. apply set_eq. intros x.
    rewrite !elem_of_union, !elem_of_empty. tauto. }
  match goal with |- context [store_device ?f (map_window _ m2)] =>
    destruct (map_step f (window 2%nat) m2 _ Hlk2)
      as (m3 & -> & Hw3 & Hml3 & Hpg3 & Hr3 & Hc3 & Hrw3 & Hdv3 & Hlk3 & Hmp3)
  end.
  cbn [mbind result_bind]. cbn [pwm_raw dma pwm dma_cb dma_cb_addr gpio cm_pwm] in *.
  rewrite Hw2, Hw1, Hdv2, insert_insert_eq in Hdv3. rewrite Hmp2 in Hmp3.
  destruct (Z.eqb_spec (window 2%nat) 0) as [H2' | H2'].
  { eexists (-1), m3, _. split; [reflexivity |].
    split_and!; try exact Hdv3; try congruence; try reflexivity; try lia.
    all: try (split; [lia | intros [_ Hw]; exfalso; apply (Hw 2%nat); [lia | assumption]]).
    rewrite Hmp3. apply set_eq. intros x.
    rewrite !elem_of_union, !elem_of_empty. tauto. }
  match goal with |- context [store_device ?f (map_window _ m3)] =>
    destruct (map_step f (window 3%nat) m3 _ Hlk3)
      as (m4 & -> & Hw4 & Hml4 & Hpg4 & Hr4 & Hc4 & Hrw4 & Hdv4 & Hlk4 & Hmp4)
  end.
  cbn [mbind result_bind]. cbn [pwm_raw dma pwm dma_cb dma_cb_addr gpio cm_pwm] in *.
  rewrite Hw3, Hw2, Hw1, Hdv3, insert_insert_eq in Hdv4. rewrite Hmp3 in Hmp4.
  assert (Hmapped4 : mapped m4
                     = {[window 0%nat]} ∪ ({[window 1%nat]} ∪ ({[window 2%nat]}
                         ∪ (if window 3%nat =? 0 then ∅
                            else {[window 3%nat]} ∪ ∅))) ∪ mapped m).
  { rewrite Hmp4.
    destruct (window 3%nat =? 0); apply set_eq; intros x;
      rewrite !elem_of_union, ?elem_of_empty; tauto. }
  destruct (Z.eqb_spec (window 3%nat) 0) as [H3' | H3'].
  { eexists (-1), m4, _. split; [reflexivity |].
    split_and!; try exact Hdv4; try exact Hmapped4; try congruence;
      try reflexivity; try lia.
    split; [lia | intros [_ Hw]; exfalso; apply (Hw 3%nat); [lia | assumption]]. }
  eexists 0, m4, _. split; [reflexivity |].
  split_and!; try exact Hdv4; try exact Hmapped4; try congruence;
    try reflexivity; try lia.
  split; [intros _ | reflexivity]. split; [exact Hd |]. apply Hall; assumption.
Qed.

Lemma elem_of_opt_block (x q : Z) : x ∈ opt_block q <-> x = q /\ q <> 0.
Proof.
  unfold opt_block. destruct (decide (q = 0)) as [Hz | Hnz].
  - rewrite elem_of_empty. tauto.
  - rewrite elem_of_singleton. tauto.
Qed.

Lemma elem_of_without (x q : Z) (s : gset Z) :
  x ∈ without q s <-> x ∈ s /\ (q = 0 \/ x <> q).
Proof.
  unfold without. destruct (decide (q = 0)) as [Hz | Hnz].
  - tauto.
  - rewrite elem_of_difference, elem_of_singleton. tauto.
Qed.

(** Goals about the sets of blocks that initialization builds: the
    cases of each pointer that may be null, then of what an element
    of the set may be equal to. *)
Ltac split_elem x :=
  repeat match goal with
         | |- context [x = ?t] =>
             lazymatch goal with
             | _ : x <> t |- _ => fail
             | _ => destruct (decide (x = t)) as [-> | ?]
             end
         end.

Ltac use_fresh :=
  repeat match goal with
         | H : ?q <> 0 -> _ |- _ =>
             let Hn := fresh "Hn" in
             destruct (decide (q = 0)) as [Hn | Hn];
             [clear H; try rewrite Hn in * | specialize (H Hn)]
         | H : _ /\ _ |- _ => destruct H
         end.

Ltac block_sets :=
  use_fresh;
  lazymatch goal with
  | |- @eq (gset Z) _ _ =>
      let x := fresh "x" in
      apply set_eq; intros x;
      rewrite ?elem_of_without, ?elem_of_union, ?elem_of_opt_block,
        ?elem_of_singleton, ?elem_of_difference, ?elem_of_empty;
      split_elem x
  | |- _ =>
      rewrite ?elem_of_without, ?elem_of_union, ?elem_of_opt_block,
        ?elem_of_singleton, ?elem_of_difference, ?elem_of_empty
  end;
  first [tauto | congruence | intuition congruence].

Lemma heap_restored (M : gset Z) (p l0 l1 : Z) :
  p <> 0 -> (p ∉ M) ->
  (l0 <> 0 -> (l0 ∉ M) /\ l0 <> p) ->
  (l1 <> 0 -> (l1 ∉ M) /\ l1 <> p /\ l1 <> l0) ->
  without p (without l1 (without l0
    (opt_block l1 ∪ (opt_block l0 ∪ ({[p]} ∪ M))))) = M.
Proof. intros. block_sets. Qed.

Lemma pages_restored (M : gset Z) (raw cb : Z) :
  (raw <> 0 -> raw ∉ M) ->
  (cb <> 0 -> (cb ∉ M) /\ cb <> raw) ->
  without cb (without raw (opt_block cb ∪ (opt_block raw ∪ M))) = M.
Proof. intros. block_sets. Qed.

Lemma init_inv_owned (m m1 : machine) (p l0 l1 : Z) (dev : ws2811_device_t) :
  heap_ok m -> init_inv m m1 p l0 l1 dev -> 0 ∉ mapped m1 -> owned_ok m1.
Proof.
  intros (Hm0 & Hp0 & Hmp0 & Hdom & _)
         (Hp & Hpf & Hl0 & Hl1 & Hraw & Hcb & Hws & Hdv & Hml & Hpg) Hmp.
  unfold owned_ok. rewrite Hws, Hdv, Hml, Hpg. cbn [device channel_leds].
  split; [block_sets |]. split; [block_sets |]. split; [exact Hmp |].
  split.
  { intros x Hx. rewrite lookup_insert_ne by (intros <-; apply Hx; block_sets).
    apply Hdom. intros Hin. apply Hx. block_sets. }
  split.
  { exists l0, l1. split; [reflexivity |].
    split; [intros Hn; specialize (Hl0 Hn); block_sets |].
    split; [intros Hn; specialize (Hl1 Hn); block_sets |].
    split; [intros Hn He; subst l1; specialize (Hl1 Hn); tauto |].
    split; [intros Hn; specialize (Hl0 Hn); tauto |].
    intros Hn; specialize (Hl1 Hn); tauto. }
  intros _. split; [block_sets |].
  exists dev. split; [apply lookup_insert_eq |].
  split; [intros Hn; specialize (Hraw Hn); block_sets |].
  split; [intros Hn; specialize (Hcb Hn); block_sets |].
  intros Hn He. destruct (decide (dma_cb dev = 0)) as [Hz | Hnz]; [congruence |].
  specialize (Hcb Hnz). destruct Hcb as [_ Hne]. congruence.
Qed.

Lemma init_inv_cleanup (m m1 : machine) (p l0 l1 : Z) (dev : ws2811_device_t) :
  heap_ok m -> init_inv m m1 p l0 l1 dev -> 0 ∉ mapped m1 ->
  exists m',
    ws2811_cleanup m1 = Ok m' /\ all_null m'
    /\ malloced m' = malloced m /\ paged m' = paged m
    /\ mapped m' = mapped m1 /\ reg_writes m' = reg_writes m1
    /\ dma_cs_reads m' = dma_cs_reads m1 /\ cm_ctl_reads m' = cm_ctl_reads m1.
Proof.
  intros Hheap Hinv Hmp.
  pose proof (init_inv_owned m m1 p l0 l1 dev Hheap Hinv Hmp) as Hok.
  destruct Hheap as (Hm0 & Hp0 & Hmp0 & Hdom & _).
  destruct Hinv as (Hp & Hpf & Hl0 & Hl1 & Hraw & Hcb & Hws & Hdv & Hml & Hpg).
  destruct (cleanup_exact m1 l0 l1 dev Hok)
    as (m' & Hrun & Hnull & Hml' & Hpg' & Hrest).
  { rewrite Hws. reflexivity. }
  { intros _. rewrite Hws, Hdv. apply lookup_insert_eq. }
  exists m'. split; [exact Hrun |]. split; [exact Hnull |].
  split; [| split; [| exact Hrest]].
  - rewrite Hml', Hml, Hws. cbn [device]. apply heap_restored; assumption.
  - rewrite Hpg', Hpg, Hws. cbn [device].
    rewrite decide_False by exact Hp. apply pages_restored; assumption.
Qed.

Lemma mapped_windows_elem (window : nat -> Z) (n : nat) : forall k x,
  x ∈ mapped_windows window k n ->
  x <> 0 /\ exists j, (k <= j < k + n)%nat /\ x = window j.
Proof.
  induction n as [| n IH]; intros k x Hx; cbn [mapped_windows] in Hx.
  - apply elem_of_empty in Hx. contradiction.
  - destruct (Z.eqb_spec (window k) 0) as [Hz | Hnz].
    + apply elem_of_empty in Hx. contradiction.
    + apply elem_of_union in Hx. destruct Hx as [Hx | Hx].
      * apply elem_of_singleton in Hx. subst x. split; [exact Hnz |].
        exists k. split; [lia | reflexivity].
      * destruct (IH _ _ Hx) as [Hx0 (j & Hj & ->)]. split; [exact Hx0 |].
        exists j. split; [lia | reflexivity].
Qed.


Lemma init_device_inv (env : init_env) (m : machine) :
  heap_ok m -> env_fresh env m -> env_malloc_device env <> 0 ->
  let g := env_device_contents env in
  init_inv m (init_device env m) (env_malloc_device env) 0 0
    (mk_device 0 (dma g) (pwm g) 0 (dma_cb_addr g) (gpio g) (cm_pwm g))
  /\ mapped (init_device env m) = mapped m.
Proof.
  intros (Hm0 & Hp0 & Hmp0 & Hdom & Hlen) (Hpf & _) Hp g.
  unfold init_inv, init_device. machine_simpl.
  cbn [pwm_raw dma_cb].
  destruct (channel_leds (ws2811 m)) as [| a [| b [| c l]]]; try discriminate.
  cbn [insert list_insert].
  split_and!; try reflexivity; try assumption; try congruence.
  all: block_sets.
Qed.

Lemma init_leds_0_inv (env : init_env) (d : driver) (m : machine) (p : Z)
  (dev : ws2811_device_t) (ch : ws2811_channel_t) :
  env_fresh env m -> init_inv m (d_machine d) p 0 0 dev ->
  p = env_malloc_device env ->
  d_channel d !! 0%nat = Some ch ->
  let q := env_malloc_leds env 0%nat in
  exists d',
    init_leds env 0 d = Ok (q =? 0, d')
    /\ init_inv m (d_machine d') p q 0 dev
    /\ mapped (d_machine d') = mapped (d_machine d)
    /\ d_freq d' = d_freq d
    /\ d_channel d'
       = (if q =? 0 then d_channel d
          else <[0%nat := with_leds ch (repeat 0 (Z.to_nat (count ch)))]> (d_channel d)).
Proof.
  intros (_ & Hq0 & _) (Hp & Hpf & _ & _ & Hraw & Hcb & Hws & Hdv & Hml & Hpg) -> Hch q.
  unfold init_leds, heap_block. rewrite Hch. fold q.
  destruct (Z.eqb_spec q 0) as [Hz | Hnz].
  - rewrite decide_True by exact Hz.
    eexists. split; [reflexivity |]. cbn [d_machine set_d_machine d_freq d_channel].
    split_and!; try reflexivity.
    unfold init_inv. machine_simpl. rewrite Hws. cbn [device channel_leds insert list_insert].
    rewrite Hz. split_and!; try reflexivity; try assumption; try congruence. 
  - rewrite decide_False by exact Hnz.
    eexists. split; [reflexivity |]. cbn [d_machine set_d_machine d_freq d_channel].
    split_and!; try reflexivity.
    unfold init_inv. machine_simpl. rewrite Hws. cbn [device channel_leds insert list_insert].
    specialize (Hq0 Hnz). fold q in Hq0.
    split_and!; try reflexivity; try assumption; try congruence; try tauto.
    rewrite Hml. block_sets.
Qed.

Lemma init_leds_1_inv (env : init_env) (d : driver) (m : machine) (p l0 : Z)
  (dev : ws2811_device_t) (ch : ws2811_channel_t) :
  env_fresh env m -> init_inv m (d_machine d) p l0 0 dev ->
  p = env_malloc_device env -> l0 = env_malloc_leds env 0%nat ->
  d_channel d !! 1%nat = Some ch ->
  let q := env_malloc_leds env 1%nat in
  exists d',
    init_leds env 1 d = Ok (q =? 0, d')
    /\ init_inv m (d_machine d') p l0 q dev
    /\ mapped (d_machine d') = mapped (d_machine d)
    /\ d_freq d' = d_freq d
    /\ d_channel d'
       = (if q =? 0 then d_channel d
          else <[1%nat := with_leds ch (repeat 0 (Z.to_nat (count ch)))]> (d_channel d)).
Proof.
  intros (_ & _ & Hq1 & _) (Hp & Hpf & Hl0 & _ & Hraw & Hcb & Hws & Hdv & Hml & Hpg)
         -> -> Hch q.
  unfold init_leds, heap_block. rewrite Hch. fold q.
  destruct (Z.eqb_spec q 0) as [Hz | Hnz].
  - rewrite decide_True by exact Hz.
    eexists. split; [reflexivity |]. cbn [d_machine set_d_machine d_freq d_channel].
    split_and!; try reflexivity.
    unfold init_inv. machine_simpl. rewrite Hws. cbn [device channel_leds insert list_insert].
    rewrite Hz. split_and!; try reflexivity; try assumption; try congruence. 
  - rewrite decide_False by exact Hnz.
    eexists. split; [reflexivity |]. cbn [d_machine set_d_machine d_freq d_channel].
    split_and!; try reflexivity.
    unfold init_inv. machine_simpl. rewrite Hws. cbn [device channel_leds insert list_insert].
    specialize (Hq1 Hnz). fold q in Hq1.
    split_and!; try reflexivity; try assumption; try congruence; try tauto.
    rewrite Hml. block_sets.
Qed.


Lemma page_step (f : ws2811_device_t -> ws2811_device_t) (w : Z) (m : machine) dev :
  devices m !! device (ws2811 m) = Some dev ->
  exists m1,
    store_device f (page_window w m) = Ok m1
    /\ ws2811 m1 = ws2811 m /\ malloced m1 = malloced m
    /\ mapped m1 = mapped m
    /\ devices m1 = <[device (ws2811 m) := f dev]> (devices m)
    /\ paged m1 = opt_block w ∪ paged m.
Proof.
  intros Hlk. unfold page_window, opt_block.
  destruct (decide (w = 0)) as [-> | Hw].
  - rewrite (load_store_device f m dev Hlk). eexists. split; [reflexivity |].
    machine_simpl. split_and!; try reflexivity.
    rewrite union_empty_l_L. reflexivity.
  - rewrite (load_store_device f _ dev) by (machine_simpl; exact Hlk).
    eexists. split; [reflexivity |]. machine_simpl. split_and!; reflexivity.
Qed.

Lemma init_buffers_inv (pagemap : Z -> option Z) (env : init_env) (d d' : driver) (failed : bool)
  (m : machine) (p l0 l1 : Z) (dev : ws2811_device_t) :
  init_buffers pagemap env d = Ok (failed, d') ->
  env_fresh env m -> init_inv m (d_machine d) p l0 l1 dev ->
  pwm_raw dev = 0 -> dma_cb dev = 0 ->
  let raw := env_dma_alloc env in
  let cb := env_dma_desc_alloc env in
  let bus := addr_to_bus pagemap cb in
  exists dev',
    init_inv m (d_machine d') p l0 l1 dev'
    /\ mapped (d_machine d') = mapped (d_machine d)
    /\ d_freq d' = d_freq d /\ d_channel d' = d_channel d
    /\ (failed = true -> raw = 0 \/ cb = 0 \/ bus = uint32 (Z.lnot 0))
    /\ (failed = false ->
        raw <> 0 /\ cb <> 0 /\ bus <> uint32 (Z.lnot 0)
        /\ dev' = mk_device raw (dma dev) (pwm dev) cb bus (gpio dev) (cm_pwm dev)
        /\ pwm_raw_init (d_channel d) (uint32 (d_freq d)) (env_dma_words env)
           = Ok (d_words d')).
Proof.
  intros Hrun (_ & _ & _ & Hfraw & Hfcb & _)
         (Hp & Hpf & Hl0 & Hl1 & _ & _ & Hws & Hdv & Hml & Hpg) Hraw0 Hcb0 raw cb bus.
  unfold init_buffers in Hrun. fold raw cb bus in Hrun, Hfraw, Hfcb.
  assert (Hlk : devices (d_machine d) !! device (ws2811 (d_machine d)) = Some dev).
  { rewrite Hws, Hdv. apply lookup_insert_eq. }
  match type of Hrun with context [store_device ?f (page_window raw _)] =>
    destruct (page_step f raw (d_machine d) dev Hlk)
      as (m2 & Hs2 & Hws2 & Hml2 & Hmp2 & Hdv2 & Hpg2)
  end.
  rewrite Hs2 in Hrun. cbn [mbind result_bind] in Hrun.
  rewrite Hws in Hdv2. cbn [device] in Hdv2.
  rewrite Hdv, insert_insert_eq in Hdv2.
  rewrite Hpg, Hraw0, Hcb0 in Hpg2.
  destruct (Z.eqb_spec raw 0) as [Hz | Hnz].
  { injection Hrun as <- <-. cbn [d_machine set_d_machine d_freq d_channel].
    exists (mk_device raw (dma dev) (pwm dev) (dma_cb dev) (dma_cb_addr dev)
              (gpio dev) (cm_pwm dev)).
    split_and!; try reflexivity; try congruence; try (intros _; left; exact Hz).
    unfold init_inv. cbn [pwm_raw dma_cb]. rewrite Hcb0.
    split_and!; try assumption; try congruence.
    rewrite Hpg2, Hz. block_sets. }
  specialize (Hfraw Hnz).
  destruct (pwm_raw_init _ _ _) as [words | |] eqn:Hwords; try discriminate.
  cbn [mbind result_bind] in Hrun.
  assert (Hlk2 : devices m2 !! device (ws2811 m2)
                 = Some (mk_device raw (dma dev) (pwm dev) (dma_cb dev)
                           (dma_cb_addr dev) (gpio dev) (cm_pwm dev))).
  { rewrite Hws2, Hws, Hdv2. apply lookup_insert_eq. }
  match type of Hrun with context [store_device ?f (page_window cb _)] =>
    destruct (page_step f cb m2 _ Hlk2)
      as (m3 & Hs3 & Hws3 & Hml3 & Hmp3 & Hdv3 & Hpg3)
  end.
  rewrite Hs3 in Hrun. cbn [mbind result_bind] in Hrun.
  cbn [pwm_raw dma pwm dma_cb dma_cb_addr gpio cm_pwm] in Hdv3.
  rewrite Hws2, Hws in Hdv3. cbn [device] in Hdv3.
  rewrite Hdv2, insert_insert_eq in Hdv3.
  rewrite Hpg2 in Hpg3.
  destruct (Z.eqb_spec cb 0) as [Hzc | Hnzc].
  { injection Hrun as <- <-. cbn [d_machine d_freq d_channel].
    exists (mk_device raw (dma dev) (pwm dev) cb (dma_cb_addr dev)
              (gpio dev) (cm_pwm dev)).
    split_and!; try reflexivity; try congruence;
      try (intros _; right; left; exact Hzc).
    unfold init_inv. cbn [pwm_raw dma_cb].
    split_and!; try assumption; try congruence; try tauto.
    rewrite Hpg3, Hzc. block_sets. }
  specialize (Hfcb Hnzc).
  assert (Hlk3 : devices m3 !! device (ws2811 m3)
                 = Some (mk_device raw (dma dev) (pwm dev) cb
                           (dma_cb_addr dev) (gpio dev) (cm_pwm dev))).
  { rewrite Hws3, Hws2, Hws, Hdv3. apply lookup_insert_eq. }
  rewrite (load_store_device _ m3 _ Hlk3) in Hrun.
  cbn [mbind result_bind pwm_raw dma pwm dma_cb dma_cb_addr gpio cm_pwm] in Hrun.
  injection Hrun as <- <-. cbn [d_machine d_freq d_channel d_words].
  machine_simpl.
  exists (mk_device raw (dma dev) (pwm dev) cb bus (gpio dev) (cm_pwm dev)).
  split_and!; try reflexivity; try congruence.
  - unfold init_inv. machine_simpl. cbn [pwm_raw dma_cb].
    rewrite Hws3, Hws2, Hws. cbn [device].
    split_and!; try assumption; try congruence; try tauto.
    + rewrite Hdv3, insert_insert_eq. reflexivity.
    + rewrite Hpg3. block_sets.
  - intros Hf. right. right. apply Z.eqb_eq. exact Hf.
  - intros Hf. apply Z.eqb_neq in Hf. split_and!; try assumption; reflexivity.
Qed.

Lemma elem_of_stuck_window {H : Platform} (x p : Z) :
  x ∈ stuck_window p <-> x = p /\ p mod PAGE_SIZE <> 0.
Proof.
  unfold stuck_window.
  destruct (decide (p mod PAGE_SIZE = 0)) as [Ha | Ha];
    rewrite ?elem_of_empty, ?elem_of_singleton; tauto.
Qed.

Lemma elem_of_stuck_windows {H : Platform} (x : Z) (w : nat -> Z) :
  x ∈ stuck_windows w
  <-> exists k, (k < 4)%nat /\ x = w k /\ x mod PAGE_SIZE <> 0.
Proof.
  unfold stuck_windows. rewrite !elem_of_union, !elem_of_stuck_window. split.
  - intros [[-> Ha] | [[-> Ha] | [[-> Ha] | [-> Ha]]]];
      [exists 0%nat | exists 1%nat | exists 2%nat | exists 3%nat];
      (split; [lia | split; [reflexivity | exact Ha]]).
  - intros (k & Hk & -> & Ha).
    destruct k as [| [| [| [| k]]]]; [tauto | tauto | tauto | tauto | lia].
Qed.

(** What [unmap_registers] leaves of four fresh windows. *)
Lemma unmap_windows {H : Platform} (M : gset Z) (w : nat -> Z) :
  (forall k, (k < 4)%nat -> w k <> 0) ->
  (forall k, (k < 4)%nat -> w k ∉ M) ->
  unmap_window (w 2%nat) (unmap_window (w 3%nat) (unmap_window (w 1%nat)
    (unmap_window (w 0%nat) (mapped_windows w 0 4 ∪ M))))
  = stuck_windows w ∪ M.
Proof.
  intros Hnz Hfresh. unfold mapped_windows, stuck_windows.
  pose proof (Hnz 0%nat ltac:(lia)) as N0. pose proof (Hnz 1%nat ltac:(lia)) as N1.
  pose proof (Hnz 2%nat ltac:(lia)) as N2. pose proof (Hnz 3%nat ltac:(lia)) as N3.
  pose proof (Hfresh 0%nat ltac:(lia)) as F0. pose proof (Hfresh 1%nat ltac:(lia)) as F1.
  pose proof (Hfresh 2%nat ltac:(lia)) as F2. pose proof (Hfresh 3%nat ltac:(lia)) as F3.
  clear Hnz Hfresh.
  destruct (Z.eqb_spec (w 0%nat) 0); [contradiction |].
  destruct (Z.eqb_spec (w 1%nat) 0); [contradiction |].
  destruct (Z.eqb_spec (w 2%nat) 0); [contradiction |].
  destruct (Z.eqb_spec (w 3%nat) 0); [contradiction |].
  apply set_eq. intros x.
  rewrite !elem_of_unmap_window, !elem_of_union, !elem_of_stuck_window,
    !elem_of_singleton, elem_of_empty.
  destruct (decide (x ∈ M)) as [HM | HM].
  - assert (x <> w 0%nat /\ x <> w 1%nat /\ x <> w 2%nat /\ x <> w 3%nat)
      as (D0 & D1 & D2 & D3) by (split_and!; intros ->; contradiction).
    tauto.
  - destruct (decide (x mod PAGE_SIZE = 0)) as [Ha | Ha].
    + split.
      * intros ((((Hx & K0) & K1) & K3) & K2). exfalso.
        destruct Hx as [[Hx | [Hx | [Hx | [Hx | []]]]] | Hx]; [| | | | contradiction].
        -- subst x. apply K0. split_and!; (reflexivity || assumption).
        -- subst x. apply K1. split_and!; (reflexivity || assumption).
        -- subst x. apply K2. split_and!; (reflexivity || assumption).
        -- subst x. apply K3. split_and!; (reflexivity || assumption).
      * intros [[[-> Hx] | [[-> Hx] | [[-> Hx] | [-> Hx]]]] | Hx]; contradiction.
    + split.
      * intros ((((Hx & _) & _) & _) & _).
        destruct Hx as [[Hx | [Hx | [Hx | [Hx | []]]]] | Hx]; [| | | | contradiction];
          rewrite Hx in Ha; tauto.
      * intros Hx.
        assert (Hin : x = w 0%nat \/ x = w 1%nat \/ x = w 2%nat \/ x = w 3%nat)
          by tauto.
        split_and!; try tauto; intros (-> & Hz & _); contradiction.
Qed.

(** [setup_pwm] allocates, releases, maps and unmaps nothing. *)
Lemma setup_pwm_frame {H : Platform} {H0 : PwmSetup} (hw : hardware)
  (pagemap : Z -> option Z) (pwm_ctl : Z) (fuel : nat) (d d' : driver) (rc : Z) :
  setup_pwm hw pagemap pwm_ctl fuel d = Ok (rc, d') ->
  ws2811 (d_machine d') = ws2811 (d_machine d)
  /\ devices (d_machine d') = devices (d_machine d)
  /\ malloced (d_machine d') = malloced (d_machine d)
  /\ paged (d_machine d') = paged (d_machine d)
  /\ mapped (d_machine d') = mapped (d_machine d)
  /\ d_freq d' = d_freq d /\ d_channel d' = d_channel d
  /\ d_words d' = d_words d
  /\ (rc = 0 \/ rc = -1).
Proof.
  unfold setup_pwm, stop_pwm. intros Hrun.
  destruct (load_device (d_machine d)) as [dev | |]; try discriminate.
  cbn [mbind result_bind] in Hrun.
  destruct (decide (pwm dev ∈ mapped (d_machine d))); try discriminate.
  destruct (decide (cm_pwm dev ∈ mapped (d_machine d))); try discriminate.
  destruct (busy_poll hw fuel _) as [t1 | |]; try discriminate.
  cbn [mbind result_bind] in Hrun.
  destruct (uint32 (3 * uint32 (d_freq d)) =? 0); try discriminate.
  destruct (enable_poll hw fuel _) as [t2 | |]; try discriminate.
  cbn [mbind result_bind] in Hrun.
  destruct (setup_pwm_chain _ _ _ _ _ _) as [[rc' st] | |]; try discriminate.
  cbn [mbind result_bind] in Hrun.
  destruct (rc' =? 0).
  - destruct (decide (dma dev ∈ _)); try discriminate.
    injection Hrun as <- <-. machine_simpl. cbn [d_machine d_freq d_channel d_words].
    split_and!; try reflexivity. left. reflexivity.
  - injection Hrun as <- <-. machine_simpl. cbn [d_machine d_freq d_channel d_words].
    split_and!; try reflexivity. right. reflexivity.
Qed.

Lemma gpio_init_rc (pwm_pin_alt : nat -> Z -> Z) (chans : list ws2811_channel_t) (fsel fsel' : list (Z * Z)) (rc : Z) :
  gpio_init pwm_pin_alt chans fsel = Ok (rc, fsel') -> rc = 0 \/ rc = -1.
Proof.
  unfold gpio_init.
  generalize (seq 0 (Z.to_nat RPI_PWM_CHANNELS)). intros idx. revert fsel.
  induction idx as [| chan idx IH]; intros fsel Hrun; cbn [gpio_init_loop] in Hrun.
  - injection Hrun as <- _. left. reflexivity.
  - destruct (chans !! chan) as [ch |]; [| discriminate].
    destruct (gpionum ch =? 0); [exact (IH _ Hrun) |].
    destruct (pwm_pin_alt chan (gpionum ch) <? 0); [| exact (IH _ Hrun)].
    injection Hrun as <- _. right. reflexivity.
Qed.

Lemma unmap_registers_spec {H : Platform} (m : machine) (dev : ws2811_device_t) :
  devices m !! device (ws2811 m) = Some dev ->
  unmap_registers m
  = Ok (set_mapped (unmap_window (gpio dev) (unmap_window (cm_pwm dev)
          (unmap_window (pwm dev) (unmap_window (dma dev) (mapped m))))) m).
Proof.
  intros Hlk. unfold unmap_registers. rewrite (load_device_eq m dev Hlk). reflexivity.
Qed.

Lemma init_hardware_inv {H : Platform} {H0 : PwmSetup} (hw : hardware)
  (pagemap : Z -> option Z) (pwm_ctl : Z) 
  (pwm_pin_alt : nat -> Z -> Z) (fuel : nat) (env : init_env) (d d' : driver)
  (failed : bool) (m : machine) (p l0 l1 : Z) (dev : ws2811_device_t) :
  init_hardware hw pagemap pwm_ctl pwm_pin_alt fuel env d = Ok (failed, d') ->
  heap_ok m -> env_fresh env m -> init_inv m (d_machine d) p l0 l1 dev ->
  mapped (d_machine d) = mapped m ->
  let dma_addr := env_dmanum_to_phys env in
  let w := env_map_device env in
  exists dev',
    init_inv m (d_machine d') p l0 l1 dev'
    /\ (0 ∉ mapped (d_machine d'))
    /\ d_freq d' = d_freq d /\ d_channel d' = d_channel d /\ d_words d' = d_words d
    /\ (failed = true ->
        (dma_addr = 0 /\ mapped (d_machine d') = mapped m)
        \/ (dma_addr <> 0 /\ (exists k, (k < 4)%nat /\ w k = 0)
            /\ mapped (d_machine d') = mapped_windows w 0 4 ∪ mapped m)
        \/ (dma_addr <> 0 /\ (forall k, (k < 4)%nat -> w k <> 0)
            /\ mapped (d_machine d') = stuck_windows w ∪ mapped m))
    /\ (failed = false ->
        dma_addr <> 0 /\ (forall k, (k < 4)%nat -> w k <> 0)
        /\ mapped (d_machine d') = mapped_windows w 0 4 ∪ mapped m
        /\ dev' = mk_device (pwm_raw dev) (w 0%nat) (w 1%nat) (dma_cb dev)
                    (dma_cb_addr dev) (w 2%nat) (w 3%nat)).
Proof.
  intros Hrun (Hm0 & Hp0 & Hmp0 & Hdom & _) (_ & _ & _ & _ & _ & Hfw)
         (Hp & Hpf & Hl0 & Hl1 & Hraw & Hcb & Hws & Hdv & Hml & Hpg) Hmp dma_addr w.
  unfold init_hardware in Hrun. fold dma_addr w in Hrun, Hfw.
  assert (Hlk : devices (d_machine d) !! device (ws2811 (d_machine d)) = Some dev).
  { rewrite Hws, Hdv. apply lookup_insert_eq. }
  destruct (map_registers_spec dma_addr w (d_machine d) dev Hlk)
    as (rc & m5 & dev5 & Hmr & Hws5 & Hml5 & Hpg5 & _ & _ & _ & Hdv5
        & Hraw5 & Hcb5 & Hbus5 & Hmp5 & Hrc & Hrc0 & Hdev5).
  rewrite Hmr in Hrun. cbn [mbind result_bind] in Hrun.
  rewrite Hws in Hdv5. cbn [device] in Hdv5. rewrite Hdv, insert_insert_eq in Hdv5.
  rewrite Hmp in Hmp5.
  assert (Hinv5 : init_inv m m5 p l0 l1 dev5).
  { unfold init_inv. rewrite Hraw5, Hcb5.
    split_and!; try assumption; try congruence. }
  assert (Hnz5 : 0 ∉ mapped m5).
  { rewrite Hmp5. intros Hin. apply elem_of_union in Hin. destruct Hin as [Hin | Hin].
    - destruct (dma_addr =? 0); [apply elem_of_empty in Hin; contradiction |].
      apply mapped_windows_elem in Hin. destruct Hin as [Hx _]. congruence.
    - contradiction. }
  destruct Hrc as [-> | ->].
  2: { change (negb (-1 =? 0)) with true in Hrun. cbn iota in Hrun.
       injection Hrun as <- <-. cbn [d_machine set_d_machine d_freq d_channel d_words].
       exists dev5. split_and!; try assumption; try reflexivity; try discriminate.
       intros _. destruct (Z.eqb_spec dma_addr 0) as [Hz | Hnz].
       - left. split; [exact Hz |]. rewrite Hmp5. apply union_empty_l_L.
       - right. left. split; [exact Hnz |]. split; [| exact Hmp5].
         destruct (decide (w 0%nat = 0)); [exists 0%nat; split; [lia | assumption] |].
         destruct (decide (w 1%nat = 0)); [exists 1%nat; split; [lia | assumption] |].
         destruct (decide (w 2%nat = 0)); [exists 2%nat; split; [lia | assumption] |].
         destruct (decide (w 3%nat = 0)); [exists 3%nat; split; [lia | assumption] |].
         exfalso. assert (Hcontra : -1 = 0); [| discriminate].
         apply Hrc0. split; [exact Hnz |].
         intros k Hk. destruct k as [| [| [| [| k]]]]; (assumption || lia). }
  change (negb (0 =? 0)) with false in Hrun. cbn iota in Hrun.
  destruct (proj1 Hrc0 eq_refl) as [Hdma Hwin].
  specialize (Hdev5 eq_refl). subst dev5.
  destruct (Z.eqb_spec dma_addr 0) as [? | _]; [contradiction |].
  assert (Hlk5 : devices m5 !! device (ws2811 m5)
                 = Some (mk_device (pwm_raw dev) (w 0%nat) (w 1%nat) (dma_cb dev)
                           (dma_cb_addr dev) (w 2%nat) (w 3%nat))).
  { rewrite Hws5, Hws, Hdv5. apply lookup_insert_eq. }
  assert (Hunmap : forall s,
            s = mapped_windows w 0 4 ∪ mapped m ->
            unmap_window (w 2%nat) (unmap_window (w 3%nat) (unmap_window (w 1%nat)
              (unmap_window (w 0%nat) s))) = stuck_windows w ∪ mapped m).
  { intros s ->. apply unmap_windows; intros k Hk; auto. }
  assert (Hnzs : 0 ∉ stuck_windows w ∪ mapped m).
  { intros Hin. apply elem_of_union in Hin. destruct Hin as [Hin | Hin].
    - apply elem_of_stuck_windows in Hin. destruct Hin as (k & Hk & Hz & _).
      exact (Hwin k Hk (eq_sym Hz)).
    - contradiction. }
  destruct (gpio_init _ _ _) as [[rcg fsel] | |] eqn:Hgpio; try discriminate.
  cbn [mbind result_bind] in Hrun.
  destruct (gpio_init_rc pwm_pin_alt _ _ _ _ Hgpio) as [-> | ->].
  2: { change (negb (-1 =? 0)) with true in Hrun. cbn iota in Hrun.
       rewrite (unmap_registers_spec m5 _ Hlk5) in Hrun.
       cbn [mbind result_bind gpio cm_pwm pwm dma] in Hrun.
       injection Hrun as <- <-.
       cbn [d_machine set_d_machine d_freq d_channel d_words]. machine_simpl.
       exists (mk_device (pwm_raw dev) (w 0%nat) (w 1%nat) (dma_cb dev)
                 (dma_cb_addr dev) (w 2%nat) (w 3%nat)).
       rewrite (Hunmap _ Hmp5).
       split_and!; try assumption; try reflexivity; try discriminate.
       all: try (unfold init_inv in *; machine_simpl; exact Hinv5).
       intros _. right. right. split_and!; try assumption. reflexivity. }
  change (negb (0 =? 0)) with false in Hrun. cbn iota in Hrun.
  destruct (setup_pwm _ _ _ _ _) as [[rcs d6] | |] eqn:Hsetup; try discriminate.
  cbn [mbind result_bind] in Hrun.
  destruct (setup_pwm_frame hw pagemap pwm_ctl _ _ _ _ Hsetup)
    as (Hws6 & Hdv6 & Hml6 & Hpg6 & Hmp6 & Hfr6 & Hch6 & Hwd6 & Hrcs).
  cbn [d_machine d_freq d_channel d_words] in Hws6, Hdv6, Hml6, Hpg6, Hmp6, Hfr6, Hch6, Hwd6.
  assert (Hinv6 : init_inv m (d_machine d6) p l0 l1
                    (mk_device (pwm_raw dev) (w 0%nat) (w 1%nat) (dma_cb dev)
                       (dma_cb_addr dev) (w 2%nat) (w 3%nat))).
  { unfold init_inv in *. rewrite Hws6, Hdv6, Hml6, Hpg6. exact Hinv5. }
  destruct Hrcs as [-> | ->].
  - change (negb (0 =? 0)) with false in Hrun. cbn iota in Hrun.
    injection Hrun as <- <-.
    exists (mk_device (pwm_raw dev) (w 0%nat) (w 1%nat) (dma_cb dev)
              (dma_cb_addr dev) (w 2%nat) (w 3%nat)).
    split_and!; try assumption; try reflexivity; try discriminate.
    + rewrite Hmp6. exact Hnz5.
    + intros _. split_and!; try assumption; try reflexivity. congruence.
  - change (negb (-1 =? 0)) with true in Hrun. cbn iota in Hrun.
    assert (Hlk6 : devices (d_machine d6) !! device (ws2811 (d_machine d6))
                   = Some (mk_device (pwm_raw dev) (w 0%nat) (w 1%nat) (dma_cb dev)
                             (dma_cb_addr dev) (w 2%nat) (w 3%nat))).
    { rewrite Hws6, Hdv6. exact Hlk5. }
    rewrite (unmap_registers_spec _ _ Hlk6) in Hrun.
    cbn [mbind result_bind gpio cm_pwm pwm dma] in Hrun.
    injection Hrun as <- <-.
    cbn [d_machine set_d_machine d_freq d_channel d_words]. machine_simpl.
    exists (mk_device (pwm_raw dev) (w 0%nat) (w 1%nat) (dma_cb dev)
              (dma_cb_addr dev) (w 2%nat) (w 3%nat)).
    rewrite (Hunmap (mapped (d_machine d6))) by congruence.
    split_and!; try assumption; try reflexivity; try discriminate.
    all: try (unfold init_inv in *; machine_simpl; exact Hinv6).
    intros _. right. right. split_and!; try assumption. reflexivity.
Qed.


(** The outcomes of [ws2811_init], by the step that fails. *)
Lemma ws2811_init_cases {H : Platform} {H0 : PwmSetup} (hw : hardware)
  (pagemap : Z -> option Z) (pwm_ctl : Z) 
  (pwm_pin_alt : nat -> Z -> Z) (fuel : nat) (env : init_env) (d d' : driver) (rc : Z) :
  heap_ok (d_machine d) -> env_fresh env (d_machine d) ->
  ws2811_init hw pagemap pwm_ctl pwm_pin_alt fuel env d = Ok (rc, d') ->
  let m := d_machine d in
  let m' := d_machine d' in
  let p := env_malloc_device env in
  let q0 := env_malloc_leds env 0%nat in
  let q1 := env_malloc_leds env 1%nat in
  let raw := env_dma_alloc env in
  let cb := env_dma_desc_alloc env in
  let bus := addr_to_bus pagemap cb in
  let dma_addr := env_dmanum_to_phys env in
  let w := env_map_device env in
  let reached :=
    q0 <> 0 /\ q1 <> 0 /\ raw <> 0 /\ cb <> 0
    /\ bus <> uint32 (Z.lnot 0) /\ dma_addr <> 0 in
  (p = 0 /\ rc = -1
   /\ d' = set_d_machine (set_ws2811 (mk_ws2811 0 (channel_leds (ws2811 m))) m) d)
  \/ (p <> 0 /\ rc = -1 /\ all_null m'
      /\ malloced m' = malloced m /\ paged m' = paged m
      /\ (((q0 = 0 \/ q1 = 0 \/ raw = 0 \/ cb = 0
            \/ bus = uint32 (Z.lnot 0) \/ dma_addr = 0)
           /\ mapped m' = mapped m)
          \/ (reached /\ (exists k, (k < 4)%nat /\ w k = 0)
              /\ mapped m' = mapped_windows w 0 4 ∪ mapped m)
          \/ (reached /\ (forall k, (k < 4)%nat -> w k <> 0)
              /\ mapped m' = stuck_windows w ∪ mapped m)))
  \/ (p <> 0 /\ rc = 0 /\ reached /\ (forall k, (k < 4)%nat -> w k <> 0)
      /\ init_inv m m' p q0 q1
           (mk_device raw (w 0%nat) (w 1%nat) cb bus (w 2%nat) (w 3%nat))
      /\ mapped m' = mapped_windows w 0 4 ∪ mapped m
      /\ owned_ok m'
      /\ exists ch0 ch1,
           d_channel d !! 0%nat = Some ch0 /\ d_channel d !! 1%nat = Some ch1
           /\ d_channel d'
              = <[1%nat := with_leds ch1 (repeat 0 (Z.to_nat (count ch1)))]>
                  (<[0%nat := with_leds ch0 (repeat 0 (Z.to_nat (count ch0)))]>
                     (d_channel d))
           /\ pwm_raw_init (d_channel d') (uint32 (d_freq d)) (env_dma_words env)
              = Ok (d_words d')).
Proof.
  intros Hheap Hfresh Hrun m m' p q0 q1 raw cb bus dma_addr w reached.
  unfold ws2811_init in Hrun. fold m p in Hrun.
  destruct (Z.eqb_spec p 0) as [Hz | Hp].
  { left. injection Hrun as <- <-. split_and!; (assumption || reflexivity). }
  right.
  destruct (init_device_inv env m Hheap Hfresh Hp) as [Hinv Hmp].
  set (dev0 := mk_device 0 _ _ 0 _ _ _) in Hinv.
  (* the LED array of channel 0 *)
  destruct (d_channel d !! 0%nat) as [ch0 |] eqn:Hch0.
  2: { unfold init_leds in Hrun. cbn [d_channel set_d_machine] in Hrun.
       rewrite Hch0 in Hrun. discriminate. }
  destruct (init_leds_0_inv env (set_d_machine (init_device env m) d) m p dev0 ch0
              Hfresh Hinv eq_refl Hch0)
    as (d0 & Hrun0 & Hinv0 & Hmp0 & Hfr0 & Hchs0).
  rewrite Hrun0 in Hrun. cbn [mbind result_bind] in Hrun.
  cbn [d_machine set_d_machine d_freq d_channel] in Hmp0, Hfr0, Hchs0.
  fold q0 in Hrun, Hinv0, Hchs0.
  assert (Hfail : forall dx l0 l1 dev,
            init_err dx = Ok (rc, d') -> init_inv m (d_machine dx) p l0 l1 dev ->
            (0 ∉ mapped (d_machine dx)) ->
            rc = -1 /\ all_null m' /\ malloced m' = malloced m /\ paged m' = paged m
            /\ mapped m' = mapped (d_machine dx)).
  { intros dx l0 l1 dev Herr Hinvx Hnz. unfold init_err in Herr.
    destruct (init_inv_cleanup m (d_machine dx) p l0 l1 dev Hheap Hinvx Hnz)
      as (mc & Hc & Hnull & Hmlc & Hpgc & Hmpc & _).
    rewrite Hc in Herr. cbn [mbind result_bind] in Herr.
    injection Herr as <- <-. unfold m'. cbn [d_machine set_d_machine].
    split_and!; (assumption || reflexivity). }
  assert (Hmap0 : 0 ∉ mapped m) by (destruct Hheap as (_ & _ & Hx & _); exact Hx).
  destruct (Z.eqb_spec q0 0) as [Hz0 | Hn0].
  { left. destruct (Hfail _ _ _ _ Hrun Hinv0) as (-> & Hnull & Hml & Hpg & Hmpx).
    { rewrite Hmp0, Hmp. exact Hmap0. }
    split_and!; try assumption; try reflexivity.
    left. split; [left; exact Hz0 | congruence]. }
  (* the LED array of channel 1 *)
  destruct (d_channel d0 !! 1%nat) as [ch1' |] eqn:Hch1'.
  2: { unfold init_leds in Hrun. rewrite Hch1' in Hrun. discriminate. }
  destruct (init_leds_1_inv env d0 m p q0 dev0 ch1' Hfresh Hinv0 eq_refl eq_refl Hch1')
    as (d1 & Hrun1 & Hinv1 & Hmp1 & Hfr1 & Hchs1).
  rewrite Hrun1 in Hrun. cbn [mbind result_bind] in Hrun.
  fold q1 in Hrun, Hinv1, Hchs1.
  destruct (Z.eqb_spec q1 0) as [Hz1 | Hn1].
  { left. destruct (Hfail _ _ _ _ Hrun Hinv1) as (-> & Hnull & Hml & Hpg & Hmpx).
    { rewrite Hmp1, Hmp0, Hmp. exact Hmap0. }
    split_and!; try assumption; try reflexivity.
    left. split; [right; left; exact Hz1 | congruence]. }
  (* the buffers *)
  destruct (init_buffers pagemap env d1) as [[failed2 d2] | |] eqn:Hrun2;
    try discriminate.
  cbn [mbind result_bind] in Hrun.
  destruct (init_buffers_inv pagemap env d1 d2 failed2 m p q0 q1 dev0 Hrun2
              Hfresh Hinv1 eq_refl eq_refl)
    as (dev2 & Hinv2 & Hmp2 & Hfr2 & Hchs2 & Hbad2 & Hgood2).
  fold raw cb bus in Hbad2, Hgood2.
  destruct failed2.
  { left. destruct (Hfail _ _ _ _ Hrun Hinv2) as (-> & Hnull & Hml & Hpg & Hmpx).
    { rewrite Hmp2, Hmp1, Hmp0, Hmp. exact Hmap0. }
    split_and!; try assumption; try reflexivity.
    left. split; [| congruence].
    destruct (Hbad2 eq_refl) as [Hx | [Hx | Hx]]; tauto. }
  destruct (Hgood2 eq_refl) as (Hraw & Hcb & Hbus & Hdev2 & Hwords). subst dev2.
  (* the registers, the pins and the PWM *)
  destruct (init_hardware hw pagemap pwm_ctl pwm_pin_alt fuel env d2)
    as [[failed3 d3] | |] eqn:Hrun3; try discriminate.
  cbn [mbind result_bind] in Hrun.
  destruct (init_hardware_inv hw pagemap pwm_ctl pwm_pin_alt fuel env d2 d3 failed3
              m p q0 q1 _ Hrun3 Hheap Hfresh Hinv2)
    as (dev3 & Hinv3 & Hnz3 & Hfr3 & Hchs3 & Hwd3 & Hbad3 & Hgood3).
  { rewrite Hmp2, Hmp1, Hmp0, Hmp. reflexivity. }
  fold dma_addr w in Hbad3, Hgood3.
  destruct failed3.
  { left. destruct (Hfail _ _ _ _ Hrun Hinv3 Hnz3) as (-> & Hnull & Hml & Hpg & Hmpx).
    split_and!; try assumption; try reflexivity.
    destruct (Hbad3 eq_refl) as [[Hx Hm] | [(Hx & Hk & Hm) | (Hx & Hk & Hm)]].
    - left. split; [tauto | congruence].
    - right. left. unfold reached. split_and!; try assumption. congruence.
    - right. right. unfold reached. split_and!; try assumption. congruence. }
  right. injection Hrun as <- <-.
  destruct (Hgood3 eq_refl) as (Hdma & Hwin & Hmp3 & Hdev3).
  cbn [pwm_raw dma_cb dma_cb_addr] in Hdev3. subst dev3.
  unfold reached. split_and!; try assumption; try reflexivity.
  - apply (init_inv_owned m _ p q0 q1 _ Hheap Hinv3 Hnz3).
  - destruct (Z.eqb_spec q0 0) as [? | _]; [contradiction |].
    destruct (Z.eqb_spec q1 0) as [? | _]; [contradiction |].
    assert (Hch1 : exists ch1, d_channel d !! 1%nat = Some ch1 /\ ch1' = ch1).
    { rewrite Hchs0 in Hch1'. rewrite list_lookup_insert_ne in Hch1' by lia.
      exists ch1'. split; [exact Hch1' | reflexivity]. }
    destruct Hch1 as (ch1 & Hch1 & ->).
    exists ch0, ch1. split; [reflexivity |]. split; [exact Hch1 |].
    assert (Hchs : d_channel d3
                   = <[1%nat := with_leds ch1 (repeat 0 (Z.to_nat (count ch1)))]>
                       (<[0%nat := with_leds ch0 (repeat 0 (Z.to_nat (count ch0)))]>
                          (d_channel d))).
    { rewrite Hchs3, Hchs2, Hchs1, Hchs0. reflexivity. }
    split; [exact Hchs |].
    rewrite Hwd3, <- Hwords, Hchs3, Hchs2, Hfr1, Hfr0. reflexivity.
Qed.

(** X19.  When [ws2811_init] fails it leaves no block behind: the
    device pointer is null, and every block [malloc] and the page
    allocator handed out during the call has been released, so the
    heap and the page pool are as before the call.  When the device
    record itself could not be allocated the call changes nothing
    else, so the two [leds] pointers keep the values they had;
    otherwise they are null.  No register window that was mapped
    before is lost, and a window that is mapped after the call and was
    not before is one [map_device] returned during it.  When an
    allocation, the translation of the descriptor address or
    [dmanum_to_phys] fails, no window is mapped.  When all four calls
    of [map_device] succeed, so that it is [gpio_init] or [setup_pwm]
    that fails, [unmap_registers] is called, and of the four windows
    those whose pointer is not a multiple of the page size stay
    mapped. *)
Theorem ws2811_init_failure {H : Platform} {H0 : PwmSetup} (hw : hardware)
  (pagemap : Z -> option Z) (pwm_ctl : Z) (pwm_pin_alt : nat -> Z -> Z)
  (fuel : nat) (env : init_env) (d d' : driver) :
  heap_ok (d_machine d) -> env_fresh env (d_machine d) ->
  ws2811_init hw pagemap pwm_ctl pwm_pin_alt fuel env d = Ok (-1, d') ->
  let m := d_machine d in
  let m' := d_machine d' in
  let w := env_map_device env in
  device (ws2811 m') = 0
  /\ malloced m' = malloced m /\ paged m' = paged m
  /\ (env_malloc_device env = 0 ->
      m' = set_ws2811 (mk_ws2811 0 (channel_leds (ws2811 m))) m)
  /\ (env_malloc_device env <> 0 -> all_null m')
  /\ mapped m ⊆ mapped m'
  /\ (forall x, x ∈ mapped m' -> x ∉ mapped m ->
        exists k, (k < 4)%nat /\ x = w k /\ x <> 0)
  /\ (env_malloc_device env = 0 \/ env_malloc_leds env 0%nat = 0
      \/ env_malloc_leds env 1%nat = 0 \/ env_dma_alloc env = 0
      \/ env_dma_desc_alloc env = 0
      \/ addr_to_bus pagemap (env_dma_desc_alloc env) = uint32 (Z.lnot 0)
      \/ env_dmanum_to_phys env = 0 ->
      mapped m' = mapped m)
  /\ (env_malloc_device env <> 0 -> env_malloc_leds env 0%nat <> 0 ->
      env_malloc_leds env 1%nat <> 0 -> env_dma_alloc env <> 0 ->
      env_dma_desc_alloc env <> 0 ->
      addr_to_bus pagemap (env_dma_desc_alloc env) <> uint32 (Z.lnot 0) ->
      env_dmanum_to_phys env <> 0 ->
      (forall k, (k < 4)%nat -> w k <> 0) ->
      mapped m' = stuck_windows w ∪ mapped m).
Proof.
  intros Hheap Hfresh Hrun m m' w.
  destruct (ws2811_init_cases hw pagemap pwm_ctl pwm_pin_alt fuel env d d' (-1)
              Hheap Hfresh Hrun)
    as [(Hp & _ & Hd') | [(Hp & _ & Hnull & Hml & Hpg & Hmp) | (_ & Hrc & _)]];
    [| | discriminate].
  - unfold m'. rewrite Hd'. cbn [d_machine set_d_machine]. machine_simpl.
    split_and!; try reflexivity; try (intros; contradiction);
      try (intros; reflexivity).
  - fold m m' w in Hnull, Hml, Hpg, Hmp.
    split; [apply Hnull |]. split; [exact Hml |]. split; [exact Hpg |].
    split; [intros Hz; contradiction |]. split; [intros _; exact Hnull |].
    destruct Hmp as [[Hbad Hm] | [(Hre & Hk & Hm) | (Hre & Hall & Hm)]].
    + rewrite Hm. split; [reflexivity |]. split; [intros x Hx Hn; contradiction |].
      split; [intros _; reflexivity |].
      intros N0 N1 N2 N3 N4 N5 N6 _. exfalso.
      destruct Hbad as [? | [? | [? | [? | [? | ?]]]]]; contradiction.
    + rewrite Hm. split; [intros x Hx; apply elem_of_union; right; exact Hx |].
      split.
      { intros x Hx Hn. apply elem_of_union in Hx.
        destruct Hx as [Hx | Hx]; [| contradiction].
        apply mapped_windows_elem in Hx. destruct Hx as (Hnz & j & Hj & ->).
        exists j. split; [lia |]. split; [reflexivity | exact Hnz]. }
      split.
      { intros Hbad. exfalso.
        destruct Hre as (R0 & R1 & R2 & R3 & R4 & R5).
        destruct Hbad as [? | [? | [? | [? | [? | [? | ?]]]]]]; contradiction. }
      intros _ _ _ _ _ _ _ Hall'. exfalso.
      destruct Hk as (k & Hk & Hz). exact (Hall' k Hk Hz).
    + rewrite Hm. split; [intros x Hx; apply elem_of_union; right; exact Hx |].
      split.
      { intros x Hx Hn. apply elem_of_union in Hx.
        destruct Hx as [Hx | Hx]; [| contradiction].
        apply elem_of_stuck_windows in Hx. destruct Hx as (k & Hk & -> & _).
        exists k. split; [exact Hk |]. split; [reflexivity | exact (Hall k Hk)]. }
      split.
      { intros Hbad. exfalso.
        destruct Hre as (R0 & R1 & R2 & R3 & R4 & R5).
        destruct Hbad as [? | [? | [? | [? | [? | [? | ?]]]]]]; contradiction. }
      intros _ _ _ _ _ _ _ _. reflexivity.
Qed.

(** X20.  A register window is leaked when [map_registers] fails after
    its first call of [map_device]: [ws2811_init] then goes to its
    error exit without unmapping, so it returns -1 with the instance
    cleaned up and the device pointer null while the windows mapped so
    far, that of the DMA channel among them, stay mapped. *)
Theorem ws2811_init_window_leak {H : Platform} {H0 : PwmSetup} (hw : hardware)
  (pagemap : Z -> option Z) (pwm_ctl : Z) (pwm_pin_alt : nat -> Z -> Z)
  (fuel : nat) (env : init_env) (d d' : driver) (rc : Z) (k : nat) :
  heap_ok (d_machine d) -> env_fresh env (d_machine d) ->
  ws2811_init hw pagemap pwm_ctl pwm_pin_alt fuel env d = Ok (rc, d') ->
  env_malloc_device env <> 0 ->
  env_malloc_leds env 0%nat <> 0 -> env_malloc_leds env 1%nat <> 0 ->
  env_dma_alloc env <> 0 -> env_dma_desc_alloc env <> 0 ->
  addr_to_bus pagemap (env_dma_desc_alloc env) <> uint32 (Z.lnot 0) ->
  env_dmanum_to_phys env <> 0 ->
  env_map_device env 0%nat <> 0 ->
  (k < 4)%nat -> env_map_device env k = 0 ->
  let m := d_machine d in
  let m' := d_machine d' in
  rc = -1 /\ all_null m'
  /\ mapped m' = mapped_windows (env_map_device env) 0 4 ∪ mapped m
  /\ env_map_device env 0%nat ∈ mapped m'
  /\ env_map_device env 0%nat ∉ mapped m.
Proof.
  intros Hheap Hfresh Hrun Hp Hq0 Hq1 Hraw Hcb Hbus Hdma Hw0 Hk Hwk m m'.
  assert (Hnew : env_map_device env 0%nat ∉ mapped m).
  { destruct Hfresh as (_ & _ & _ & _ & _ & Hfw). apply Hfw; [lia | exact Hw0]. }
  destruct (ws2811_init_cases hw pagemap pwm_ctl pwm_pin_alt fuel env d d' rc
              Hheap Hfresh Hrun)
    as [(Hz & _) | [(_ & Hrc & Hnull & _ & _ & Hmp) | (_ & _ & _ & Hall & _)]].
  - contradiction.
  - fold m m' in Hnull, Hmp.
    destruct Hmp as [[Hbad _] | [(_ & _ & Hm) | (_ & Hall & _)]].
    + exfalso. destruct Hbad as [? | [? | [? | [? | [? | ?]]]]]; contradiction.
    + split; [exact Hrc |]. split; [exact Hnull |]. split; [exact Hm |].
      split; [| exact Hnew].
      rewrite Hm. apply elem_of_union. left. cbn [mapped_windows].
      destruct (Z.eqb_spec (env_map_device env 0%nat) 0) as [? | _]; [contradiction |].
      apply elem_of_union. left. apply elem_of_singleton. reflexivity.
    + exfalso. exact (Hall k Hk Hwk).
  - exfalso. exact (Hall k Hk Hwk).
Qed.

(** X21.  When [ws2811_init] returns 0, every step has succeeded and
    the instance owns what it was given: the device record, the two
    LED arrays, the raw buffer and the descriptor storage are distinct
    live blocks, the device record holds the pointers to the buffer,
    the descriptors with their bus address and the four register
    windows, which are mapped; each LED array holds [count] zeros and
    the raw buffer holds what [pwm_raw_init] stores for these
    channels. *)
Theorem ws2811_init_success {H : Platform} {H0 : PwmSetup} (hw : hardware)
  (pagemap : Z -> option Z) (pwm_ctl : Z) (pwm_pin_alt : nat -> Z -> Z)
  (fuel : nat) (env : init_env) (d d' : driver) :
  heap_ok (d_machine d) -> env_fresh env (d_machine d) ->
  ws2811_init hw pagemap pwm_ctl pwm_pin_alt fuel env d = Ok (0, d') ->
  let m := d_machine d in
  let m' := d_machine d' in
  let p := env_malloc_device env in
  let q0 := env_malloc_leds env 0%nat in
  let q1 := env_malloc_leds env 1%nat in
  let raw := env_dma_alloc env in
  let cb := env_dma_desc_alloc env in
  let bus := addr_to_bus pagemap cb in
  let w := env_map_device env in
  owned_ok m'
  /\ (p <> 0 /\ q0 <> 0 /\ q1 <> 0 /\ raw <> 0 /\ cb <> 0
      /\ bus <> uint32 (Z.lnot 0) /\ forall k, (k < 4)%nat -> w k <> 0)
  /\ ws2811 m' = mk_ws2811 p [q0; q1]
  /\ devices m' !! p
     = Some (mk_device raw (w 0%nat) (w 1%nat) cb bus (w 2%nat) (w 3%nat))
  /\ malloced m' = {[q1]} ∪ ({[q0]} ∪ ({[p]} ∪ malloced m))
  /\ paged m' = {[cb]} ∪ ({[raw]} ∪ paged m)
  /\ mapped m' = mapped_windows w 0 4 ∪ mapped m
  /\ exists ch0 ch1,
       d_channel d !! 0%nat = Some ch0 /\ d_channel d !! 1%nat = Some ch1
       /\ d_channel d'
          = <[1%nat := with_leds ch1 (repeat 0 (Z.to_nat (count ch1)))]>
              (<[0%nat := with_leds ch0 (repeat 0 (Z.to_nat (count ch0)))]>
                 (d_channel d))
       /\ pwm_raw_init (d_channel d') (uint32 (d_freq d)) (env_dma_words env)
          = Ok (d_words d').
Proof.
  intros Hheap Hfresh Hrun m m' p q0 q1 raw cb bus w.
  destruct (ws2811_init_cases hw pagemap pwm_ctl pwm_pin_alt fuel env d d' 0
              Hheap Hfresh Hrun)
    as [(_ & Hrc & _) | [(_ & Hrc & _)
        | (Hp & _ & Hreached & Hwin & Hinv & Hmp & Hok & Hdata)]];
    [discriminate | discriminate |].
  fold m m' p q0 q1 raw cb bus w in Hreached, Hwin, Hinv, Hmp, Hok, Hdata.
  destruct Hreached as (Hq0 & Hq1 & Hraw & Hcb & Hbus & _).
  destruct Hinv as (_ & _ & _ & _ & _ & _ & Hws & Hdv & Hml & Hpg).
  cbn [pwm_raw dma_cb] in Hpg. unfold opt_block in Hml, Hpg.
  rewrite !decide_False in Hml by assumption.
  rewrite !decide_False in Hpg by assumption.
  split; [exact Hok |].
  split; [split_and!; assumption |].
  split; [exact Hws |].
  split; [rewrite Hdv; apply lookup_insert_eq |].
  split; [exact Hml |]. split; [exact Hpg |]. split; [exact Hmp |].
  exact Hdata.
Qed.

(** The blank client structure and an environment of fresh blocks
    satisfy what initialization assumes. *)
Ltac blank_state :=
  first
    [ apply not_elem_of_empty
    | apply lookup_empty
    | reflexivity
    | intros; apply not_elem_of_empty
    | intros; apply lookup_empty
    | intros; split_and!; first [apply not_elem_of_empty | discriminate] ].

Lemma ws2811_init_failure_witness :
  let m := d_machine bad_pin_driver in
  let m' := d_machine bad_pin_init in
  let w := env_map_device board_env in
  device (ws2811 m') = 0
  /\ malloced m' = malloced m /\ paged m' = paged m
  /\ (env_malloc_device board_env = 0 ->
      m' = set_ws2811 (mk_ws2811 0 (channel_leds (ws2811 m))) m)
  /\ (env_malloc_device board_env <> 0 -> all_null m')
  /\ mapped m ⊆ mapped m'
  /\ (forall x, x ∈ mapped m' -> x ∉ mapped m ->
        exists k, (k < 4)%nat /\ x = w k /\ x <> 0)
  /\ (env_malloc_device board_env = 0 \/ env_malloc_leds board_env 0%nat = 0
      \/ env_malloc_leds board_env 1%nat = 0 \/ env_dma_alloc board_env = 0
      \/ env_dma_desc_alloc board_env = 0
      \/ addr_to_bus identity_pagemap (env_dma_desc_alloc board_env)
         = uint32 (Z.lnot 0)
      \/ env_dmanum_to_phys board_env = 0 ->
      mapped m' = mapped m)
  /\ (env_malloc_device board_env <> 0 -> env_malloc_leds board_env 0%nat <> 0 ->
      env_malloc_leds board_env 1%nat <> 0 -> env_dma_alloc board_env <> 0 ->
      env_dma_desc_alloc board_env <> 0 ->
      addr_to_bus identity_pagemap (env_dma_desc_alloc board_env)
      <> uint32 (Z.lnot 0) ->
      env_dmanum_to_phys board_env <> 0 ->
      (forall k, (k < 4)%nat -> w k <> 0) ->
      mapped m' = stuck_windows (H := bcm2835) w ∪ mapped m).
Proof.
  apply (ws2811_init_failure (H := bcm2835) (H0 := bcm2835_pwm) clock_hardware
           identity_pagemap 0 sample_pin_alt 5 board_env bad_pin_driver bad_pin_init).
  - unfold heap_ok. split_and!; blank_state.
  - unfold env_fresh. split_and!; blank_state.
  - vm_compute. reflexivity.
Defined.

Lemma ws2811_init_window_leak_witness :
  let m := d_machine blank_driver in
  let m' := d_machine no_gpio_init in
  -1 = -1 /\ all_null m'
  /\ mapped m' = mapped_windows (env_map_device no_gpio_env) 0 4 ∪ mapped m
  /\ env_map_device no_gpio_env 0%nat ∈ mapped m'
  /\ env_map_device no_gpio_env 0%nat ∉ mapped m.
Proof.
  apply (ws2811_init_window_leak (H := bcm2835) (H0 := bcm2835_pwm) clock_hardware
           identity_pagemap 0 sample_pin_alt 5 no_gpio_env blank_driver no_gpio_init
           (-1) 2).
  - unfold heap_ok. split_and!; blank_state.
  - unfold env_fresh. split_and!; blank_state.
  - vm_compute. reflexivity.
  - discriminate.
  - discriminate.
  - discriminate.
  - discriminate.
  - discriminate.
  - intros Hbus. vm_compute in Hbus. discriminate.
  - discriminate.
  - discriminate.
  - lia.
  - reflexivity.
Defined.

Lemma ws2811_init_success_witness :
  let m := d_machine blank_driver in
  let m' := d_machine good_init in
  let p := env_malloc_device good_env in
  let q0 := env_malloc_leds good_env 0%nat in
  let q1 := env_malloc_leds good_env 1%nat in
  let raw := env_dma_alloc good_env in
  let cb := env_dma_desc_alloc good_env in
  let bus := addr_to_bus identity_pagemap cb in
  let w := env_map_device good_env in
  owned_ok m'
  /\ (p <> 0 /\ q0 <> 0 /\ q1 <> 0 /\ raw <> 0 /\ cb <> 0
      /\ bus <> uint32 (Z.lnot 0) /\ forall k, (k < 4)%nat -> w k <> 0)
  /\ ws2811 m' = mk_ws2811 p [q0; q1]
  /\ devices m' !! p
     = Some (mk_device raw (w 0%nat) (w 1%nat) cb bus (w 2%nat) (w 3%nat))
  /\ malloced m' = {[q1]} ∪ ({[q0]} ∪ ({[p]} ∪ malloced m))
  /\ paged m' = {[cb]} ∪ ({[raw]} ∪ paged m)
  /\ mapped m' = mapped_windows w 0 4 ∪ mapped m
  /\ exists ch0 ch1,
       d_channel blank_driver !! 0%nat = Some ch0
       /\ d_channel blank_driver !! 1%nat = Some ch1
       /\ d_channel good_init
          = <[1%nat := with_leds ch1 (repeat 0 (Z.to_nat (count ch1)))]>
              (<[0%nat := with_leds ch0 (repeat 0 (Z.to_nat (count ch0)))]>
                 (d_channel blank_driver))
       /\ pwm_raw_init (d_channel good_init) (uint32 (d_freq blank_driver))
            (env_dma_words good_env)
          = Ok (d_words good_init).
Proof.
  apply (ws2811_init_success (H := bcm2835) (H0 := bcm2835_pwm) clock_hardware
           identity_pagemap 0 sample_pin_alt 5 good_env blank_driver good_init).
  - unfold heap_ok. split_and!; blank_state.
  - unfold env_fresh. split_and!; blank_state.
  - vm_compute. reflexivity.
Defined.

(** ** Programming the PWM *)

Lemma enable_poll_exact (hw : hardware) {H : Platform} : forall d t fuel,
  (forall t', (t <= t' < t + d)%nat -> clock_idle hw t') ->
  ~ clock_idle hw (t + d) ->
  enable_poll hw fuel t = if (d <? fuel)%nat then Ok (S (t + d)) else Timeout.
Proof.
  induction d as [| d IH]; intros t fuel Hidle Hbusy.
  - rewrite Nat.add_0_r in *. destruct fuel as [| fuel]; [reflexivity |].
    cbn [enable_poll]. unfold clock_idle in Hbusy.
    destruct (Z.eqb_spec (Z.land (cm_pwm_ctl hw t) CM_PWM_CTL_BUSY) 0) as [Hb | _];
      [contradiction | reflexivity].
  - destruct fuel as [| fuel]; [reflexivity |].
    cbn [enable_poll].
    destruct (Z.eqb_spec (Z.land (cm_pwm_ctl hw t) CM_PWM_CTL_BUSY) 0) as [_ | Hb].
    2: { exfalso. apply Hb. apply (Hidle t). lia. }
    rewrite (IH (S t) fuel).
    + change (S d <? S fuel)%nat with (d <? fuel)%nat.
      replace (S t + d)%nat with (t + S d)%nat by lia. reflexivity.
    + intros t' Ht'. apply Hidle. lia.
    + replace (S t + d)%nat with (t + S d)%nat by lia. exact Hbusy.
Qed.

Lemma triple_wraps_to_zero (f : Z) : uint32 (3 * uint32 f) = 0 <-> uint32 f = 0.
Proof.
  unfold uint32. pose proof (Z.mod_pos_bound f (2 ^ 32) ltac:(lia)) as Hf.
  set (x := f mod 2 ^ 32) in *. clearbody x.
  change (2 ^ 32) with 4294967296 in *.
  split; intros Hx; [| subst x; reflexivity].
  pose proof (Z.div_mod (3 * x) 4294967296 ltac:(lia)) as Hdm.
  rewrite Hx in Hdm. lia.
Qed.

(** X22.  [setup_pwm] divides the oscillator frequency by three times
    the target frequency and never checks the divisor: with a
    frequency of zero (or any multiple of 2^32, the product being a
    [uint32_t]) the division is by zero, once [stop_pwm] has returned. *)
Theorem setup_pwm_zero_frequency {H : Platform} {H0 : PwmSetup} (hw : hardware)
  (pagemap : Z -> option Z) (pwm_ctl : Z) (fuel : nat) (d : driver)
  (m1 : machine) :
  stop_pwm hw fuel (d_machine d) = Ok m1 ->
  uint32 (d_freq d) = 0 ->
  setup_pwm hw pagemap pwm_ctl fuel d = Fault.
Proof.
  intros Hstop Hfreq. unfold setup_pwm.
  destruct (load_device (d_machine d)) as [dev | |] eqn:Hdev.
  - cbn [mbind result_bind]. rewrite Hstop. cbn [mbind result_bind].
    rewrite Hfreq. reflexivity.
  - reflexivity.
  - unfold stop_pwm in Hstop. rewrite Hdev in Hstop. discriminate.
Qed.

(** X23.  What [setup_pwm] does on hardware whose clock stops and
    starts: with a frequency that is not zero, a clock that comes to
    rest at read [a] of its control register and is running again
    [b] reads after it was enabled, the function makes these register
    stores, in this order: 0 to the PWM control register and the kill
    to the clock control register, the divisor, the clock source, the
    clock source with the enable bit, the range of 32, the FIFO clear,
    the DMA request levels, the mode bits, and the mode bits as read
    back with the two enable bits.  The result is that of the
    descriptor chain: when a page does not translate the function
    returns -1 with the PWM and its clock left running, and only
    otherwise goes on to clear the control/status register and then
    the transfer length of the DMA channel. *)
Theorem setup_pwm_result {H : Platform} {H0 : PwmSetup} (hw : hardware)
  (pagemap : Z -> option Z) (pwm_ctl : Z) (fuel : nat) (d : driver)
  (dev : ws2811_device_t) (a b : nat) (rc : Z) (st : chain_state) :
  load_device (d_machine d) = Ok dev ->
  dma dev ∈ mapped (d_machine d) ->
  pwm dev ∈ mapped (d_machine d) ->
  cm_pwm dev ∈ mapped (d_machine d) ->
  uint32 (d_freq d) <> 0 ->
  (forall t, (cm_ctl_reads (d_machine d) <= t < cm_ctl_reads (d_machine d) + a)%nat ->
             ~ clock_idle hw t) ->
  clock_idle hw (cm_ctl_reads (d_machine d) + a) ->
  (forall t, (cm_ctl_reads (d_machine d) + a < t
              < cm_ctl_reads (d_machine d) + a + 1 + b)%nat ->
             clock_idle hw t) ->
  ~ clock_idle hw (cm_ctl_reads (d_machine d) + a + 1 + b) ->
  (a < fuel)%nat -> (b < fuel)%nat ->
  setup_pwm_chain pagemap (dma_cb dev) (d_pages d)
    (max_channel_led_count (d_channel d)) (uint32 (d_freq d)) (d_descs d)
  = Ok (rc, st) ->
  exists d',
    setup_pwm hw pagemap pwm_ctl fuel d = Ok (rc, d')
    /\ (rc = 0 \/ rc = -1)
    /\ reg_writes (d_machine d')
       = rev ([PwmCtl 0;
               CmPwmCtl (Z.lor CM_PWM_CTL_PASSWD CM_PWM_CTL_KILL);
               CmPwmDiv (Z.lor CM_PWM_DIV_PASSWD
                           (CM_PWM_DIV_DIVI
                              (OSC_FREQ / uint32 (3 * uint32 (d_freq d)))));
               CmPwmCtl (Z.lor CM_PWM_CTL_PASSWD CM_PWM_CTL_SRC_OSC);
               CmPwmCtl (Z.lor (Z.lor CM_PWM_CTL_PASSWD CM_PWM_CTL_SRC_OSC)
                               CM_PWM_CTL_ENAB);
               PwmRng1 32;
               PwmCtl RPI_PWM_CTL_CLRF1;
               PwmDmac (Z.lor (Z.lor RPI_PWM_DMAC_ENAB (RPI_PWM_DMAC_PANIC 7))
                              (RPI_PWM_DMAC_DREQ 3));
               PwmCtl (Z.lor (Z.lor (Z.lor RPI_PWM_CTL_USEF1 RPI_PWM_CTL_MODE1)
                                     RPI_PWM_CTL_USEF2) RPI_PWM_CTL_MODE2);
               PwmCtl (Z.lor pwm_ctl (Z.lor RPI_PWM_CTL_PWEN1 RPI_PWM_CTL_PWEN2))]
              ++ (if rc =? 0 then [DmaReg (DmaCs 0); DmaReg (DmaTxfrLen 0)]
                  else []))
         ++ reg_writes (d_machine d)
    /\ cm_ctl_reads (d_machine d') = (cm_ctl_reads (d_machine d) + a + b + 2)%nat
    /\ d_descs d' = cbs st
    /\ d_pages d' = d_pages d /\ d_fsel d' = d_fsel d.
Proof.
  intros Hdev Hdma Hpwm Hcm Hfreq Hbusy Hidle Hidle2 Hbusy2 Ha Hb Hchain.
  assert (Hrc : rc = 0 \/ rc = -1).
  { unfold setup_pwm_chain in Hchain.
    destruct (chain_loop _ _ _ _) as [[failed st0] | |]; try discriminate.
    cbn [mbind result_bind] in Hchain. destruct failed.
    - injection Hchain as <- _. right. reflexivity.
    - destruct (cbs st0 !! cb_index st0); [| discriminate].
      injection Hchain as <- _. left. reflexivity. }
  unfold setup_pwm, stop_pwm. rewrite Hdev. cbn [mbind result_bind].
  rewrite decide_True by exact Hpwm. rewrite decide_True by exact Hcm.
  cbn [cm_ctl_reads push_reg_write].
  rewrite (busy_poll_exact hw a _ fuel Hbusy Hidle).
  apply Nat.ltb_lt in Ha. rewrite Ha. cbn [mbind result_bind].
  destruct (Z.eqb_spec (uint32 (3 * uint32 (d_freq d))) 0) as [Hz | _].
  { exfalso. apply Hfreq. apply triple_wraps_to_zero. exact Hz. }
  machine_simpl.
  rewrite (enable_poll_exact hw b _ fuel).
  2: { intros t Ht. apply Hidle2. lia. }
  2: { replace (S (cm_ctl_reads (d_machine d) + a) + b)%nat
         with (cm_ctl_reads (d_machine d) + a + 1 + b)%nat by lia.
       exact Hbusy2. }
  apply Nat.ltb_lt in Hb. rewrite Hb. cbn [mbind result_bind].
  rewrite Hchain. cbn [mbind result_bind].
  destruct Hrc as [-> | ->].
  - change (0 =? 0) with true. cbn match.
    rewrite decide_True by (machine_simpl; exact Hdma).
    eexists. split; [reflexivity |].
    cbn [d_machine d_descs d_pages d_fsel]. machine_simpl.
    split_and!; try reflexivity; try (left; reflexivity). lia.
  - change (-1 =? 0) with false. cbn match.
    eexists. split; [reflexivity |].
    cbn [d_machine d_descs d_pages d_fsel]. machine_simpl.
    split_and!; try reflexivity; try (right; reflexivity). lia.
Qed.

Lemma setup_pwm_zero_frequency_witness :
  setup_pwm (H := bcm2835) (H0 := bcm2835_pwm) clock_hardware identity_pagemap
    0 5 zero_freq_driver = Fault.
Proof.
  apply (setup_pwm_zero_frequency (H := bcm2835) (H0 := bcm2835_pwm)
           clock_hardware identity_pagemap 0 5 zero_freq_driver
           (set_cm_ctl_reads 1
              (push_reg_write (CmPwmCtl 1509949472)
                 (push_reg_write (PwmCtl 0) sample_machine)))).
  - vm_compute. reflexivity.
  - reflexivity.
Defined.

Lemma setup_pwm_result_witness :
  exists d',
    setup_pwm (H := bcm2835) (H0 := bcm2835_pwm) clock_hardware identity_pagemap
      0 5 ready_driver = Ok (0, d')
    /\ reg_writes (d_machine d')
       = rev [PwmCtl 0; CmPwmCtl 1509949472; CmPwmDiv 1509982208;
              CmPwmCtl 1509949441; CmPwmCtl 1509949457; PwmRng1 32;
              PwmCtl 64; PwmDmac 2147485443; PwmCtl 8738; PwmCtl 257;
              DmaReg (DmaCs 0); DmaReg (DmaTxfrLen 0)].
Proof.
  destruct (setup_pwm_chain (H := bcm2835) identity_pagemap 8192 [65536]
              (max_channel_led_count (d_channel ready_driver)) 800000
              (d_descs ready_driver)) as [[rc st] | |] eqn:Hchain;
    try (vm_compute in Hchain; discriminate).
  assert (Hrc : rc = 0) by (vm_compute in Hchain; congruence).
  subst rc.
  destruct (setup_pwm_result (H := bcm2835) (H0 := bcm2835_pwm) clock_hardware
              identity_pagemap 0 5 ready_driver
              (mk_device 4096 5000 6000 8192 1073750016 7000 8000)
              0 0 0 st) as (d' & Hrun & _ & Hregs & _).
  - reflexivity.
  - vm_compute. reflexivity.
  - vm_compute. reflexivity.
  - vm_compute. reflexivity.
  - vm_compute. discriminate.
  - intros t Ht. vm_compute in Ht. lia.
  - vm_compute. reflexivity.
  - intros t Ht. vm_compute in Ht. lia.
  - intros Hx. vm_compute in Hx. discriminate.
  - lia.
  - lia.
  - exact Hchain.
  - exists d'. split; [exact Hrun |]. rewrite Hregs. reflexivity.
Defined.

(** ** Initialization followed by shutdown *)

Lemma mapped_windows_all (w : nat -> Z) (k : nat) :
  (forall j, (j < 4)%nat -> w j <> 0) -> (k < 4)%nat ->
  w k ∈ mapped_windows w 0 4.
Proof.
  intros Hnz Hk. unfold mapped_windows.
  rewrite !(proj2 (Z.eqb_neq _ 0)) by (apply Hnz; lia).
  rewrite !elem_of_union, !elem_of_singleton.
  destruct k as [| [| [| [| k]]]]; [tauto | tauto | tauto | tauto | lia].
Qed.

(** X24.  Initialization followed by shutdown returns every block but
    not every register window: after [ws2811_init] has returned 0,
    [ws2811_fini] on hardware that comes to rest returns with every
    owned pointer null and with exactly the heap blocks and pages live
    that were live before [ws2811_init] was called.  Of the four
    register windows those whose pointer is not a multiple of the page
    size are still mapped, with no pointer to them left: on a board
    these are the windows of the DMA channel and of the PWM clock. *)
Theorem ws2811_init_fini_round_trip {H : Platform} {H0 : PwmSetup}
  (hw : hardware) (pagemap : Z -> option Z) (pwm_ctl : Z)
  (pwm_pin_alt : nat -> Z -> Z) (fuel : nat) (env : init_env)
  (d d' : driver) (T : nat) :
  heap_ok (d_machine d) -> env_fresh env (d_machine d) ->
  ws2811_init hw pagemap pwm_ctl pwm_pin_alt fuel env d = Ok (0, d') ->
  (forall t, (T <= t)%nat -> active_clear hw t)
  \/ (forall t, (T <= t)%nat -> error_set hw t) ->
  (forall t, (T <= t)%nat -> clock_idle hw t) ->
  exists fuel' m1,
    ws2811_fini hw fuel' (d_machine d') = Ok m1
    /\ all_null m1
    /\ malloced m1 = malloced (d_machine d)
    /\ paged m1 = paged (d_machine d)
    /\ mapped m1 = stuck_windows (env_map_device env) ∪ mapped (d_machine d)
    /\ (forall k, (k < 4)%nat ->
          env_map_device env k ∈ mapped m1
          <-> env_map_device env k mod PAGE_SIZE <> 0).
Proof.
  intros Hheap Hfresh Hrun Hstable Hidle.
  destruct (ws2811_init_cases hw pagemap pwm_ctl pwm_pin_alt fuel env d d' 0
              Hheap Hfresh Hrun)
    as [(_ & Hrc & _) | [(_ & Hrc & _)
        | (Hp & _ & Hreached & Hwin & Hinv & Hmp & Hok & _)]];
    [discriminate | discriminate |].
  cbv zeta in Hreached, Hwin, Hinv, Hmp, Hok.
  set (m := d_machine d) in *. set (m' := d_machine d') in *.
  set (w := env_map_device env) in *.
  set (dev := mk_device _ _ _ _ _ _ _) in Hinv.
  destruct Hinv as (_ & Hpf & Hl0 & Hl1 & Hraw & Hcb & Hws & Hdv & Hml & Hpg).
  assert (Hwm : forall k, (k < 4)%nat -> w k ∈ mapped m').
  { intros k Hk. rewrite Hmp. apply elem_of_union. left.
    apply mapped_windows_all; [exact Hwin | exact Hk]. }
  assert (Hfw : forall k, (k < 4)%nat -> w k ∉ mapped m).
  { intros k Hk. destruct Hfresh as (_ & _ & _ & _ & _ & Hfw).
    apply Hfw; [exact Hk | apply Hwin; exact Hk]. }
  destruct (fini_exact hw m' (env_malloc_leds env 0%nat) (env_malloc_leds env 1%nat)
              dev Hok) with (T := T)
    as (fuel' & m1 & Hfini & Hnull & Hml1 & Hpg1 & Hmp1 & _).
  - rewrite Hws. reflexivity.
  - intros _. rewrite Hws, Hdv. cbn [device]. apply lookup_insert_eq.
  - rewrite Hws. exact Hp.
  - apply (Hwm 0%nat). lia.
  - apply (Hwm 1%nat). lia.
  - apply (Hwm 3%nat). lia.
  - exact Hstable.
  - exact Hidle.
  - exists fuel', m1.
    split; [exact Hfini |]. split; [exact Hnull |].
    rewrite Hws in Hml1, Hpg1. cbn [device] in Hml1, Hpg1.
    rewrite decide_False in Hpg1 by exact Hp.
    assert (Hmapped : mapped m1 = stuck_windows w ∪ mapped m).
    { rewrite Hmp1, Hmp. cbn [gpio cm_pwm pwm dma dev].
      apply unmap_windows; [exact Hwin | exact Hfw]. }
    split; [| split; [| split]].
    + rewrite Hml1, Hml. apply heap_restored; assumption.
    + rewrite Hpg1, Hpg. apply pages_restored; assumption.
    + exact Hmapped.
    + intros k Hk. rewrite Hmapped, elem_of_union, elem_of_stuck_windows. split.
      * intros [(j & _ & Hj & Ha) | Hin]; [exact Ha |].
        exfalso. exact (Hfw k Hk Hin).
      * intros Ha. left. exists k. split; [exact Hk |]. split; [reflexivity | exact Ha].
Qed.

Lemma ws2811_init_fini_round_trip_witness :
  exists fuel' m1,
    ws2811_fini (H := bcm2835) pulse_clock_hardware fuel' (d_machine pulse_init)
    = Ok m1
    /\ all_null m1
    /\ malloced m1 = malloced (d_machine blank_driver)
    /\ paged m1 = paged (d_machine blank_driver)
    /\ mapped m1
       = stuck_windows (H := bcm2835) (env_map_device board_env)
         ∪ mapped (d_machine blank_driver)
    /\ (forall k, (k < 4)%nat ->
          env_map_device board_env k ∈ mapped m1
          <-> env_map_device board_env k mod PAGE_SIZE (Platform := bcm2835) <> 0).
Proof.
  apply (ws2811_init_fini_round_trip (H := bcm2835) (H0 := bcm2835_pwm)
           pulse_clock_hardware identity_pagemap 0 sample_pin_alt 5 board_env
           blank_driver pulse_init 2).
  - unfold heap_ok. split_and!; blank_state.
  - unfold env_fresh. split_and!; blank_state.
  - vm_compute. reflexivity.
  - left. intros t _. reflexivity.
  - intros t Ht. unfold clock_idle. cbn [cm_pwm_ctl pulse_clock_hardware].
    destruct (Nat.eqb_spec t 1) as [-> | _]; [lia | reflexivity].
Defined.
